(** * DICOM study aggregator: a shallow embedding of [lambdas/aggregator.py]

    The Lambda handler reads SOP instances from S3, groups them into a
    [Study], projects selected DICOM tags into a FHIR ImagingStudy template
    and POSTs the document to HealthLake.  Python objects are rendered as
    Rocq values, exceptions as an error result, attribute mutation as
    explicit state passing and the calls to S3, SQS and HealthLake as events
    appended to a trace. *)

From Stdlib Require Import ZArith String Ascii Lia.
From stdpp Require Import base option list strings gmap pretty.

Set Warnings "-register-all".
Open Scope Z_scope.

(** ** Exceptions and results *)

(** The Python exceptions the aggregator can raise or let through. *)
Inductive exn :=
| NameError | UnboundLocalError | KeyError | IndexError | TypeError
| ValueError | AttributeError | InvalidDicomError | ClientError
| JSONDecodeError | TransportError.

Inductive result (A : Type) :=
| Ok (a : A)
| Raise (e : exn).
Arguments Ok {A} a.
Arguments Raise {A} e.

Definition rbind {A B} (r : result A) (k : A → result B) : result B :=
  match r with
  | Ok a => k a
  | Raise e => Raise e
  end.

Definition is_ok {A} (r : result A) : bool :=
  match r with Ok _ => true | Raise _ => false end.

#[global] Instance exn_eq_dec : EqDecision exn.
Proof. solve_decision. Defined.

(** ** Python values: nested dicts, lists and scalars

    [json.load] yields dicts keyed by strings; a path segment of a template
    location is a string (dict key) or an integer (list index), and a dict
    assignment may use either as a key.  Dicts keep insertion order, so a
    dict is an association list with unique keys.  Floats are left out. *)

Inductive seg :=
| SKey (s : string)
| SIdx (i : Z).

Inductive pyval :=
| JNull
| JBool (b : bool)
| JNum (n : Z)
| JStr (s : string)
| JArr (l : list pyval)
| JObj (kvs : list (seg * pyval)).

#[global] Instance seg_eq_dec : EqDecision seg.
Proof. solve_decision. Defined.

Module Dict.
(** An insertion-ordered dict with keys of type [K]. *)
Section ordered.
Context {K V : Type} `{EqDecision K}.

Fixpoint get (k : K) (d : list (K * V)) : option V :=
  match d with
  | [] => None
  | (k', v) :: d' => if decide (k = k') then Some v else get k d'
  end.

(** [d[k] = v]: an existing key keeps its position, a new key goes last. *)
Fixpoint set (k : K) (v : V) (d : list (K * V)) : list (K * V) :=
  match d with
  | [] => [(k, v)]
  | (k', v') :: d' =>
      if decide (k = k') then (k, v) :: d' else (k', v') :: set k v d'
  end.

Definition mem (k : K) (d : list (K * V)) : bool :=
  match get k d with Some _ => true | None => false end.

Definition keys (d : list (K * V)) : list K := d.*1.
End ordered.
End Dict.

(** Python sequence index: [0 <= i < n], or negative counting from the end. *)
Definition norm_index (n : nat) (i : Z) : option nat :=
  if decide (0 ≤ i < Z.of_nat n) then Some (Z.to_nat i)
  else if decide (- Z.of_nat n ≤ i < 0) then Some (Z.to_nat (Z.of_nat n + i))
  else None.

Definition chars (s : string) : list string :=
  (λ c, String c EmptyString) <$> list_ascii_of_string s.

(** [operator.getitem(d, k)], i.e. [d[k]]. *)
Definition getitem (d : pyval) (k : seg) : result pyval :=
  match d, k with
  | JObj kvs, _ =>
      match Dict.get k kvs with Some v => Ok v | None => Raise KeyError end
  | JArr l, SIdx i =>
      match norm_index (length l) i ≫= (l !!.) with
      | Some v => Ok v
      | None => Raise IndexError
      end
  | JStr s, SIdx i =>
      match norm_index (length (chars s)) i ≫= (chars s !!.) with
      | Some c => Ok (JStr c)
      | None => Raise IndexError
      end
  | _, _ => Raise TypeError
  end.

(** [d[k] = v]. *)
Definition setitem (d : pyval) (k : seg) (v : pyval) : result pyval :=
  match d, k with
  | JObj kvs, _ => Ok (JObj (Dict.set k v kvs))
  | JArr l, SIdx i =>
      match norm_index (length l) i with
      | Some n => Ok (JArr (<[n:=v]> l))
      | None => Raise IndexError
      end
  | _, _ => Raise TypeError
  end.

(** [reduce(getitem, path, d)]. *)
Definition reduce_getitem (path : list seg) (d : pyval) : result pyval :=
  foldl (λ acc k, rbind acc (λ c, getitem c k)) (Ok d) path.

(** [set_nested_item]: [reduce(getitem, mapList[:-1], dataDict)[mapList[-1]] = val].
    The walk to the innermost container and the in-place store are rendered
    by descending along [mapList] and storing each updated container back
    at its segment; [set_nested_item_walk] below relates it to the walk. *)
Fixpoint set_nested_item (dataDict : pyval) (mapList : list seg) (val : pyval)
  : result pyval :=
  match mapList with
  | [] => Raise IndexError
  | [k] => setitem dataDict k val
  | k :: rest =>
      rbind (getitem dataDict k) (λ c,
      rbind (set_nested_item c rest val) (λ c',
      setitem dataDict k c'))
  end.

(** ** State and exceptions

    A computation threads a state [S] and either returns or raises; the
    state reached when an exception is raised is kept, as attribute
    assignments made before a Python exception stay in place. *)

Definition M (S A : Type) : Type := S → result A * S.

Definition ret {S A} (a : A) : M S A := λ s, (Ok a, s).
Definition raise {S A} (e : exn) : M S A := λ s, (Raise e, s).
Definition bind {S A B} (m : M S A) (k : A → M S B) : M S B :=
  λ s, match m s with
       | (Ok a, s') => k a s'
       | (Raise e, s') => (Raise e, s')
       end.
Definition gets {S A} (f : S → A) : M S A := λ s, (Ok (f s), s).
Definition modify {S} (f : S → S) : M S unit := λ s, (Ok tt, f s).
Definition from_result {S A} (r : result A) : M S A := λ s, (r, s).

Notation "'let*' x ':=' m 'in' k" := (bind m (λ x, k))
  (at level 10, x pattern, m at level 100, k at level 200).
Notation "m ';;' k" := (bind m (λ _, k))
  (at level 100, k at level 200, right associativity).

(** [try: body except (E1, E2, ...): handler], with [catches] deciding
    membership of the raised exception in the [except] tuple. *)
Definition try_except {S A} (body : M S A) (catches : exn → bool)
    (handler : M S A) : M S A :=
  λ s, match body s with
       | (Raise e, s') => if catches e then handler s' else (Raise e, s')
       | r => r
       end.

(** Reading a local name that no assignment has bound yet. *)
Definition read_local {S A} (v : option A) : M S A :=
  match v with
  | Some a => ret a
  | None => raise UnboundLocalError
  end.

(** [for x in xs: body x]. *)
Fixpoint for_each {S A} (xs : list A) (body : A → M S unit) : M S unit :=
  match xs with
  | [] => ret tt
  | x :: xs' => body x ;; for_each xs' body
  end.

(** A [for] loop whose body updates loop-carried locals [acc]. *)
Fixpoint for_fold {S A B} (xs : list A) (acc : B) (body : B → A → M S B)
  : M S B :=
  match xs with
  | [] => ret acc
  | x :: xs' => let* acc' := body acc x in for_fold xs' acc' body
  end.

(** ** DICOM element values and data sets

    The value pydicom hands back for an element: text (UI, LO, DA, CS, ...),
    an integer (IS) or [None] for an empty numeric element. *)

Inductive dvalue :=
| DText (s : string)
| DInt (z : Z)
| DNone.

#[global] Instance dvalue_eq_dec : EqDecision dvalue.
Proof. solve_decision. Defined.

(** A data set maps a (group, element) tag to its value. *)
Abbreviation Dataset := (gmap (string * string) dvalue).

Definition is_space (c : ascii) : bool :=
  let n := N_of_ascii c in
  ((9 <=? n) && (n <=? 13) || (28 <=? n) && (n <=? 32))%N.

Definition digit_of (c : ascii) : option Z :=
  let n := N_of_ascii c in
  if ((48 <=? n) && (n <=? 57))%N then Some (Z.of_N n - 48) else None.

(** Decimal digits, single underscores allowed between digits. *)
Fixpoint digits_val (acc : Z) (after_digit : bool) (l : list ascii) : option Z :=
  match l with
  | [] => if after_digit then Some acc else None
  | c :: l' =>
      match digit_of c with
      | Some d => digits_val (10 * acc + d) true l'
      | None =>
          if decide (c = "_"%char) then
            if after_digit then digits_val acc false l' else None
          else None
      end
  end.

Fixpoint lstrip (l : list ascii) : list ascii :=
  match l with
  | c :: l' => if is_space c then lstrip l' else l
  | [] => []
  end.

Definition strip (l : list ascii) : list ascii :=
  reverse (lstrip (reverse (lstrip l))).

(** [int(s)] for a text [s]: surrounding white space, an optional sign and
    decimal digits (ASCII only). *)
Definition int_of_text (s : string) : option Z :=
  match strip (list_ascii_of_string s) with
  | "-"%char :: l => Z.opp <$> digits_val 0 false l
  | "+"%char :: l => digits_val 0 false l
  | l => digits_val 0 false l
  end.

(** [int(v)]. *)
Definition py_int (v : dvalue) : result Z :=
  match v with
  | DInt z => Ok z
  | DNone => Raise TypeError
  | DText s =>
      match int_of_text s with Some z => Ok z | None => Raise ValueError end
  end.

(** [str(v)]. *)
Definition py_str (v : dvalue) : string :=
  match v with
  | DText s => s
  | DInt z => pretty z
  | DNone => "None"
  end.

(** The value as it sits inside a document handed to [json.dumps]. *)
Definition to_pyval (v : dvalue) : pyval :=
  match v with
  | DText s => JStr s
  | DInt z => JNum z
  | DNone => JNull
  end.

(** [prefix + v] for a text [prefix]. *)
Definition py_add_text (prefix : string) (v : dvalue) : result dvalue :=
  match v with
  | DText s => Ok (DText (prefix +:+ s))
  | _ => Raise TypeError
  end.

(** ** [resources.py]: the DICOM attributes that can be mapped *)

Record attribute := {
  key0 : string;
  key1 : string;
  description : string;
  fhir_element : string;
  element_prefix : string
}.

Definition dicom_attribute_map : list (string * attribute) := [
  ("(0020,000D)", {| key0 := "0020"; key1 := "000D";
     description := "(0020,000D) Study Instance UID";
     fhir_element := "ImagingStudy.identifier"; element_prefix := "" |});
  ("(0020,000E)", {| key0 := "0020"; key1 := "000E";
     description := "(0020,000E) UI SeriesInstanceUID";
     fhir_element := "ImagingStudy.series.uid"; element_prefix := "" |});
  ("(0008,0018)", {| key0 := "0008"; key1 := "0018";
     description := "(0008,0018) UI SOPInstanceUID";
     fhir_element := "ImagingStudy.series.instance.uid"; element_prefix := "" |});
  ("(0010,0020)", {| key0 := "0010"; key1 := "0020";
     description := "(0010,0020) Patient ID";
     fhir_element := "ImagingStudy.subject"; element_prefix := "Patient/" |});
  ("(0008,0020)", {| key0 := "0008"; key1 := "0020";
     description := "(0008,0020) DA StudyDate";
     fhir_element := "ImagingStudy.started"; element_prefix := "" |});
  ("(0008,0060)", {| key0 := "0008"; key1 := "0060";
     description := "(0008,0060) CS Modality";
     fhir_element := "ImagingStudy.series.modality"; element_prefix := "" |});
  ("(0018,0015)", {| key0 := "0018"; key1 := "0015";
     description := "(0018,0015) CS BodyPartExamined";
     fhir_element := "ImagingStudy.series.bodySite"; element_prefix := "" |})
].

(** ** The world outside the Lambda *)

(** One entry of the field-mapping file's ['template_map'] list. *)
Record map_entry := {
  entry_key : string;            (* obj['key'] *)
  entry_location : list seg      (* obj['location'] *)
}.

(** The field-mapping file after [json.load]. *)
Record TemplateMap := {
  template_map : list map_entry;
  tags_to_fhir : list string
}.

(** Module-level configuration read from [os.environ], and the remote
    services as the functions the Lambda observes: what reading and decoding
    an object as DICOM gives, what loading an object as JSON gives, how SQS
    answers [send_message] for a queue and a message, and how HealthLake
    answers a POST. *)
Record Env := {
  region : string;
  end_byte : Z;
  template_bucket : string;
  template_key : string;
  template_map_key : string;
  host : string;
  endpoint_base : string;
  dicom_bad_queue : string;
  s3_dcmread : string → string → Z → result Dataset;
  s3_template : string → string → result pyval;
  s3_template_map : string → string → result TemplateMap;
  sqs_send : string → pyval → result unit;
  healthlake : string → pyval → result (Z * string)
}.

(** Calls that leave the Lambda, in the order they are made. *)
Inductive event :=
| S3Get (bucket key : string)
| SqsSend (queue : string) (message_body : pyval)
| HealthlakePost (endpoint : string) (resource : pyval).

Abbreviation trace := (list event).

Definition emit (ev : event) : M trace unit := modify (λ tr, tr ++ [ev]).

(** The module-level [end_byte], default of [Instance.__init__]'s parameter. *)
Definition module_end_byte (env : Env) : Z := end_byte env.

(** The ['template_map'] list of the field-mapping file. *)
Definition template_map_entries (tm : TemplateMap) : list map_entry :=
  template_map tm.

(** ** [class Instance] *)

Module Instance.

Record t := {
  end_byte : Z;
  bucket : string;
  key : string;
  dcm : option Dataset;
  study_uid : dvalue;
  series_uid : dvalue;
  series_number : dvalue;
  instance_uid : dvalue;
  patient_id : dvalue;
  s3_url : string;
  study_date : dvalue;
  instance_number : dvalue;
  modality : dvalue
}.

(** [Instance.read_tags_from_s3].  The [except] handler formats the log
    line with [key], a name bound neither in the method nor in the module,
    so entering the handler raises [NameError]; [dcm] is bound only when
    the [try] body completes. *)
Definition read_tags_from_s3 (env : Env) (bucket key : string) (end_byte : Z)
  : M trace Dataset :=
  let* dcm :=
    try_except
      (emit (S3Get bucket key) ;;
       let* d := from_result (s3_dcmread env bucket key end_byte) in
       ret (Some d))
      (λ e, bool_decide (e = InvalidDicomError ∨ e = TypeError))
      (let* _ := (raise NameError : M trace unit) in ret None) in
  read_local dcm.

(** [self.dcm[g, e].value]. *)
Definition tag_value (dcm : option Dataset) (g e : string) : result dvalue :=
  match dcm with
  | None => Raise TypeError
  | Some ds =>
      match ds !! (g, e) with
      | Some v => Ok v
      | None => Raise KeyError
      end
  end.

(** [Instance.__init__] followed by [Instance.read_instance]: the object
    is visible to the caller only once every attribute is read. *)
Definition read_instance (env : Env) (bucket key : string) (end_byte : Z)
  : M trace t :=
  let* ds := read_tags_from_s3 env bucket key end_byte in
  let dcm := Some ds in
  let* study_uid := from_result (tag_value dcm "0020" "000D") in
  let* series_uid := from_result (tag_value dcm "0020" "000E") in
  let* instance_uid := from_result (tag_value dcm "0008" "0018") in
  let* patient_id := from_result (tag_value dcm "0010" "0020") in
  let* study_date := from_result (tag_value dcm "0008" "0020") in
  let* instance_number := from_result (tag_value dcm "0020" "0013") in
  let* series_number := from_result (tag_value dcm "0020" "0011") in
  let* modality := from_result (tag_value dcm "0008" "0060") in
  ret {| end_byte := end_byte; bucket := bucket; key := key; dcm := dcm;
         study_uid := study_uid; series_uid := series_uid;
         series_number := series_number; instance_uid := instance_uid;
         patient_id := patient_id;
         s3_url := "s3://" +:+ bucket +:+ "/" +:+ key;
         study_date := study_date; instance_number := instance_number;
         modality := modality |}.

(** [Instance(bucket, key)], with [end_byte] defaulting to the module's. *)
Definition new (env : Env) (bucket key : string) : M trace t :=
  read_instance env bucket key (module_end_byte env).

End Instance.

(** [result] counterpart of a list comprehension: stops at the first raise. *)
Fixpoint rmap {A B} (f : A → result B) (l : list A) : result (list B) :=
  match l with
  | [] => Ok []
  | x :: l' => rbind (f x) (λ y, rbind (rmap f l') (λ ys, Ok (y :: ys)))
  end.

(** [for x in v]: the items a Python value yields when iterated. *)
Definition py_iter (v : pyval) : result (list pyval) :=
  match v with
  | JArr l => Ok l
  | JObj kvs =>
      Ok ((λ k, match k with SKey s => JStr s | SIdx i => JNum i end)
            <$> Dict.keys kvs)
  | JStr s => Ok (JStr <$> chars s)
  | _ => Raise TypeError
  end.

(** [len(v)]. *)
Definition py_len (v : pyval) : result Z :=
  match v with
  | JArr l => Ok (Z.of_nat (length l))
  | JObj kvs => Ok (Z.of_nat (length kvs))
  | JStr s => Ok (Z.of_nat (length (chars s)))
  | _ => Raise TypeError
  end.

(** [copy.deepcopy]: values carry no identity, a copy is the value itself. *)
Definition deepcopy (v : pyval) : pyval := v.

(** ** [class Study] *)

Module Study.

Record t := {
  bucket : string;
  instance_keys : list string;
  uid : dvalue;
  instance : option Instance.t;
  series : list (dvalue * list Instance.t);
  series_fhir : pyval;
  imagingstudy_fhir : pyval
}.

Definition set_uid (v : dvalue) (self : t) : t :=
  {| bucket := bucket self; instance_keys := instance_keys self; uid := v;
     instance := instance self; series := series self;
     series_fhir := series_fhir self;
     imagingstudy_fhir := imagingstudy_fhir self |}.

Definition set_instance (v : option Instance.t) (self : t) : t :=
  {| bucket := bucket self; instance_keys := instance_keys self;
     uid := uid self; instance := v; series := series self;
     series_fhir := series_fhir self;
     imagingstudy_fhir := imagingstudy_fhir self |}.

Definition set_series (v : list (dvalue * list Instance.t)) (self : t) : t :=
  {| bucket := bucket self; instance_keys := instance_keys self;
     uid := uid self; instance := instance self; series := v;
     series_fhir := series_fhir self;
     imagingstudy_fhir := imagingstudy_fhir self |}.

Definition set_series_fhir (v : pyval) (self : t) : t :=
  {| bucket := bucket self; instance_keys := instance_keys self;
     uid := uid self; instance := instance self; series := series self;
     series_fhir := v; imagingstudy_fhir := imagingstudy_fhir self |}.

Definition set_imagingstudy_fhir (v : pyval) (self : t) : t :=
  {| bucket := bucket self; instance_keys := instance_keys self;
     uid := uid self; instance := instance self; series := series self;
     series_fhir := series_fhir self; imagingstudy_fhir := v |}.

(** A method runs on the object [self] and on the trace of outside calls. *)
Abbreviation world := (t * trace)%type.

Definition io {A} (m : M trace A) : M world A :=
  λ w, let '(r, tr) := m w.2 in (r, (w.1, tr)).
Definition self_get {A} (f : t → A) : M world A := gets (λ w, f w.1).
Definition self_set (f : t → t) : M world unit := modify (λ w, (f w.1, w.2)).

(** [Study.add_instance]. *)
Definition add_instance (inst : Instance.t) : M world unit :=
  let* series := self_get series in
  let k := Instance.series_uid inst in
  match Dict.get k series with
  | Some sops => self_set (set_series (Dict.set k (sops ++ [inst]) series))
  | None => self_set (set_series (Dict.set k [inst] series))
  end.

(** [Study.to_dl_queue]: [list(inst_key)] of a string is the list of its
    characters.  The message is recorded before [json.dumps]; the call to
    [sqs.send_message] is the event, and an exception it raises leaves the
    method.  The response is returned and dropped by [load]. *)
Definition to_dl_queue (env : Env) (inst_key : string) : M world unit :=
  let* bucket := self_get bucket in
  let message_body :=
    JObj [(SKey "bucket", JStr bucket);
          (SKey "instances", JArr (JStr <$> chars inst_key))] in
  io (emit (SqsSend (dicom_bad_queue env) message_body)) ;;
  io (from_result (sqs_send env (dicom_bad_queue env) message_body)).

(** The body of the loop of [Study.load], for one [key]. *)
Definition load_body (env : Env) (key : string) : M world unit :=
  let* bucket := self_get bucket in
  let* sop := io (Instance.new env bucket key) in
  let* uid := self_get uid in
  (if decide (uid = DText "") then
     self_set (set_uid (Instance.study_uid sop)) ;;
     add_instance sop
   else if decide (uid = Instance.study_uid sop) then
     add_instance sop
   else if decide (uid ≠ Instance.study_uid sop) then
     to_dl_queue env key
   else
     add_instance sop) ;;
  let* instance := self_get instance in
  match instance with
  | None => self_set (set_instance (Some sop))
  | Some _ => ret tt
  end.

(** [Study.load]. *)
Definition load (env : Env) : M world unit :=
  let* instance_keys := self_get instance_keys in
  for_each instance_keys (load_body env).

(** [Study.__init__]. *)
Definition init (bucket : string) (instance_keys : list string) : t :=
  {| bucket := bucket; instance_keys := instance_keys; uid := DText "";
     instance := None; series := []; series_fhir := JObj [];
     imagingstudy_fhir := JObj [] |}.

(** [Study(bucket, instance_keys)]: the object exists for the caller only
    if [load] returns. *)
Definition new (env : Env) (bucket : string) (instance_keys : list string)
  : M trace t :=
  λ tr, let '(r, w) := load env (init bucket instance_keys, tr) in
        (rbind r (λ _, Ok w.1), w.2).

(** A method call [obj.m(...)] made by code that holds [obj]. *)
Definition call {A} (m : M world A) (obj : t) : M trace (A * t) :=
  λ tr, let '(r, w) := m (obj, tr) in (rbind r (λ a, Ok (a, w.1)), w.2).

(** [Study._instance_to_FHIR]. *)
Definition _instance_to_FHIR (instance : Instance.t) : result pyval :=
  rbind (py_int (Instance.instance_number instance)) (λ number,
  Ok (JObj [
    (SKey "uid", to_pyval (Instance.instance_uid instance));
    (SKey "sopClass", JObj [
       (SKey "system", JStr "urn:ietf:rfc:3986");
       (SKey "code", JStr "urn:oid:1.2.840.10008.5.1.4.1.1.2")]);
    (SKey "number", JNum number);
    (SKey "extension", JArr [JObj [
       (SKey "url", JStr "http://healthlake.amazonaws.com/s3-uri/");
       (SKey "valueUri", JStr (Instance.s3_url instance))]])])).

(** [Study._series_to_FHIR], given [sops = self.series[series_key]]. *)
Definition series_out (sops : list Instance.t) : result pyval :=
  match sops with
  | [] => Raise IndexError
  | sop0 :: _ =>
      rbind (py_int (Instance.series_number sop0)) (λ number,
      rbind (rmap _instance_to_FHIR sops) (λ instances,
      Ok (JObj [
        (SKey "uid", JStr (py_str (Instance.series_uid sop0)));
        (SKey "number", JNum number);
        (SKey "modality", JObj [
           (SKey "system", JStr "http://dicom.nema.org/resources/ontology/DCM");
           (SKey "code", to_pyval (Instance.modality sop0))]);
        (SKey "description", JStr " ");
        (SKey "numberOfInstances", JNum (Z.of_nat (length sops)));
        (SKey "bodySite", JObj [
           (SKey "system", JStr "http://snomed.info/sct");
           (SKey "code", JStr "123037004");
           (SKey "display", JStr "Body structure")]);
        (SKey "endpoint", JArr [JObj [
           (SKey "reference", JStr "Endpoint/example-wadors")]]);
        (SKey "instance", JArr instances)])))
  end.

Definition _series_to_FHIR (series_key : dvalue) : M world pyval :=
  let* series := self_get series in
  match Dict.get series_key series with
  | None => raise KeyError
  | Some sops => from_result (series_out sops)
  end.

(** [Study._series_to_fhir]. *)
Definition _series_to_fhir : M world unit :=
  let* series := self_get series in
  let series_keys := Dict.keys series in
  let* series_fhir :=
    for_fold series_keys [] (λ series_fhir key,
      let* s := _series_to_FHIR key in
      ret (series_fhir ++ [s])) in
  self_set (set_series_fhir (JArr series_fhir)).

(** [Study._template_from_s3]. *)
Definition _template_from_s3 (env : Env) (bucket template_key map_key : string)
  : M world (pyval * TemplateMap) :=
  io (emit (S3Get bucket template_key)) ;;
  let* template := io (from_result (s3_template env bucket template_key)) in
  io (emit (S3Get bucket map_key)) ;;
  let* template_map := io (from_result (s3_template_map env bucket map_key)) in
  ret (template, template_map).

(** [Study._transform_fhir]. *)
Definition _transform_fhir : M world unit :=
  let* resource := self_get imagingstudy_fhir in
  let* resource :=
    match resource with
    | JObj kvs =>
        if Dict.mem (SKey "numberOfInstances") kvs then
          let* series_fhir := self_get series_fhir in
          let* sers := from_result (py_iter series_fhir) in
          let* num :=
            for_fold sers 0 (λ num ser,
              let* instances := from_result (getitem ser (SKey "instance")) in
              let* n := from_result (py_len instances) in
              ret (num + n)) in
          from_result (setitem resource (SKey "numberOfInstances") (JNum num))
        else ret resource
    | _ => raise AttributeError
    end in
  self_set (set_imagingstudy_fhir resource).

(** The body of the first loop of [_update_fhir_template]: [updates] and
    [tag_value] are the locals carried from one iteration to the next;
    [tag_value] is unbound until a lookup has succeeded. *)
Definition collect_update (fhir_map : gmap string (list seg))
    (acc : list (list seg * dvalue) * option dvalue) (tag_to_map : string)
  : M world (list (list seg * dvalue) * option dvalue) :=
  let '(updates, tag_value) := acc in
  let* tmp_map :=
    match Dict.get tag_to_map dicom_attribute_map with
    | Some a => ret a
    | None => raise KeyError
    end in
  let tmp_tag0 := key0 tmp_map in
  let tmp_tag1 := key1 tmp_map in
  let* tag_value :=
    try_except
      (let* instance := self_get instance in
       match instance with
       | None => raise AttributeError
       | Some inst =>
           let* value :=
             from_result (Instance.tag_value (Instance.dcm inst) tmp_tag0 tmp_tag1) in
           if decide (element_prefix tmp_map = "") then ret (Some value)
           else
             let* v := from_result (py_add_text (element_prefix tmp_map) value) in
             ret (Some v)
       end)
      (λ e, bool_decide (e = KeyError))
      (ret tag_value) in
  let* template_loc :=
    match fhir_map !! tag_to_map with
    | Some loc => ret loc
    | None => raise KeyError
    end in
  let* value := read_local tag_value in
  ret (updates ++ [(template_loc, value)], tag_value).

(** The body of the second loop: one write into the copy of the template. *)
Definition write_update (resource : pyval) (upd : list seg * dvalue)
  : M world pyval :=
  let '(map_list, val) := upd in
  try_except
    (from_result (set_nested_item resource map_list (to_pyval val)))
    (λ e, bool_decide (e = KeyError ∨ e = IndexError))
    (ret resource).

(** [Study._update_fhir_template]. *)
Definition _update_fhir_template (template : pyval) (template_map : TemplateMap)
  : M world unit :=
  let fhir_map : gmap string (list seg) :=
    foldl (λ m obj, <[entry_key obj := entry_location obj]> m) ∅
          (template_map_entries template_map) in
  let* collected :=
    for_fold (tags_to_fhir template_map) ([], None) (collect_update fhir_map) in
  let updates := collected.1 in
  let resource := deepcopy template in
  let* resource := for_fold updates resource write_update in
  let* series_fhir := self_get series_fhir in
  let* resource := from_result (setitem resource (SKey "series") series_fhir) in
  self_set (set_imagingstudy_fhir resource) ;;
  _transform_fhir.

(** [Study.imagingstudy]. *)
Definition imagingstudy (env : Env) (template_bucket template_key map_key : string)
  : M world unit :=
  _series_to_fhir ;;
  let* loaded := _template_from_s3 env template_bucket template_key map_key in
  _update_fhir_template loaded.1 loaded.2 ;;
  _transform_fhir.

(** [Study.post_to_healthlake]: the signed request is the event, the
    response is what HealthLake answers for this endpoint and document. *)
Definition post_to_healthlake (env : Env) (host region endpoint_base : string)
  : M world (Z * string) :=
  let* resource := self_get imagingstudy_fhir in
  let* resource_type := from_result (getitem resource (SKey "resourceType")) in
  let* endpoint :=
    match resource_type with
    | JStr s => ret (endpoint_base +:+ s)
    | _ => raise TypeError
    end in
  io (emit (HealthlakePost endpoint resource)) ;;
  io (from_result (healthlake env endpoint resource)).

End Study.

(** ** The Lambda handler *)

(** One item of a payload body: [{'bucket': ..., 'instances': [...]}]. *)
Record batch := {
  batch_bucket : string;
  batch_instances : list string
}.

(** [json.loads(payload['body'])], by the shape [sqs_lambda_handler] tests:
    a dict, a list of items, or any other JSON value. *)
Inductive body :=
| BodyDict (b : batch)
| BodyList (items : list batch)
| BodyOther.

(** The dict the handler returns. *)
Record response := {
  statusCode : Z;
  headers : list (string * string);
  response_body : string
}.

(** A [for] loop whose body may [return]: [Some b] leaves the loop (and the
    function) with [b], [None] goes on to the next item. *)
Fixpoint for_return {S A B} (xs : list A) (body : A → M S (option B))
  : M S (option B) :=
  match xs with
  | [] => ret None
  | x :: xs' =>
      let* r := body x in
      match r with
      | Some b => ret (Some b)
      | None => for_return xs' body
      end
  end.

(** The body of the handler's loop over [event['Records']].  In the last
    branch [ValueError(...)] is built and dropped: [bucket] and [instances]
    stay unbound and the next statement reads them. *)
Definition handle_record (env : Env) (payload : body) : M trace (option response) :=
  let '(bucket, instances) :=
    match payload with
    | BodyDict b => (Some (batch_bucket b), Some (batch_instances b))
    | BodyList [b] => (Some (batch_bucket b), Some (batch_instances b))
    | _ => (None, None)
    end in
  let* bucket := read_local bucket in
  let* instances := read_local instances in
  let* astudy := Study.new env bucket instances in
  let* r1 :=
    Study.call
      (Study.imagingstudy env (template_bucket env) (template_key env)
         (template_map_key env)) astudy in
  let astudy := r1.2 in
  let* r2 :=
    Study.call
      (Study.post_to_healthlake env (host env) (region env) (endpoint_base env))
      astudy in
  let r := r2.1 in
  ret (Some {|
    statusCode := r.1;
    headers := [("Content-Type", "text/plain")];
    response_body :=
      "POST to HealthLake returned  " +:+ pretty r.1 +:+ "," +:+ r.2
      +:+ String "010"%char EmptyString |}).

(** [sqs_lambda_handler(event, context)] on [event['Records']]; [None] is
    Python's implicit return when the loop runs out. *)
Definition sqs_lambda_handler (env : Env) (Records : list body)
  : M trace (option response) :=
  for_return Records (handle_record env).

(** ** Sample objects and environments *)

Module Sample.

(** A decoded SOP instance carrying every tag [read_instance] reads. *)
Definition dataset (study series sop : string) (number : Z) : Dataset :=
  list_to_map [
    (("0020", "000D"), DText study);
    (("0020", "000E"), DText series);
    (("0008", "0018"), DText sop);
    (("0010", "0020"), DText "P1");
    (("0008", "0020"), DText "20200101");
    (("0020", "0013"), DInt number);
    (("0020", "0011"), DInt 1);
    (("0008", "0060"), DText "CT")].

(** An environment whose bucket holds [objects] (a missing key is a
    [ClientError] from [get_object]), one template and one mapping file, a
    queue that takes every message and a HealthLake that answers 201. *)
Definition env (objects : list (string * result Dataset)) (template : pyval)
    (tm : TemplateMap) : Env :=
  {| region := "us-east-1"; end_byte := 10000;
     template_bucket := "templates"; template_key := "template.json";
     template_map_key := "map.json"; host := "healthlake.example";
     endpoint_base := "https://healthlake.example/r4/";
     dicom_bad_queue := "bad-queue";
     s3_dcmread := λ _ key _,
       match Dict.get key objects with
       | Some r => r
       | None => Raise ClientError
       end;
     s3_template := λ _ _, Ok template;
     s3_template_map := λ _ _, Ok tm;
     sqs_send := λ _ _, Ok tt;
     healthlake := λ _ _, Ok (201, "created") |}.

Definition template_items : list (seg * pyval) :=
  [(SKey "resourceType", JStr "ImagingStudy");
   (SKey "identifier", JArr [JObj [(SKey "value", JStr "default-id")]]);
   (SKey "subject", JObj [(SKey "reference", JStr "Patient/default")]);
   (SKey "bodySite", JStr "default-site");
   (SKey "numberOfInstances", JNum 0);
   (SKey "series", JArr [])].

Definition template : pyval := JObj template_items.

Definition field_map : TemplateMap :=
  {| template_map := [
       {| entry_key := "(0020,000D)";
          entry_location := [SKey "identifier"; SIdx 0; SKey "value"] |};
       {| entry_key := "(0010,0020)";
          entry_location := [SKey "subject"; SKey "reference"] |};
       {| entry_key := "(0018,0015)";
          entry_location := [SKey "bodySite"] |}];
     tags_to_fhir := ["(0020,000D)"; "(0010,0020)"] |}.

Definition stale_map : TemplateMap :=
  {| template_map := template_map field_map;
     tags_to_fhir := ["(0020,000D)"; "(0018,0015)"] |}.

Definition unbound_map : TemplateMap :=
  {| template_map := template_map field_map;
     tags_to_fhir := ["(0018,0015)"] |}.

(** A mapping whose location for the study date is a key the template
    does not have. *)
Definition new_key_map : TemplateMap :=
  {| template_map := [
       {| entry_key := "(0008,0020)"; entry_location := [SKey "started"] |}];
     tags_to_fhir := ["(0008,0020)"] |}.


(** Four readable objects of two studies and one that is not DICOM. *)
Definition objects : list (string * result Dataset) :=
  [("a.dcm", Ok (dataset "S1" "X" "i1" 1));
   ("b.dcm", Ok (dataset "S1" "Y" "i2" 2));
   ("c.dcm", Ok (dataset "S2" "X" "i3" 3));
   ("d.dcm", Ok (dataset "S2" "Z" "i4" 4));
   ("bad.dcm", Raise InvalidDicomError)].

Definition setup : Env := env objects template field_map.

(** Five objects of one study, two series arriving interleaved. *)
Definition five : list (string * result Dataset) :=
  [("p1.dcm", Ok (dataset "S1" "X" "i1" 1));
   ("p2.dcm", Ok (dataset "S1" "Y" "i2" 2));
   ("p3.dcm", Ok (dataset "S1" "X" "i3" 3));
   ("p4.dcm", Ok (dataset "S1" "Y" "i4" 4));
   ("p5.dcm", Ok (dataset "S1" "Y" "i5" 5))].

Definition five_keys : list string :=
  ["p1.dcm"; "p2.dcm"; "p3.dcm"; "p4.dcm"; "p5.dcm"].

Definition setup5 : Env := env five template field_map.

(** The study loaded from the five keys. *)
Definition five_loaded : Study.t :=
  match Study.new setup5 "bk" five_keys [] with
  | (Ok st, _) => st
  | (Raise _, _) => Study.init "bk" []
  end.

(** The same study holding the template as its document. *)
Definition five_study : Study.t :=
  Study.set_imagingstudy_fhir template five_loaded.

(** A payload body naming [keys] of bucket ["bk"]. *)
Definition payload (keys : list string) : body :=
  BodyDict {| batch_bucket := "bk"; batch_instances := keys |}.

(** The [Instance] that [read_instance] builds from [dataset]. *)
Definition inst (bucket key study series sop : string) (number : Z)
  : Instance.t :=
  {| Instance.end_byte := 10000; Instance.bucket := bucket;
     Instance.key := key;
     Instance.dcm := Some (dataset study series sop number);
     Instance.study_uid := DText study; Instance.series_uid := DText series;
     Instance.series_number := DInt 1; Instance.instance_uid := DText sop;
     Instance.patient_id := DText "P1";
     Instance.s3_url := "s3://" +:+ bucket +:+ "/" +:+ key;
     Instance.study_date := DText "20200101";
     Instance.instance_number := DInt number;
     Instance.modality := DText "CT" |}.

End Sample.

(** ** Closed forms used in the statements *)

(** What [Instance(bucket, key)] gives its caller: the object, or the
    exception that leaves the constructor. *)
Definition read_outcome (env : Env) (bucket key : string) : result Instance.t :=
  (Instance.new env bucket key []).1.

(** The distinct items of a list, in order of first appearance. *)
Fixpoint first_seen {A} `{EqDecision A} (l : list A) : list A :=
  match l with
  | [] => []
  | x :: l' => x :: filter (λ y, y ≠ x) (first_seen l')
  end.

(** [Study.add_instance] on the series dict alone. *)
Definition series_add (inst : Instance.t)
    (series : list (dvalue * list Instance.t)) : list (dvalue * list Instance.t) :=
  let k := Instance.series_uid inst in
  match Dict.get k series with
  | Some sops => Dict.set k (sops ++ [inst]) series
  | None => Dict.set k [inst] series
  end.

(** The series dict after adding the instances of a list in order. *)
Definition group_series (insts : list Instance.t)
  : list (dvalue * list Instance.t) :=
  foldl (λ d i, series_add i d) [] insts.

(** [Some l] for a list with an item, [None] for the empty list. *)
Definition nonempty {A} (l : list A) : option (list A) :=
  match l with
  | [] => None
  | _ => Some l
  end.

(** The list [Study._series_to_fhir] builds from a series dict. *)
Definition series_fragments (series : list (dvalue * list Instance.t))
  : result (list pyval) :=
  rmap (λ k, match Dict.get k series with
             | Some sops => Study.series_out sops
             | None => Raise KeyError
             end)
       (Dict.keys series).

(** A [for] loop over pure steps. *)
Fixpoint rfold {A B} (step : B → A → result B) (xs : list A) (acc : B)
  : result B :=
  match xs with
  | [] => Ok acc
  | x :: xs' => rbind (step acc x) (rfold step xs')
  end.

(** A study object that only carries a representative instance, on which
    the steps that read nothing else of the study can be run. *)
Definition probe (instance : option Instance.t) : Study.world :=
  (Study.set_instance instance (Study.init "" []), []).

(** One pass of the first loop of [_update_fhir_template], as a function of
    the representative instance. *)
Definition collect_step (instance : option Instance.t)
    (fhir_map : gmap string (list seg))
    (acc : list (list seg * dvalue) * option dvalue) (tag_to_map : string)
  : result (list (list seg * dvalue) * option dvalue) :=
  (Study.collect_update fhir_map acc tag_to_map (probe instance)).1.

(** One pass of the second loop. *)
Definition write_step (resource : pyval) (upd : list seg * dvalue)
  : result pyval :=
  (Study.write_update resource upd (probe None)).1.

(** The [fhir_map] dict of [_update_fhir_template]. *)
Definition fhir_map_of (tm : TemplateMap) : gmap string (list seg) :=
  foldl (λ m obj, <[entry_key obj := entry_location obj]> m) ∅ (template_map tm).

(** The document [_update_fhir_template] has built when it calls
    [_transform_fhir]: the copy of the template with the mapped values
    written and the series attached. *)
Definition draft (instance : option Instance.t) (template : pyval)
    (tm : TemplateMap) (series_fhir : pyval) : result pyval :=
  rbind (rfold (collect_step instance (fhir_map_of tm)) (tags_to_fhir tm) ([], None))
    (λ collected,
  rbind (rfold write_step collected.1 (deepcopy template)) (λ resource,
  setitem resource (SKey "series") series_fhir)).

(** The sum [_transform_fhir] computes over the series list. *)
Definition count_instances (series_fhir : pyval) : result Z :=
  rbind (py_iter series_fhir) (λ sers,
  rfold (λ num ser,
           rbind (getitem ser (SKey "instance")) (λ instances,
           rbind (py_len instances) (λ n, Ok (num + n))))
        sers 0).

(** [_transform_fhir] on the document and the series list. *)
Definition finalize (resource series_fhir : pyval) : result pyval :=
  match resource with
  | JObj kvs =>
      if Dict.mem (SKey "numberOfInstances") kvs then
        rbind (count_instances series_fhir) (λ num,
        setitem resource (SKey "numberOfInstances") (JNum num))
      else Ok resource
  | _ => Raise AttributeError
  end.

(** What [_template_from_s3] returns and the calls it makes. *)
Definition fetch_templates (env : Env) (bucket template_key map_key : string)
  : result (pyval * TemplateMap) * trace :=
  match s3_template env bucket template_key with
  | Raise e => (Raise e, [S3Get bucket template_key])
  | Ok template =>
      match s3_template_map env bucket map_key with
      | Raise e => (Raise e, [S3Get bucket template_key; S3Get bucket map_key])
      | Ok tm =>
          (Ok (template, tm), [S3Get bucket template_key; S3Get bucket map_key])
      end
  end.

(** What a run of [Study.imagingstudy] leaves in [series_fhir] and in
    [imagingstudy_fhir] ([None] for an attribute it did not assign). *)
Definition apply_outputs (o : option pyval * option pyval) (st : Study.t)
  : Study.t :=
  let st1 := match o.1 with
             | Some v => Study.set_series_fhir v st
             | None => st
             end in
  match o.2 with
  | Some v => Study.set_imagingstudy_fhir v st1
  | None => st1
  end.

(** [Study.imagingstudy] as a function of the two attributes it reads, the
    representative instance and the series dict: its result, the
    attributes it assigns and the calls it makes. *)
Definition imagingstudy_closed (env : Env) (tb tk mk : string)
    (instance : option Instance.t) (series : list (dvalue * list Instance.t))
  : result unit * (option pyval * option pyval) * trace :=
  match series_fragments series with
  | Raise e => (Raise e, (None, None), [])
  | Ok frags =>
      let sf := JArr frags in
      let fetched := fetch_templates env tb tk mk in
      match fetched.1 with
      | Raise e => (Raise e, (Some sf, None), fetched.2)
      | Ok loaded =>
          match draft instance loaded.1 loaded.2 sf with
          | Raise e => (Raise e, (Some sf, None), fetched.2)
          | Ok resource =>
              match finalize resource sf with
              | Raise e => (Raise e, (Some sf, Some resource), fetched.2)
              | Ok resource' => (Ok tt, (Some sf, Some resource'), fetched.2)
              end
          end
      end
  end.

(** The batch the handler takes from a payload body, if it takes one. *)
Definition batch_of (payload : body) : option batch :=
  match payload with
  | BodyDict b => Some b
  | BodyList [b] => Some b
  | _ => None
  end.

(** Whether [Study.load] adds an instance when the study's uid is [uid],
    and the uid after it. *)
Definition accepts (uid : dvalue) (inst : Instance.t) : bool :=
  bool_decide (uid = DText "" ∨ uid = Instance.study_uid inst).

Definition next_uid (uid : dvalue) (inst : Instance.t) : dvalue :=
  if decide (uid = DText "") then Instance.study_uid inst else uid.

(** The instances a run of [Study.load] adds, and the keys it sends to the
    dead-letter queue, for instances arriving in the given order. *)
Fixpoint accepted (uid : dvalue) (insts : list Instance.t) : list Instance.t :=
  match insts with
  | [] => []
  | i :: rest =>
      (if accepts uid i then [i] else []) ++ accepted (next_uid uid i) rest
  end.

Fixpoint rejected (uid : dvalue) (insts : list Instance.t) : list Instance.t :=
  match insts with
  | [] => []
  | i :: rest =>
      (if accepts uid i then [] else [i]) ++ rejected (next_uid uid i) rest
  end.

(** One iteration of [Study.load] on the object, for a key that read as [sop]. *)
Definition assemble_step (st : Study.t) (sop : Instance.t) : Study.t :=
  let st1 :=
    if accepts (Study.uid st) sop then
      Study.set_series (series_add sop (Study.series st))
        (Study.set_uid (next_uid (Study.uid st) sop) st)
    else st in
  match Study.instance st1 with
  | None => Study.set_instance (Some sop) st1
  | Some _ => st1
  end.

(** The message [Study.to_dl_queue] sends for [inst_key]. *)
Definition dl_message (bucket inst_key : string) : pyval :=
  JObj [(SKey "bucket", JStr bucket);
        (SKey "instances", JArr (JStr <$> chars inst_key))].

(** How the queue answers the message [Study.to_dl_queue] sends for an
    instance, and whether it takes the message of every instance that
    [Study.load] rejects among instances read in this order. *)
Definition send_outcome (env : Env) (bucket : string) (inst : Instance.t)
  : result unit :=
  sqs_send env (dicom_bad_queue env) (dl_message bucket (Instance.key inst)).

Definition sends_ok (env : Env) (bucket : string) (uid : dvalue)
    (insts : list Instance.t) : bool :=
  forallb (λ i, is_ok (send_outcome env bucket i)) (rejected uid insts).

(** The calls a run of [Study.load] makes for instances read in order, when
    the queue takes each message. *)
Fixpoint load_events (env : Env) (bucket : string) (uid : dvalue)
    (insts : list Instance.t) : trace :=
  match insts with
  | [] => []
  | i :: rest =>
      S3Get bucket (Instance.key i)
      :: (if accepts uid i then []
          else [SqsSend (dicom_bad_queue env) (dl_message bucket (Instance.key i))])
      ++ load_events env bucket (next_uid uid i) rest
  end.

(** The bodies of the messages of a trace sent to [queue], in order. *)
Definition sent_to (queue : string) (tr : trace) : list pyval :=
  omap (λ ev, match ev with
              | SqsSend q m => if decide (q = queue) then Some m else None
              | _ => None
              end) tr.

(** The documents a trace POSTs to HealthLake, in order. *)
Definition posted (tr : trace) : list pyval :=
  omap (λ ev, match ev with
              | HealthlakePost _ doc => Some doc
              | _ => None
              end) tr.


(** ** Projections used in the further properties *)

(** The tags [Instance.read_instance] reads, in the order it reads them. *)
Definition mandatory_tags : list (string * string) :=
  [("0020", "000D"); ("0020", "000E"); ("0008", "0018"); ("0010", "0020");
   ("0008", "0020"); ("0020", "0013"); ("0020", "0011"); ("0008", "0060")].

(** The (bucket, key) pairs of the S3 reads of a trace, in order. *)
Definition s3_gets (tr : trace) : list (string * string) :=
  omap (λ ev, match ev with
              | S3Get b k => Some (b, k)
              | _ => None
              end) tr.

(** Values that hold no items: [None], booleans, numbers and strings. *)
Definition is_scalar (v : pyval) : bool :=
  match v with
  | JArr _ | JObj _ => false
  | _ => true
  end.

(** The first non-empty study uid among instances in arrival order, the
    empty string when there is none. *)
Definition first_study_uid (insts : list Instance.t) : dvalue :=
  default (DText "")
    (head (filter (λ u, u ≠ DText "") (Instance.study_uid <$> insts))).

(** ** More sample objects *)

Module Sample2.

(** A decoded instance whose instance number is empty. *)
Definition unnumbered : Dataset :=
  <[("0020", "0013") := DNone]> (Sample.dataset "S1" "X" "i9" 9).

Definition setup_unnumbered : Env :=
  Sample.env [("n.dcm", Ok unnumbered)] Sample.template Sample.field_map.

(** The instance an environment gives for a key of bucket ["bk"]. *)
Definition read (env : Env) (key : string) : Instance.t :=
  match read_outcome env "bk" key with
  | Ok i => i
  | Raise _ => Sample.inst "bk" key "" "" "" 0
  end.

(** A mapping that names a tag [resources.py] does not list. *)
Definition unknown_tag_map : TemplateMap :=
  {| template_map := template_map Sample.field_map;
     tags_to_fhir := ["(0020,000D)"; "(0008,0050)"; "(0010,0020)"] |}.

(** A mapping that lists a tag for which it gives no location. *)
Definition no_location_map : TemplateMap :=
  {| template_map := template_map Sample.new_key_map;
     tags_to_fhir := ["(0020,000D)"] |}.

(** A study whose document is the template, ready to be POSTed. *)
Definition ready_study : Study.t :=
  Study.set_imagingstudy_fhir Sample.template (Study.init "bk" []).

(** The same environment with a queue that refuses every message. *)
Definition queue_down (env : Env) : Env :=
  {| region := region env; end_byte := end_byte env;
     template_bucket := template_bucket env;
     template_key := template_key env;
     template_map_key := template_map_key env; host := host env;
     endpoint_base := endpoint_base env;
     dicom_bad_queue := dicom_bad_queue env;
     s3_dcmread := s3_dcmread env;
     s3_template := s3_template env;
     s3_template_map := s3_template_map env;
     sqs_send := λ _ _, Raise ClientError;
     healthlake := healthlake env |}.

(** Four objects: series X of study S1, series Y of study S2, series Z of
    study S1, and series Y of study S1. *)
Definition crossing : list (string * result Dataset) :=
  [("q1.dcm", Ok (Sample.dataset "S1" "X" "i1" 1));
   ("q2.dcm", Ok (Sample.dataset "S2" "Y" "i2" 2));
   ("q3.dcm", Ok (Sample.dataset "S1" "Z" "i3" 3));
   ("q4.dcm", Ok (Sample.dataset "S1" "Y" "i4" 4))].

Definition crossing_keys : list string :=
  ["q1.dcm"; "q2.dcm"; "q3.dcm"; "q4.dcm"].

Definition setup_crossing : Env :=
  Sample.env crossing Sample.template Sample.field_map.

(** A template without [numberOfInstances], and a mapping that writes the
    study uid at that key. *)
Definition uncounted_items : list (seg * pyval) :=
  [(SKey "resourceType", JStr "ImagingStudy");
   (SKey "series", JArr [])].

Definition count_map : TemplateMap :=
  {| template_map := [
       {| entry_key := "(0020,000D)";
          entry_location := [SKey "numberOfInstances"] |}];
     tags_to_fhir := ["(0020,000D)"] |}.

Definition setup_count_map : Env :=
  Sample.env Sample.objects (JObj uncounted_items) count_map.

End Sample2.

(** * Properties *)

(** ** Reasoning about computations *)

Lemma bind_ok_inv {S A B} (m : M S A) (k : A → M S B) s b s' :
  bind m k s = (Ok b, s') →
  ∃ a s1, m s = (Ok a, s1) ∧ k a s1 = (Ok b, s').
Proof.
  unfold bind. destruct (m s) as [[a|e] s1]; intros H; [eauto | discriminate].
Qed.

Lemma bind_run_ok {S A B} (m : M S A) (k : A → M S B) s a s1 :
  m s = (Ok a, s1) → bind m k s = k a s1.
Proof. unfold bind. by intros ->. Qed.

Lemma bind_run_raise {S A B} (m : M S A) (k : A → M S B) s e s1 :
  m s = (Raise e, s1) → bind m k s = (Raise e, s1).
Proof. unfold bind. by intros ->. Qed.

Lemma rbind_ok_inv {A B} (r : result A) (k : A → result B) b :
  rbind r k = Ok b → ∃ a, r = Ok a ∧ k a = Ok b.
Proof. destruct r; simpl; [eauto | discriminate]. Qed.

(** Peel one [bind] off a hypothesis stating that a computation returned. *)
Ltac inv_bind H :=
  let a := fresh "a" in
  let s := fresh "s" in
  let Hm := fresh "Hm" in
  apply bind_ok_inv in H as (a & s & Hm & H).

Lemma for_each_app {S A} (xs ys : list A) (body : A → M S unit) s :
  for_each (xs ++ ys) body s =
  (for_each xs body ;; for_each ys body) s.
Proof.
  revert s. induction xs as [|x xs IH]; intros s; simpl.
  - done.
  - unfold bind in *. destruct (body x s) as [[[]|e] s1]; [|done].
    apply IH.
Qed.

(** ** Reading instances and assembling the study *)

Lemma read_tags_trace env b k eb tr :
  Instance.read_tags_from_s3 env b k eb tr =
  ((Instance.read_tags_from_s3 env b k eb []).1, tr ++ [S3Get b k]).
Proof.
  unfold Instance.read_tags_from_s3, bind, try_except, emit, modify, from_result.
  simpl. destruct (s3_dcmread env b k eb) as [d|e]; simpl; [done|].
  destruct (bool_decide _); done.
Qed.

Lemma Instance_new_trace env b k tr :
  Instance.new env b k tr = (read_outcome env b k, tr ++ [S3Get b k]).
Proof.
  unfold read_outcome, Instance.new, Instance.read_instance.
  unfold bind at 1 10. rewrite (read_tags_trace env b k _ tr).
  destruct (Instance.read_tags_from_s3 env b k _ []) as [[ds|e] tr0]; simpl; [|done].
  unfold from_result, bind, ret.
  unfold Instance.tag_value. repeat (destruct (ds !! _); simpl; [|done]). done.
Qed.

Lemma read_outcome_key env b k i : read_outcome env b k = Ok i → Instance.key i = k ∧ Instance.bucket i = b.
Proof.
  unfold read_outcome, Instance.new, Instance.read_instance. 
  destruct (bind _ _ _) as [r tr] eqn:E. simpl. intros ->.
  repeat inv_bind E. unfold ret in E. by simplify_eq/=.
Qed.

Lemma add_instance_run inst st tr :
  Study.add_instance inst (st, tr) =
  (Ok tt, (Study.set_series (series_add inst (Study.series st)) st, tr)).
Proof.
  unfold Study.add_instance, series_add, bind, Study.self_get, gets. simpl.
  destruct (Dict.get _ _); done.
Qed.

Lemma load_body_run env key sop st tr :
  read_outcome env (Study.bucket st) key = Ok sop →
  (accepts (Study.uid st) sop = false →
   send_outcome env (Study.bucket st) sop = Ok tt) →
  Study.load_body env key (st, tr) =
  (Ok tt, (assemble_step st sop,
           tr ++ load_events env (Study.bucket st) (Study.uid st) [sop])).
Proof.
  intros Hr Hsend. pose proof (read_outcome_key _ _ _ _ Hr) as [Hk Hb].
  simpl load_events. unfold Study.load_body, assemble_step in *.
  unfold send_outcome, dl_message, accepts, next_uid in *.
  unfold bind at 1. simpl. unfold bind at 1. unfold Study.io. simpl.
  rewrite Instance_new_trace, Hr. simpl.
  unfold bind at 1. simpl.
  destruct st as [b ks uid inst ser sf doc]; simpl in *. rewrite Hk in *.
  destruct (decide (uid = DText "")) as [->|Hne].
  - rewrite bool_decide_eq_true_2 by auto. simpl.
    unfold bind, Study.self_set, modify, Study.self_get, gets, Study.add_instance. simpl.
    unfold bind, Study.self_set, modify, Study.self_get, gets, series_add. simpl.
    destruct (Dict.get _ _); simpl; destruct inst; simpl; rewrite ?app_nil_r; reflexivity.
  - destruct (decide (uid = Instance.study_uid sop)) as [->|Hne2].
    + rewrite bool_decide_eq_true_2 by auto. simpl.
      unfold bind, Study.self_set, modify, Study.self_get, gets, Study.add_instance. simpl.
      unfold bind, Study.self_set, modify, Study.self_get, gets, series_add. simpl.
      destruct (Dict.get _ _); simpl; destruct inst; simpl; rewrite ?app_nil_r; reflexivity.
    + rewrite bool_decide_eq_false_2 in Hsend |- * by (by intros [|]).
      specialize (Hsend eq_refl). simpl.
      destruct (decide (uid ≠ _)); [|done].
      unfold bind, Study.to_dl_queue, Study.io, emit, modify, from_result,
        Study.self_get, gets, Study.self_set, modify. simpl.
      rewrite Hsend. simpl.
      destruct inst; simpl; rewrite <- ?app_assoc; reflexivity.
Qed.

(** A key that reads but belongs to another study, when the queue refuses
    its message: the exception of [send_message] leaves the loop body. *)
Lemma load_body_send_raise env key sop st tr e :
  read_outcome env (Study.bucket st) key = Ok sop →
  accepts (Study.uid st) sop = false →
  send_outcome env (Study.bucket st) sop = Raise e →
  Study.load_body env key (st, tr) =
  (Raise e,
   (st, tr ++ [S3Get (Study.bucket st) key;
               SqsSend (dicom_bad_queue env) (dl_message (Study.bucket st) key)])).
Proof.
  intros Hr Hacc Hsend. pose proof (read_outcome_key _ _ _ _ Hr) as [Hk Hb].
  unfold Study.load_body.
  unfold send_outcome, dl_message, accepts in *.
  unfold bind at 1. simpl. unfold bind at 1. unfold Study.io. simpl.
  rewrite Instance_new_trace, Hr. simpl.
  unfold bind at 1. simpl.
  destruct st as [b ks uid inst ser sf doc]; simpl in *. rewrite Hk in *.
  apply bool_decide_eq_false in Hacc.
  destruct (decide (uid = DText "")) as [->|Hne]; [by destruct Hacc; left|].
  destruct (decide (uid = Instance.study_uid sop)) as [->|Hne2];
    [by destruct Hacc; right|].
  destruct (decide (uid ≠ _)); [|done].
  unfold bind, Study.to_dl_queue, Study.io, emit, modify, from_result,
    Study.self_get, gets. simpl.
  rewrite Hsend. simpl. by rewrite <- app_assoc.
Qed.

(** A key that does not read: the exception of the [Instance] constructor
    leaves the loop body. *)
Lemma load_body_read_raise env key st tr e :
  read_outcome env (Study.bucket st) key = Raise e →
  Study.load_body env key (st, tr) =
  (Raise e, (st, tr ++ [S3Get (Study.bucket st) key])).
Proof.
  intros He. unfold Study.load_body.
  unfold bind at 1. unfold bind at 1. simpl. unfold bind at 1. unfold Study.io. simpl.
  rewrite Instance_new_trace, He. done.
Qed.

Lemma assemble_step_bucket st sop : Study.bucket (assemble_step st sop) = Study.bucket st.
Proof. unfold assemble_step. destruct (accepts _ _); simpl; repeat case_match; done. Qed.

Lemma load_events_app env b uid l1 l2 :
  load_events env b uid (l1 ++ l2) =
  load_events env b uid l1 ++ load_events env b (foldl next_uid uid l1) l2.
Proof.
  revert uid. induction l1 as [|i l1 IH]; intros uid; simpl; [done|].
  rewrite IH. by rewrite <- app_assoc.
Qed.

Lemma rejected_app uid l1 l2 :
  rejected uid (l1 ++ l2) =
  rejected uid l1 ++ rejected (foldl next_uid uid l1) l2.
Proof.
  revert uid. induction l1 as [|i l1 IH]; intros uid; simpl; [done|].
  rewrite IH. by rewrite <- app_assoc.
Qed.

Lemma sends_ok_cons env b uid i l :
  sends_ok env b uid (i :: l) =
  (accepts uid i || is_ok (send_outcome env b i))
  && sends_ok env b (next_uid uid i) l.
Proof.
  unfold sends_ok. cbn [rejected]. rewrite forallb_app.
  destruct (accepts uid i); cbn; by rewrite ?andb_true_r.
Qed.


Lemma is_ok_unit (r : result unit) : is_ok r = true → r = Ok tt.
Proof. by destruct r as [[]|]. Qed.

Lemma assemble_step_uid st sop : Study.uid (assemble_step st sop) = next_uid (Study.uid st) sop.
Proof.
  unfold assemble_step, accepts, next_uid. destruct st as [b ks uid inst ser sf doc]; simpl.
  case_bool_decide as Hd; simpl.
  - destruct inst; done.
  - destruct inst; simpl; case_decide; naive_solver.
Qed.

Lemma load_loop_run env keys insts st tr :
  Forall2 (λ k i, read_outcome env (Study.bucket st) k = Ok i) keys insts →
  sends_ok env (Study.bucket st) (Study.uid st) insts = true →
  for_each keys (Study.load_body env) (st, tr) =
  (Ok tt, (foldl assemble_step st insts,
           tr ++ load_events env (Study.bucket st) (Study.uid st) insts)).
Proof.
  intros H. revert insts st tr H. induction keys as [|k keys IH]; intros insts st tr H Hs.
  - inversion H; subst. simpl. by rewrite app_nil_r.
  - inversion H as [|? i ? insts' Hk Hrest]; subst. simpl for_each.
    rewrite sends_ok_cons in Hs. apply andb_true_iff in Hs as [Hs1 Hs2].
    rewrite (bind_run_ok _ _ _ _ _ (load_body_run _ _ _ _ _ Hk
      ltac:(intros Ha; rewrite Ha in Hs1; by apply is_ok_unit))).
    rewrite (IH insts')
      by (by rewrite ?assemble_step_bucket, ?assemble_step_uid).
    rewrite assemble_step_bucket, assemble_step_uid. simpl. rewrite <- app_assoc.
    repeat f_equal. rewrite app_nil_r. destruct (accepts _ _); done.
Qed.

(** The loop over keys that all read, whatever the queue answers: it runs
    to the end, or it stops at the first message the queue refuses. *)
Lemma load_loop_cases env b keys insts :
  Forall2 (λ k i, read_outcome env b k = Ok i) keys insts →
  ∀ st tr, Study.bucket st = b →
  (sends_ok env b (Study.uid st) insts = true ∧
   for_each keys (Study.load_body env) (st, tr) =
   (Ok tt, (foldl assemble_step st insts,
            tr ++ load_events env b (Study.uid st) insts)))
  ∨ (∃ insts1 i1 insts2 e st',
       insts = insts1 ++ i1 :: insts2 ∧
       sends_ok env b (Study.uid st) insts1 = true ∧
       accepts (foldl next_uid (Study.uid st) insts1) i1 = false ∧
       send_outcome env b i1 = Raise e ∧
       for_each keys (Study.load_body env) (st, tr) =
       (Raise e,
        (st', tr ++ load_events env b (Study.uid st) insts1 ++
              [S3Get b (Instance.key i1);
               SqsSend (dicom_bad_queue env) (dl_message b (Instance.key i1))]))).
Proof.
  induction 1 as [|k i keys insts Hk Hrest IH]; intros st tr Hb.
  - left. split; [done|]. simpl. by rewrite app_nil_r.
  - subst b. pose proof (read_outcome_key _ _ _ _ Hk) as [Hkey _].
    destruct (accepts (Study.uid st) i) eqn:Hacc;
      [|destruct (send_outcome env (Study.bucket st) i) as [[]|e] eqn:Hsend].
    3:{ right. exists [], i, insts, e, st. split; [done|]. split; [done|].
        split; [done|]. split; [done|]. simpl for_each.
        rewrite (bind_run_raise _ _ _ _ _
          (load_body_send_raise _ _ _ _ _ _ Hk Hacc Hsend)).
        by rewrite Hkey. }
    all: simpl for_each;
      rewrite (bind_run_ok _ _ _ _ _ (load_body_run _ _ _ _ _ Hk
        ltac:(intros Ha; first [congruence | exact Hsend])));
      specialize (IH (assemble_step st i)
        (tr ++ load_events env (Study.bucket st) (Study.uid st) [i])
        (assemble_step_bucket st i));
      rewrite assemble_step_uid in IH;
      (destruct IH as [[Hs IH]|(insts1 & i1 & insts2 & e & st' & -> & Hs & Ha & He & IH)];
       [left; split;
          [rewrite sends_ok_cons, Hacc, ?Hsend; exact Hs
          |rewrite IH; cbn [foldl]; do 2 f_equal;
           change (i :: insts) with ([i] ++ insts);
           by rewrite load_events_app, app_assoc]
       |right; exists (i :: insts1), i1, insts2, e, st';
        split; [done|]; split; [rewrite sends_ok_cons, Hacc, ?Hsend; exact Hs|];
        split; [exact Ha|]; split; [exact He|];
        rewrite IH; do 2 f_equal;
        change (i :: insts1) with ([i] ++ insts1);
        by rewrite load_events_app, !app_assoc]).
Qed.

Lemma foldl_assemble_uid insts st :
  Study.uid (foldl assemble_step st insts) = foldl next_uid (Study.uid st) insts.
Proof.
  revert st. induction insts as [|i insts IH]; intros st; simpl; [done|].
  by rewrite IH, assemble_step_uid.
Qed.

Lemma assemble_step_series st sop :
  Study.series (assemble_step st sop) =
  foldl (λ d i, series_add i d) (Study.series st)
        (if accepts (Study.uid st) sop then [sop] else []).
Proof.
  unfold assemble_step. destruct st as [b ks uid inst ser sf doc]; simpl.
  destruct (accepts uid sop); destruct inst; done.
Qed.

Lemma foldl_assemble_series insts st :
  Study.series (foldl assemble_step st insts) =
  foldl (λ d i, series_add i d) (Study.series st) (accepted (Study.uid st) insts).
Proof.
  revert st. induction insts as [|i insts IH]; intros st; simpl; [done|].
  rewrite IH, assemble_step_uid, assemble_step_series, foldl_app. done.
Qed.

Lemma assemble_step_instance st sop :
  Study.instance (assemble_step st sop) =
  match Study.instance st with Some i => Some i | None => Some sop end.
Proof.
  unfold assemble_step. destruct st as [b ks uid inst ser sf doc]; simpl.
  destruct (accepts uid sop); destruct inst; done.
Qed.

Lemma foldl_assemble_instance insts st :
  Study.instance (foldl assemble_step st insts) =
  match Study.instance st with Some i => Some i | None => head insts end.
Proof.
  revert st. induction insts as [|i insts IH]; intros st; simpl.
  - by destruct (Study.instance st).
  - rewrite IH, assemble_step_instance. by destruct (Study.instance st).
Qed.

Lemma assemble_step_rest st sop :
  Study.instance_keys (assemble_step st sop) = Study.instance_keys st ∧
  Study.series_fhir (assemble_step st sop) = Study.series_fhir st ∧
  Study.imagingstudy_fhir (assemble_step st sop) = Study.imagingstudy_fhir st.
Proof.
  unfold assemble_step. destruct st as [b ks uid inst ser sf doc]; simpl.
  destruct (accepts uid sop); destruct inst; done.
Qed.

Lemma foldl_assemble_rest insts st :
  Study.bucket (foldl assemble_step st insts) = Study.bucket st ∧
  Study.instance_keys (foldl assemble_step st insts) = Study.instance_keys st ∧
  Study.series_fhir (foldl assemble_step st insts) = Study.series_fhir st ∧
  Study.imagingstudy_fhir (foldl assemble_step st insts) = Study.imagingstudy_fhir st.
Proof.
  revert st. induction insts as [|i insts IH]; intros st; simpl; [done|].
  destruct (IH (assemble_step st i)) as (-> & -> & -> & ->).
  rewrite assemble_step_bucket. by destruct (assemble_step_rest st i) as (-> & -> & ->).
Qed.

Lemma Study_new_loop env b keys tr :
  Study.new env b keys tr =
  let run := for_each keys (Study.load_body env) (Study.init b keys, tr) in
  (rbind run.1 (λ _, Ok run.2.1), run.2.2).
Proof.
  unfold Study.new, Study.load.
  rewrite (bind_run_ok _ _ _ keys (Study.init b keys, tr)) by done.
  by destruct (for_each _ _ _) as [r [st' tr']].
Qed.

Lemma Study_new_ok env b keys insts tr :
  Forall2 (λ k i, read_outcome env b k = Ok i) keys insts →
  sends_ok env b (DText "") insts = true →
  Study.new env b keys tr =
  (Ok (foldl assemble_step (Study.init b keys) insts),
   tr ++ load_events env b (DText "") insts).
Proof.
  intros H Hs. rewrite Study_new_loop.
  by rewrite (load_loop_run env keys insts (Study.init b keys) tr).
Qed.

(** A batch whose keys all read: the study is built, or the constructor is
    left at the first message the queue refuses. *)
Lemma Study_new_all_read env b keys insts tr :
  Forall2 (λ k i, read_outcome env b k = Ok i) keys insts →
  (sends_ok env b (DText "") insts = true ∧
   Study.new env b keys tr =
   (Ok (foldl assemble_step (Study.init b keys) insts),
    tr ++ load_events env b (DText "") insts))
  ∨ (∃ insts1 i1 insts2 e,
       insts = insts1 ++ i1 :: insts2 ∧
       sends_ok env b (DText "") insts1 = true ∧
       accepts (foldl next_uid (DText "") insts1) i1 = false ∧
       send_outcome env b i1 = Raise e ∧
       Study.new env b keys tr =
       (Raise e,
        tr ++ load_events env b (DText "") insts1 ++
          [S3Get b (Instance.key i1);
           SqsSend (dicom_bad_queue env) (dl_message b (Instance.key i1))])).
Proof.
  intros H. rewrite Study_new_loop.
  destruct (load_loop_cases env b keys insts H (Study.init b keys) tr eq_refl)
    as [[Hs ->]|(insts1 & i1 & insts2 & e & st' & -> & Hs & Ha & He & ->)].
  - by left.
  - right. by exists insts1, i1, insts2, e.
Qed.

(** A batch with a key that does not read, after keys that do: the
    constructor is left at that key, or earlier at the first message the
    queue refuses. *)
Lemma Study_new_read_failure env b pre insts key post e tr :
  Forall2 (λ k i, read_outcome env b k = Ok i) pre insts →
  read_outcome env b key = Raise e →
  (sends_ok env b (DText "") insts = true ∧
   Study.new env b (pre ++ key :: post) tr =
   (Raise e, tr ++ load_events env b (DText "") insts ++ [S3Get b key]))
  ∨ (∃ insts1 i1 insts2 e',
       insts = insts1 ++ i1 :: insts2 ∧
       sends_ok env b (DText "") insts1 = true ∧
       accepts (foldl next_uid (DText "") insts1) i1 = false ∧
       send_outcome env b i1 = Raise e' ∧
       Study.new env b (pre ++ key :: post) tr =
       (Raise e',
        tr ++ load_events env b (DText "") insts1 ++
          [S3Get b (Instance.key i1);
           SqsSend (dicom_bad_queue env) (dl_message b (Instance.key i1))])).
Proof.
  intros H He. rewrite Study_new_loop. cbn zeta. rewrite for_each_app.
  destruct (load_loop_cases env b pre insts H
              (Study.init b (pre ++ key :: post)) tr eq_refl)
    as [[Hs Hrun]|(insts1 & i1 & insts2 & e' & st' & -> & Hs & Ha & He' & Hrun)].
  - left. split; [done|].
    rewrite (bind_run_ok _ _ _ _ _ Hrun). simpl for_each.
    destruct (foldl_assemble_rest insts (Study.init b (pre ++ key :: post)))
      as (Hb & _). simpl in Hb.
    rewrite (bind_run_raise _ _ _ _ _
      (load_body_read_raise env key _ _ e ltac:(by rewrite Hb))).
    cbn [fst snd rbind]. by rewrite Hb, app_assoc.
  - right. exists insts1, i1, insts2, e'.
    by rewrite (bind_run_raise _ _ _ _ _ Hrun).
Qed.


Lemma Study_new_send_raise env b pre insts key i post e tr :
  Forall2 (λ k i, read_outcome env b k = Ok i) pre insts →
  sends_ok env b (DText "") insts = true →
  read_outcome env b key = Ok i →
  accepts (foldl next_uid (DText "") insts) i = false →
  send_outcome env b i = Raise e →
  Study.new env b (pre ++ key :: post) tr =
  (Raise e,
   tr ++ load_events env b (DText "") insts ++
     [S3Get b key; SqsSend (dicom_bad_queue env) (dl_message b key)]).
Proof.
  intros H Hs Hk Ha He. rewrite Study_new_loop. cbn zeta. rewrite for_each_app.
  rewrite (bind_run_ok _ _ _ _ _
    (load_loop_run env pre insts (Study.init b (pre ++ key :: post)) tr H Hs)).
  simpl for_each.
  destruct (foldl_assemble_rest insts (Study.init b (pre ++ key :: post)))
    as (Hb & _). simpl in Hb.
  rewrite (bind_run_raise _ _ _ _ _
    (load_body_send_raise env key i _ _ e
       ltac:(by rewrite Hb) ltac:(by rewrite foldl_assemble_uid)
       ltac:(by rewrite Hb))).
  rewrite Hb. by rewrite app_assoc.
Qed.

Lemma read_all_or_first_failure env b keys :
  (∃ insts, Forall2 (λ k i, read_outcome env b k = Ok i) keys insts) ∨
  (∃ pre insts key post e,
     keys = pre ++ key :: post ∧
     Forall2 (λ k i, read_outcome env b k = Ok i) pre insts ∧
     read_outcome env b key = Raise e).
Proof.
  induction keys as [|k keys IH].
  - left. exists []. constructor.
  - destruct (read_outcome env b k) as [i|e] eqn:Hk.
    + destruct IH as [(insts & H)|(pre & insts & key & post & e & -> & H & He)].
      * left. exists (i :: insts). by constructor.
      * right. exists (k :: pre), (i :: insts), key, post, e.
        split; [done|]. split; [by constructor|done].
    + right. exists [], [], k, keys, e. split; [done|]. split; [constructor|done].
Qed.

Lemma read_keys env b keys insts :
  Forall2 (λ k i, read_outcome env b k = Ok i) keys insts →
  Instance.key <$> insts = keys.
Proof.
  induction 1 as [|k i keys insts Hk _ IH]; [done|].
  cbn [fmap list_fmap]. f_equal; [|done]. by apply read_outcome_key in Hk as [? _].
Qed.

Lemma s3_gets_app tr1 tr2 : s3_gets (tr1 ++ tr2) = s3_gets tr1 ++ s3_gets tr2.
Proof. apply omap_app. Qed.

Lemma posted_app tr1 tr2 : posted (tr1 ++ tr2) = posted tr1 ++ posted tr2.
Proof. apply omap_app. Qed.

Lemma sent_to_app q tr1 tr2 : sent_to q (tr1 ++ tr2) = sent_to q tr1 ++ sent_to q tr2.
Proof. apply omap_app. Qed.

Lemma s3_gets_load_events env b uid l :
  s3_gets (load_events env b uid l) = (λ i, (b, Instance.key i)) <$> l.
Proof.
  revert uid. induction l as [|i l IH]; intros uid; [done|].
  cbn [load_events].
  change (S3Get b (Instance.key i) :: ?x) with ([S3Get b (Instance.key i)] ++ x).
  rewrite !s3_gets_app, IH. by destruct (accepts uid i).
Qed.

Lemma posted_load_events env b uid l : posted (load_events env b uid l) = [].
Proof.
  revert uid. induction l as [|i l IH]; intros uid; [done|].
  cbn [load_events].
  change (S3Get b (Instance.key i) :: ?x) with ([S3Get b (Instance.key i)] ++ x).
  rewrite !posted_app, IH. by destruct (accepts uid i).
Qed.

Lemma sent_to_load_events env b uid l :
  sent_to (dicom_bad_queue env) (load_events env b uid l) =
  (λ i, dl_message b (Instance.key i)) <$> rejected uid l.
Proof.
  revert uid. induction l as [|i l IH]; intros uid; [done|].
  cbn [load_events rejected]. 
  change (S3Get b (Instance.key i) :: ?x) with ([S3Get b (Instance.key i)] ++ x).
  rewrite !sent_to_app, IH, fmap_app. 
  destruct (accepts uid i); simpl; [done|]. by rewrite decide_True.
Qed.

(** The calls of a run that stopped at a refused message: the reads of the
    instances up to the rejected one, and the messages up to its own. *)
Lemma send_failure_events env b insts1 i1 insts2 :
  accepts (foldl next_uid (DText "") insts1) i1 = false →
  let evs := load_events env b (DText "") insts1 ++
               [S3Get b (Instance.key i1);
                SqsSend (dicom_bad_queue env) (dl_message b (Instance.key i1))] in
  let insts := insts1 ++ i1 :: insts2 in
  posted evs = [] ∧
  s3_gets evs = (λ i, (b, Instance.key i)) <$> (insts1 ++ [i1]) ∧
  s3_gets evs `prefix_of` (λ i, (b, Instance.key i)) <$> insts ∧
  sent_to (dicom_bad_queue env) evs =
    (λ i, dl_message b (Instance.key i)) <$> rejected (DText "") (insts1 ++ [i1]) ∧
  sent_to (dicom_bad_queue env) evs `prefix_of`
    (λ i, dl_message b (Instance.key i)) <$> rejected (DText "") insts.
Proof.
  intros Ha. cbn zeta.
  rewrite posted_app, s3_gets_app, sent_to_app, posted_load_events,
    s3_gets_load_events, sent_to_load_events.
  assert (Hs : s3_gets [S3Get b (Instance.key i1);
                 SqsSend (dicom_bad_queue env) (dl_message b (Instance.key i1))] =
               [(b, Instance.key i1)]) by done.
  assert (Hq : sent_to (dicom_bad_queue env) [S3Get b (Instance.key i1);
                 SqsSend (dicom_bad_queue env) (dl_message b (Instance.key i1))] =
               [dl_message b (Instance.key i1)]).
  { cbn. by rewrite decide_True. }
  rewrite Hs, Hq.
  assert (Hr : rejected (DText "") (insts1 ++ [i1]) =
               rejected (DText "") insts1 ++ [i1]).
  { rewrite rejected_app. cbn [rejected]. by rewrite Ha. }
  split; [done|]. split; [by rewrite fmap_app|]. split.
  - exists ((λ i, (b, Instance.key i)) <$> insts2).
    change (i1 :: insts2) with ([i1] ++ insts2).
    by rewrite !fmap_app, <- app_assoc.
  - split; [by rewrite Hr, fmap_app|].
    exists ((λ i, dl_message b (Instance.key i)) <$>
              rejected (next_uid (foldl next_uid (DText "") insts1) i1) insts2).
    rewrite rejected_app. cbn [rejected]. rewrite Ha.
    by rewrite !fmap_app, <- !app_assoc.
Qed.

(** What a run of the constructor shows outside, whatever S3 and the queue
    answer: no POST, reads of the keys in order up to where it stopped, and
    of every key when it returns. *)
Lemma Study_new_events env b keys tr :
  ∃ evs,
    (Study.new env b keys tr).2 = tr ++ evs ∧
    posted evs = [] ∧
    s3_gets evs `prefix_of` (λ k, (b, k)) <$> keys ∧
    (is_ok (Study.new env b keys tr).1 = true →
     s3_gets evs = (λ k, (b, k)) <$> keys).
Proof.
  assert (Hkeys : ∀ ks insts,
            Forall2 (λ k i, read_outcome env b k = Ok i) ks insts →
            (λ i, (b, Instance.key i)) <$> insts = (λ k, (b, k)) <$> ks).
  { intros ks insts H. by rewrite <- (read_keys _ _ _ _ H), <- list_fmap_compose. }
  destruct (read_all_or_first_failure env b keys)
    as [(insts & H)|(pre & insts & key & post & e & -> & H & He)].
  - destruct (Study_new_all_read env b keys insts tr H)
      as [[Hs ->]|(insts1 & i1 & insts2 & e & -> & Hs & Ha & He & ->)].
    + eexists. split; [done|]. split; [apply posted_load_events|].
      rewrite s3_gets_load_events, (Hkeys _ _ H). done.
    + eexists. split; [done|].
      destruct (send_failure_events env b insts1 i1 insts2 Ha)
        as (Hp & _ & Hg & _). cbn zeta in Hp, Hg.
      split; [done|]. split; [|done]. by rewrite <- (Hkeys _ _ H).
  - assert (Hpre : (λ k, (b, k)) <$> pre ++ key :: post =
                   ((λ i, (b, Instance.key i)) <$> insts) ++ (b, key) ::
                     ((λ k, (b, k)) <$> post)).
    { by rewrite fmap_app, (Hkeys _ _ H). }
    destruct (Study_new_read_failure env b pre insts key post e tr H He)
      as [[Hs ->]|(insts1 & i1 & insts2 & e' & -> & Hs & Ha & He' & ->)].
    + eexists. split; [done|].
      rewrite posted_app, s3_gets_app, posted_load_events, s3_gets_load_events.
      split; [done|]. split; [|done]. rewrite Hpre.
      exists ((λ k, (b, k)) <$> post). by rewrite <- app_assoc.
    + eexists. split; [done|].
      destruct (send_failure_events env b insts1 i1 insts2 Ha)
        as (Hp & _ & Hg & _). cbn zeta in Hp, Hg.
      split; [done|]. split; [|done]. rewrite Hpre.
      etrans; [exact Hg|]. by apply prefix_app_r.
Qed.


(** ** Insertion-ordered dicts *)

Section dict_facts.
Context {K V : Type} `{EqDecision K}.
Implicit Types (d : list (K * V)) (k : K) (v : V).

Lemma Dict_get_set_eq k v d : Dict.get k (Dict.set k v d) = Some v.
Proof.
  induction d as [|[k' v'] d IH]; simpl.
  - by rewrite decide_True.
  - destruct (decide (k = k')); simpl; [by rewrite decide_True|].
    by rewrite decide_False.
Qed.

Lemma Dict_get_set_ne k k' v d :
  k ≠ k' → Dict.get k' (Dict.set k v d) = Dict.get k' d.
Proof.
  intros Hne. induction d as [|[k0 v0] d IH]; simpl.
  - by rewrite decide_False.
  - destruct (decide (k = k0)) as [->|]; simpl.
    + by rewrite !decide_False.
    + destruct (decide (k' = k0)); done.
Qed.

Lemma Dict_get_None k d : Dict.get k d = None ↔ k ∉ d.*1.
Proof.
  induction d as [|[k0 v0] d IH]; simpl.
  - split; [intros _; apply not_elem_of_nil | done].
  - rewrite not_elem_of_cons. destruct (decide (k = k0)); intuition congruence.
Qed.

Lemma Dict_keys_set_Some k v v0 d :
  Dict.get k d = Some v0 → (Dict.set k v d).*1 = d.*1.
Proof.
  induction d as [|[k0 v1] d IH]; simpl; [done|].
  destruct (decide (k = k0)) as [->|]; simpl; [done|].
  intros H'. f_equal. by apply IH.
Qed.

Lemma Dict_keys_set_None k v d :
  Dict.get k d = None → (Dict.set k v d).*1 = d.*1 ++ [k].
Proof.
  induction d as [|[k0 v1] d IH]; simpl; [done|].
  destruct (decide (k = k0)) as [->|]; simpl; [done|].
  intros H'. f_equal. by apply IH.
Qed.

Lemma Dict_set_set k v v' d : Dict.set k v (Dict.set k v' d) = Dict.set k v d.
Proof.
  induction d as [|[k0 v0] d IH]; simpl.
  - by rewrite decide_True.
  - destruct (decide (k = k0)) as [->|]; simpl.
    + by rewrite decide_True.
    + rewrite decide_False by done. by rewrite IH.
Qed.

Lemma Dict_mem_set k k' v d :
  Dict.mem k' (Dict.set k v d) = bool_decide (k = k') || Dict.mem k' d.
Proof.
  unfold Dict.mem. destruct (decide (k = k')) as [->|Hne].
  - by rewrite Dict_get_set_eq, bool_decide_eq_true_2.
  - by rewrite Dict_get_set_ne, bool_decide_eq_false_2.
Qed.
End dict_facts.

(** ** Order of first appearance *)

Section first_seen_facts.
Context {A : Type} `{EqDecision A}.
Implicit Types (l : list A) (x : A).

Lemma first_seen_elem_of x l : x ∈ first_seen l ↔ x ∈ l.
Proof.
  induction l as [|y l IH]; simpl; [done|].
  rewrite !elem_of_cons, list_elem_of_filter, IH.
  destruct (decide (x = y)); intuition.
Qed.

Lemma first_seen_snoc l x :
  first_seen (l ++ [x]) =
  if decide (x ∈ l) then first_seen l else first_seen l ++ [x].
Proof.
  induction l as [|y l IH].
  - simpl. destruct (decide (x ∈ [])) as [Hin|]; [by apply elem_of_nil in Hin | done].
  - cbn [app first_seen]. rewrite IH. destruct (decide (x ∈ l)) as [Hin|Hnin].
    + rewrite decide_True; [done | by right].
    + rewrite filter_app. destruct (decide (x = y)) as [->|Hne].
      * rewrite decide_True by left.
        rewrite (filter_cons_False (λ y0, y0 ≠ y)) by (intros Hy; by apply Hy).
        by rewrite filter_nil, app_nil_r.
      * rewrite decide_False by (rewrite elem_of_cons; intuition).
        by rewrite (filter_cons_True (λ y0, y0 ≠ y)) by done.
Qed.

Lemma first_seen_NoDup l : NoDup (first_seen l).
Proof.
  induction l as [|y l IH]; simpl; [constructor|].
  constructor.
  - rewrite list_elem_of_filter. intros [Hy _]. by apply Hy.
  - by apply NoDup_filter.
Qed.
End first_seen_facts.

(** ** Grouping by series *)

Lemma group_series_snoc l i :
  group_series (l ++ [i]) = series_add i (group_series l).
Proof. unfold group_series. by rewrite foldl_app. Qed.

Lemma filter_snoc {A} (P : A → Prop) `{∀ x, Decision (P x)} (l : list A) x :
  filter P (l ++ [x]) = filter P l ++ (if decide (P x) then [x] else []).
Proof.
  by rewrite filter_app.
Qed.

Lemma nonempty_None {A} (l : list A) : nonempty l = None ↔ l = [].
Proof. by destruct l. Qed.

Lemma nonempty_Some {A} (l l' : list A) : nonempty l = Some l' → l' = l ∧ l ≠ [].
Proof. destruct l; [done|]. intros [= <-]. done. Qed.

Lemma group_series_get u l :
  Dict.get u (group_series l) =
  nonempty (filter (λ i, Instance.series_uid i = u) l).
Proof.
  revert u. induction l as [|i l IH] using rev_ind; intros u; [done|].
  rewrite group_series_snoc, filter_snoc. unfold series_add.
  destruct (Dict.get (Instance.series_uid i) (group_series l)) as [sops|] eqn:Hk.
  - rewrite IH in Hk. apply nonempty_Some in Hk as [-> Hne].
    destruct (decide (Instance.series_uid i = u)) as [<-|Hu].
    + rewrite Dict_get_set_eq. by destruct (filter _ l).
    + rewrite Dict_get_set_ne, app_nil_r by done. apply IH.
  - rewrite IH in Hk. apply nonempty_None in Hk.
    destruct (decide (Instance.series_uid i = u)) as [<-|Hu].
    + rewrite Dict_get_set_eq. by rewrite Hk.
    + rewrite Dict_get_set_ne, app_nil_r by done. apply IH.
Qed.

Lemma group_series_keys l :
  Dict.keys (group_series l) = first_seen (Instance.series_uid <$> l).
Proof.
  unfold Dict.keys. induction l as [|i l IH] using rev_ind; [done|].
  rewrite group_series_snoc, fmap_app. cbn [fmap list_fmap].
  rewrite first_seen_snoc. unfold series_add.
  destruct (Dict.get (Instance.series_uid i) (group_series l)) as [sops|] eqn:Hk.
  - rewrite (Dict_keys_set_Some _ _ _ _ Hk), IH.
    rewrite decide_True; [done|].
    apply first_seen_elem_of. rewrite <- IH.
    destruct (decide (Instance.series_uid i ∈ (group_series l).*1)) as [|Hn]; [done|].
    apply Dict_get_None in Hn. congruence.
  - rewrite (Dict_keys_set_None _ _ _ Hk), IH.
    rewrite decide_False; [done|].
    apply Dict_get_None in Hk. rewrite IH in Hk. by rewrite first_seen_elem_of in Hk.
Qed.

Lemma series_add_concat i d :
  concat (series_add i d).*2 ≡ₚ concat d.*2 ++ [i].
Proof.
  unfold series_add.
  destruct (Dict.get (Instance.series_uid i) d) as [sops|] eqn:Hk.
  - induction d as [|[k0 v0] d IH]; simpl in *; [done|].
    destruct (decide (Instance.series_uid i = k0)) as [->|Hne]; simpl.
    + injection Hk as ->. rewrite <- !app_assoc. f_equiv. apply Permutation_app_comm.
    + rewrite IH by done. by rewrite app_assoc.
  - induction d as [|[k0 v0] d IH]; simpl in *; [done|].
    destruct (decide (Instance.series_uid i = k0)) as [->|Hne]; simpl; [done|].
    rewrite IH by done. by rewrite app_assoc.
Qed.

Lemma group_series_concat l : concat (group_series l).*2 ≡ₚ l.
Proof.
  induction l as [|i l IH] using rev_ind; [done|].
  by rewrite group_series_snoc, series_add_concat, IH.
Qed.

(** ** Which instances a study keeps *)

Lemma next_uid_fixed uid i : uid ≠ DText "" → next_uid uid i = uid.
Proof. intros H. unfold next_uid. by rewrite decide_False. Qed.

Lemma foldl_next_uid_fixed uid l : uid ≠ DText "" → foldl next_uid uid l = uid.
Proof.
  intros H. induction l as [|i l IH]; simpl; [done|]. by rewrite next_uid_fixed.
Qed.




(** ** C1: a read failure *)




(** ** C2: instances of another study *)




(** ** C10: records after the first *)

Lemma post_to_healthlake_ok env h r eb obj tr res w :
  Study.post_to_healthlake env h r eb (obj, tr) = (Ok res, w) →
  ∃ endpoint,
    w = (obj, tr ++ [HealthlakePost endpoint (Study.imagingstudy_fhir obj)]) ∧
    healthlake env endpoint (Study.imagingstudy_fhir obj) = Ok res.
Proof.
  unfold Study.post_to_healthlake. intros H.
  inv_bind H. inv_bind H. inv_bind H. inv_bind H.
  unfold Study.self_get, gets in Hm. simplify_eq/=.
  unfold from_result in Hm0. simplify_eq/=.
  destruct a0; try discriminate. unfold ret in Hm1. simplify_eq/=.
  unfold Study.io, emit, modify in Hm2. simplify_eq/=.
  unfold Study.io, from_result in H. simpl in H. simplify_eq/=.
  eauto.
Qed.

(** A record that is handled to the end is answered from HealthLake's
    response to the POST, which is the last call made. *)
Lemma handle_record_returns env payload tr o tr' :
  handle_record env payload tr = (Ok o, tr') →
  ∃ resp endpoint doc tr0 text,
    o = Some resp ∧ tr' = tr0 ++ [HealthlakePost endpoint doc] ∧
    healthlake env endpoint doc = Ok (statusCode resp, text).
Proof.
  unfold handle_record. intros H.
  destruct (match payload with
            | BodyDict b => _ | BodyList l => _ | BodyOther => _
            end) as [bucket instances].
  do 5 inv_bind H.
  unfold ret in H. simplify_eq/=.
  unfold Study.call in Hm3.
  destruct (Study.post_to_healthlake _ _ _ _ _) as [r w] eqn:E.
  destruct r as [res|]; simplify_eq/=.
  destruct w as [obj' trw].
  apply post_to_healthlake_ok in E as (endpoint & Ew & Eh). simplify_eq/=.
  destruct res as [st text]. eauto 10.
Qed.

(** The loop of the handler is left in its first pass. *)
Lemma handler_runs_first_record env payload rest tr :
  sqs_lambda_handler env (payload :: rest) tr = handle_record env payload tr.
Proof.
  unfold sqs_lambda_handler. simpl. unfold bind.
  destruct (handle_record env payload tr) as [[o|e] tr'] eqn:E; [|done].
  apply handle_record_returns in E as (resp & ? & ? & ? & ? & -> & _). done.
Qed.

Lemma handle_record_batch env payload bt tr :
  batch_of payload = Some bt →
  handle_record env payload tr =
  (let* astudy := Study.new env (batch_bucket bt) (batch_instances bt) in
   let* r1 :=
     Study.call
       (Study.imagingstudy env (template_bucket env) (template_key env)
          (template_map_key env)) astudy in
   let* r2 :=
     Study.call
       (Study.post_to_healthlake env (host env) (region env) (endpoint_base env))
       r1.2 in
   ret (Some {|
     statusCode := r2.1.1;
     headers := [("Content-Type", "text/plain")];
     response_body :=
       "POST to HealthLake returned  " +:+ pretty r2.1.1 +:+ "," +:+ r2.1.2
       +:+ String "010"%char EmptyString |})) tr.
Proof.
  intros Hb. unfold handle_record.
  destruct payload as [b|[|b [|b' items]]|]; simplify_eq/=; done.
Qed.



(** ** C5: a body that is neither a dict nor a one-item list *)

(** C5 (the code falls short of it).  For an empty list, a list of two or
    more items, or any other JSON value, the handler builds the
    [ValueError] without raising it and then fails with
    [UnboundLocalError] on reading [bucket], before any outside call. *)
Theorem malformed_body_raises_unbound_local env rest tr :
  sqs_lambda_handler env (BodyList [] :: rest) tr = (Raise UnboundLocalError, tr) ∧
  (∀ b1 b2 more,
     sqs_lambda_handler env (BodyList (b1 :: b2 :: more) :: rest) tr =
       (Raise UnboundLocalError, tr)) ∧
  sqs_lambda_handler env (BodyOther :: rest) tr = (Raise UnboundLocalError, tr).
Proof. repeat split. Qed.

(** ** C3: a source tag the representative instance lacks *)

(** What one pass of the first loop of [_update_fhir_template] does for a
    tag absent from the representative instance: the value left in
    [tag_value] by an earlier tag is queued for this tag's location; with
    no earlier value the read of [tag_value] raises. *)
Lemma collect_update_missing_tag fhir_map updates stale tag attr loc inst st tr :
  Dict.get tag dicom_attribute_map = Some attr →
  Study.instance st = Some inst →
  Instance.tag_value (Instance.dcm inst) (key0 attr) (key1 attr) = Raise KeyError →
  fhir_map !! tag = Some loc →
  Study.collect_update fhir_map (updates, stale) tag (st, tr) =
  match stale with
  | Some v => (Ok (updates ++ [(loc, v)], Some v), (st, tr))
  | None => (Raise UnboundLocalError, (st, tr))
  end.
Proof.
  intros Ha Hi Hv Hl. unfold Study.collect_update. rewrite Ha, Hl.
  unfold bind, try_except, ret, Study.self_get, gets, from_result. simpl.
  rewrite Hi, Hv. simpl. by destruct stale.
Qed.

(** C3 (the code falls short of it).  The representative instance has no
    (0018,0015); the mapping lists it after (0020,000D).  The template's
    [bodySite] is not left at its default: the document that is POSTed
    carries the study uid there.  Listed first, the same tag makes the
    mapping raise [UnboundLocalError]. *)
Theorem missing_tag_writes_stale_value :
  let env_stale := Sample.env Sample.objects Sample.template Sample.stale_map in
  let env_first := Sample.env Sample.objects Sample.template Sample.unbound_map in
  let run := sqs_lambda_handler env_stale [Sample.payload ["a.dcm"]] [] in
  Sample.dataset "S1" "X" "i1" 1 !! ("0018", "0015") = None ∧
  getitem Sample.template (SKey "bodySite") = Ok (JStr "default-site") ∧
  is_ok run.1 = true ∧
  (λ doc, getitem doc (SKey "bodySite")) <$> posted run.2 = [Ok (JStr "S1")] ∧
  (sqs_lambda_handler env_first [Sample.payload ["a.dcm"]] []).1 =
    Raise UnboundLocalError.
Proof. vm_compute. repeat split. Qed.

(** ** Walking and writing nested values *)

Lemma reduce_getitem_raise path e :
  foldl (λ acc k, rbind acc (λ c, getitem c k)) (Raise e) path = Raise e.
Proof. induction path as [|k path IH]; simpl; done. Qed.

Lemma reduce_getitem_cons k path d :
  reduce_getitem (k :: path) d = rbind (getitem d k) (reduce_getitem path).
Proof.
  unfold reduce_getitem. simpl. destruct (getitem d k); simpl; [done|].
  apply reduce_getitem_raise.
Qed.

Lemma reduce_getitem_snoc path k d :
  reduce_getitem (path ++ [k]) d =
  rbind (reduce_getitem path d) (λ c, getitem c k).
Proof. unfold reduce_getitem. by rewrite foldl_app. Qed.

Lemma norm_index_lt n i m : norm_index n i = Some m → (m < n)%nat.
Proof. unfold norm_index. repeat case_decide; intros; simplify_eq; lia. Qed.

(** Storing at a segment that was just read succeeds, and reads back. *)
Lemma setitem_after_getitem d k c c' :
  getitem d k = Ok c →
  (∀ s, d ≠ JStr s) →
  ∃ d', setitem d k c' = Ok d' ∧ getitem d' k = Ok c'.
Proof.
  intros Hg Hs. destruct d as [| | |s|l|kvs]; try discriminate.
  - by destruct (Hs s).
  - destruct k as [|i]; [discriminate|]. simpl in *.
    destruct (norm_index (length l) i) as [n|] eqn:Hn; [|discriminate].
    eexists. split; [done|]. simpl. rewrite length_insert, Hn. simpl.
    rewrite list_lookup_insert_eq; [done|]. by apply norm_index_lt in Hn.
  - simpl. eexists. split; [done|]. simpl. by rewrite Dict_get_set_eq.
Qed.

Lemma setitem_ok_read d k v d' : setitem d k v = Ok d' → getitem d' k = Ok v.
Proof.
  destruct d as [| | |s|l|kvs]; try discriminate.
  - destruct k as [|i]; [discriminate|]. simpl.
    destruct (norm_index (length l) i) as [n|] eqn:Hn; [|discriminate].
    intros [= <-]. simpl. rewrite length_insert, Hn. simpl.
    rewrite list_lookup_insert_eq; [done|]. by apply norm_index_lt in Hn.
  - simpl. intros [= <-]. simpl. by rewrite Dict_get_set_eq.
Qed.

Lemma getitem_str s k c : getitem (JStr s) k = Ok c → ∃ ch, c = JStr ch.
Proof.
  destruct k as [|i]; [done|]. simpl.
  destruct (norm_index _ _ ≫= _); [|done]. intros [= <-]. eauto.
Qed.

(** Nothing can be stored below a string. *)
Lemma set_nested_item_str s path v : is_ok (set_nested_item (JStr s) path v) = false.
Proof.
  revert s. induction path as [|k path IH]; intros s; [done|].
  destruct path as [|k' path]; [destruct k; reflexivity|].
  change (set_nested_item (JStr s) (k :: k' :: path) v) with
    (rbind (getitem (JStr s) k) (λ c,
       rbind (set_nested_item c (k' :: path) v) (λ c', setitem (JStr s) k c'))).
  destruct (getitem (JStr s) k) as [c|e] eqn:Hg; [|done].
  apply getitem_str in Hg as [ch ->]. cbn [rbind].
  specialize (IH ch). by destruct (set_nested_item (JStr ch) (k' :: path) v).
Qed.

Lemma set_nested_item_cons2 d k k' path v :
  set_nested_item d (k :: k' :: path) v =
  rbind (getitem d k) (λ c,
    rbind (set_nested_item c (k' :: path) v) (λ c', setitem d k c')).
Proof. done. Qed.

(** [set_nested_item] against the walk of the source: it raises what the
    walk to the innermost container raises, else what the store there
    raises, and else it returns the value in which the store is seen at
    the end of the same walk. *)
Lemma set_nested_item_walk d init last v :
  match reduce_getitem init d with
  | Raise e => set_nested_item d (init ++ [last]) v = Raise e
  | Ok c =>
      match setitem c last v with
      | Raise e => set_nested_item d (init ++ [last]) v = Raise e
      | Ok c' =>
          ∃ d', set_nested_item d (init ++ [last]) v = Ok d' ∧
                reduce_getitem init d' = Ok c'
      end
  end.
Proof.
  revert d. induction init as [|k init IH]; intros d.
  - simpl. destruct (setitem d last v) as [c'|e] eqn:E; eauto.
  - rewrite reduce_getitem_cons.
    assert (Hc : (k :: init) ++ [last] = k :: (hd last init) :: tl (init ++ [last])).
    { by destruct init. }
    rewrite Hc, set_nested_item_cons2.
    assert (Hc' : hd last init :: tl (init ++ [last]) = init ++ [last]).
    { by destruct init. }
    rewrite Hc'.
    destruct (getitem d k) as [c0|e] eqn:Hg; simpl; [|done].
    specialize (IH c0).
    destruct (reduce_getitem init c0) as [c|e]; [|by rewrite IH].
    destruct (setitem c last v) as [c'|e]; [|by rewrite IH].
    destruct IH as (c0' & Hstore & Hread). rewrite Hstore. cbn [rbind].
    assert (Hd : (∃ s, d = JStr s) ∨ (∀ s, d ≠ JStr s)).
    { destruct d; eauto; right; discriminate. }
    destruct Hd as [[s ->]|Hns].
    + apply getitem_str in Hg as [ch ->].
      pose proof (set_nested_item_str ch (init ++ [last]) v) as Hs.
      by rewrite Hstore in Hs.
    + destruct (setitem_after_getitem d k c0 c0' Hg) as (d' & Hd' & Hr).
      { done. }
      exists d'. split; [done|].
      by rewrite reduce_getitem_cons, Hr.
Qed.

Lemma Dict_set_None {K V} `{EqDecision K} (k : K) (v : V) d :
  Dict.get k d = None → Dict.set k v d = d ++ [(k, v)].
Proof.
  induction d as [|[k0 v0] d IH]; simpl; [done|].
  destruct (decide (k = k0)); [done|]. intros H'. by rewrite IH.
Qed.

Lemma write_update_run resource loc val w :
  Study.write_update resource (loc, val) w =
  match set_nested_item resource loc (to_pyval val) with
  | Ok resource' => (Ok resource', w)
  | Raise e =>
      if bool_decide (e = KeyError ∨ e = IndexError) then (Ok resource, w)
      else (Raise e, w)
  end.
Proof.
  unfold Study.write_update, try_except, from_result.
  destruct (set_nested_item _ _ _); [done|]. by destruct (bool_decide _).
Qed.

(** ** C6: what a write may create *)

(** C6, as amended.  Writing a mapped value at a template location creates
    no intermediate structure.  When a segment before the last is a missing
    key or an index out of range, or the last is an index out of range of a
    sequence, the write raises [KeyError] or [IndexError], which the
    per-field handler absorbs, leaving the document as it was; an empty
    location does the same.  A write that returns has found every segment
    before the last in the document.  The last segment is not protected:
    when the segments before it lead to a mapping without that key, the
    write returns and the key is added at the end of that mapping. *)
Theorem write_creates_no_intermediate_structure resource init last val w :
  (∀ e, reduce_getitem init resource = Raise e
        ∨ (∃ c, reduce_getitem init resource = Ok c
                ∧ setitem c last (to_pyval val) = Raise e) →
        e = KeyError ∨ e = IndexError →
        Study.write_update resource (init ++ [last], val) w = (Ok resource, w)) ∧
  (∀ resource',
     Study.write_update resource (init ++ [last], val) w = (Ok resource', w) →
     resource' = resource ∨
     ∃ c c', reduce_getitem init resource = Ok c
             ∧ setitem c last (to_pyval val) = Ok c'
             ∧ reduce_getitem init resource' = Ok c') ∧
  (∀ kvs, reduce_getitem init resource = Ok (JObj kvs) →
          Dict.get last kvs = None →
          ∃ resource',
            Study.write_update resource (init ++ [last], val) w = (Ok resource', w)
            ∧ reduce_getitem init resource' =
                Ok (JObj (kvs ++ [(last, to_pyval val)]))) ∧
  Study.write_update resource ([], val) w = (Ok resource, w).
Proof.
  pose proof (set_nested_item_walk resource init last (to_pyval val)) as Hw.
  rewrite !write_update_run. repeat split.
  - intros e [He|(c & Hc & He)] Hke.
    + rewrite He in Hw. rewrite Hw. by rewrite bool_decide_eq_true_2.
    + rewrite Hc, He in Hw. rewrite Hw. by rewrite bool_decide_eq_true_2.
  - intros resource' H.
    destruct (reduce_getitem init resource) as [c|e].
    + destruct (setitem c last (to_pyval val)) as [c'|e] eqn:Hs.
      * destruct Hw as (d' & Hd' & Hr). rewrite Hd' in H.
        injection H as <-. right. by exists c, c'.
      * rewrite Hw in H. case_bool_decide; simplify_eq. by left.
    + rewrite Hw in H. case_bool_decide; simplify_eq. by left.
  - intros kvs Hc Hn. rewrite Hc in Hw. simpl in Hw.
    destruct Hw as (d' & -> & Hr). exists d'. split; [done|].
    by rewrite Hr, (Dict_set_None _ _ _ Hn).
Qed.

Lemma write_creates_no_intermediate_structure_witness :
  let w := (Study.init "bk" [], []) in
  let written :=
    match set_nested_item Sample.template [SKey "subject"; SKey "reference"]
            (JStr "Patient/P1") with
    | Ok r => r
    | Raise _ => JNull
    end in
  Study.write_update Sample.template
    ([SKey "patient"] ++ [SKey "reference"], DText "Patient/P1") w =
    (Ok Sample.template, w) ∧
  (written = Sample.template ∨
   ∃ c c', reduce_getitem [SKey "subject"] Sample.template = Ok c
           ∧ setitem c (SKey "reference") (to_pyval (DText "Patient/P1")) = Ok c'
           ∧ reduce_getitem [SKey "subject"] written = Ok c') ∧
  ∃ resource',
    Study.write_update Sample.template
      ([SKey "subject"] ++ [SKey "display"], DText "Jane") w = (Ok resource', w) ∧
    reduce_getitem [SKey "subject"] resource' =
      Ok (JObj ([(SKey "reference", JStr "Patient/default")]
                ++ [(SKey "display", JStr "Jane")])).
Proof.
  intros w written. split; [|split].
  - apply (proj1 (write_creates_no_intermediate_structure Sample.template
                    [SKey "patient"] (SKey "reference") (DText "Patient/P1") w)
             KeyError); left; reflexivity.
  - apply (proj1 (proj2 (write_creates_no_intermediate_structure
                   Sample.template [SKey "subject"] (SKey "reference")
                   (DText "Patient/P1") w)) written).
    reflexivity.
  - apply (proj1 (proj2 (proj2 (write_creates_no_intermediate_structure
             Sample.template [SKey "subject"] (SKey "display") (DText "Jane") w)))
             [(SKey "reference", JStr "Patient/default")]); reflexivity.
Defined.

(** C6, as stated, fails: the template has no [started]; a mapping whose
    location is [started] adds that key, in [set_nested_item] and in the
    document that is POSTed. *)
Lemma write_adds_missing_final_key :
  let env := Sample.env Sample.objects Sample.template Sample.new_key_map in
  getitem Sample.template (SKey "started") = Raise KeyError ∧
  (∃ kvs, Sample.template = JObj kvs ∧
          set_nested_item Sample.template [SKey "started"] (JStr "20200101") =
            Ok (JObj (kvs ++ [(SKey "started", JStr "20200101")]))) ∧
  (λ doc, getitem doc (SKey "started")) <$>
    posted (sqs_lambda_handler env [Sample.payload ["a.dcm"]] []).2 =
    [Ok (JStr "20200101")].
Proof.
  split; [reflexivity|]. split; [eexists; split; reflexivity|].
  vm_compute. reflexivity.
Qed.

(** ** Series fragments *)

Lemma rmap_ext_in {A B} (f g : A → result B) l :
  (∀ x, x ∈ l → f x = g x) → rmap f l = rmap g l.
Proof.
  induction l as [|x l IH]; intros H; simpl; [done|].
  rewrite (H x) by left. rewrite IH; [done|]. intros y Hy. apply H. by right.
Qed.

Lemma rmap_ok_Forall2 {A B} (f : A → result B) l ys :
  rmap f l = Ok ys ↔ Forall2 (λ x y, f x = Ok y) l ys.
Proof.
  revert ys. induction l as [|x l IH]; intros ys; simpl.
  - split; [intros [= <-]; constructor | by inversion 1].
  - destruct (f x) as [y|e] eqn:Hx; simpl.
    + destruct (rmap f l) as [ys'|e] eqn:Hl; simpl.
      * split.
        -- intros [= <-]. constructor; [done|]. by apply IH.
        -- inversion 1 as [|? y' ? ys'' Hy Hrest]; subst.
           apply IH in Hrest. rewrite Hx in Hy. congruence.
      * split; [done|]. inversion 1 as [|? y' ? ys'' Hy Hrest]; subst.
        apply IH in Hrest. done.
    + split; [done|]. inversion 1 as [|? y' ? ys'' Hy Hrest]; subst.
      rewrite Hx in Hy. done.
Qed.

Lemma rmap_total {A B} (f : A → result B) l :
  Forall (λ x, is_ok (f x) = true) l → ∃ ys, rmap f l = Ok ys.
Proof.
  induction 1 as [|x l Hx _ [ys IH]]; simpl; [eauto|].
  destruct (f x); [|done]. rewrite IH. simpl. eauto.
Qed.

Lemma for_fold_collect {S A B} (f : A → M S B) (g : A → result B) xs acc s :
  (∀ x, f x s = (g x, s)) →
  for_fold xs acc (λ acc x, let* y := f x in ret (acc ++ [y])) s =
  match rmap g xs with
  | Ok ys => (Ok (acc ++ ys), s)
  | Raise e => (Raise e, s)
  end.
Proof.
  intros Hf. revert acc. induction xs as [|x xs IH]; intros acc; simpl.
  - by rewrite app_nil_r.
  - unfold bind at 1. unfold bind at 1. rewrite Hf.
    destruct (g x) as [y|e]; simpl; [|done].
    rewrite IH. destruct (rmap g xs); simpl; [|done].
    by rewrite <- app_assoc.
Qed.

Lemma series_to_fhir_run st tr :
  Study._series_to_fhir (st, tr) =
  match series_fragments (Study.series st) with
  | Ok frags => (Ok tt, (Study.set_series_fhir (JArr frags) st, tr))
  | Raise e => (Raise e, (st, tr))
  end.
Proof.
  unfold Study._series_to_fhir, series_fragments.
  unfold bind at 1. simpl. unfold bind at 1.
  rewrite (for_fold_collect _
    (λ k, match Dict.get k (Study.series st) with
          | Some sops => Study.series_out sops
          | None => Raise KeyError
          end)).
  - destruct (rmap _ _); done.
  - intros k. unfold Study._series_to_FHIR, bind. simpl.
    by destruct (Dict.get k (Study.series st)).
Qed.

Lemma series_fragments_group l :
  series_fragments (group_series l) =
  rmap (λ u, Study.series_out (filter (λ i, Instance.series_uid i = u) l))
       (first_seen (Instance.series_uid <$> l)).
Proof.
  unfold series_fragments. rewrite group_series_keys.
  apply rmap_ext_in. intros u Hu. rewrite group_series_get.
  apply first_seen_elem_of, list_elem_of_fmap in Hu as (i & -> & Hi).
  destruct (filter _ l) as [|i' l'] eqn:Hf; [|done].
  assert (i ∈ filter (λ i0, Instance.series_uid i0 = Instance.series_uid i) l)
    as Hin by (by apply list_elem_of_filter).
  rewrite Hf in Hin. by apply elem_of_nil in Hin.
Qed.

(** A fragment built by [series_out]: its uid and its instance elements. *)
Lemma series_out_ok sops frag :
  Study.series_out sops = Ok frag →
  ∃ sop0 elems,
    head sops = Some sop0 ∧
    getitem frag (SKey "uid") = Ok (JStr (py_str (Instance.series_uid sop0))) ∧
    getitem frag (SKey "numberOfInstances") = Ok (JNum (Z.of_nat (length sops))) ∧
    getitem frag (SKey "instance") = Ok (JArr elems) ∧
    Forall2 (λ i el, Study._instance_to_FHIR i = Ok el) sops elems.
Proof.
  unfold Study.series_out. destruct sops as [|sop0 sops']; [done|].
  intros H. apply rbind_ok_inv in H as (number & _ & H).
  apply rbind_ok_inv in H as (elems & He & H). injection H as <-.
  exists sop0, elems. repeat split; try done. by apply rmap_ok_Forall2.
Qed.

Lemma series_out_total sops :
  sops ≠ [] →
  Forall (λ i, is_ok (py_int (Instance.instance_number i)) = true
               ∧ is_ok (py_int (Instance.series_number i)) = true) sops →
  is_ok (Study.series_out sops) = true.
Proof.
  intros Hne Hall. unfold Study.series_out.
  destruct sops as [|sop0 sops']; [done|].
  pose proof (Forall_inv Hall) as [_ Hs].
  destruct (py_int (Instance.series_number sop0)); [|done]. cbn [rbind].
  destruct (rmap_total Study._instance_to_FHIR (sop0 :: sops')) as [ys ->]; [|done].
  eapply Forall_impl; [exact Hall|]. intros i [Hi _]. unfold Study._instance_to_FHIR.
  by destruct (py_int (Instance.instance_number i)).
Qed.

Lemma accepted_sublist uid l : sublist (accepted uid l) l.
Proof.
  revert uid. induction l as [|i l IH]; intros uid; simpl; [constructor|].
  destruct (accepts uid i); simpl.
  - by apply sublist_skip.
  - by apply sublist_cons.
Qed.

Lemma Forall_sublist {A} (P : A → Prop) (l1 l2 : list A) :
  sublist l1 l2 → Forall P l2 → Forall P l1.
Proof.
  induction 1 as [|x l1 l2 _ IH|x l1 l2 _ IH]; intros H; [done| |].
  - inversion H; subst. constructor; auto.
  - inversion H; subst. auto.
Qed.

Lemma Forall_filter_weak {A} (P Q : A → Prop) `{∀ x, Decision (Q x)} (l : list A) :
  Forall P l → Forall P (filter Q l).
Proof.
  rewrite !Forall_forall. intros H' x Hx. apply list_elem_of_filter in Hx as [_ Hx]. auto.
Qed.

Lemma Study_new_series env b keys insts tr st tr' :
  Forall2 (λ k i, read_outcome env b k = Ok i) keys insts →
  Study.new env b keys tr = (Ok st, tr') →
  Study.series st = group_series (accepted (DText "") insts).
Proof.
  intros H Hn.
  destruct (Study_new_all_read env b keys insts tr H)
    as [[_ Hok]|(? & ? & ? & ? & _ & _ & _ & _ & Hraise)]; [|congruence].
  rewrite Hok in Hn. injection Hn as <- <-.
  by rewrite foldl_assemble_series.
Qed.

(** ** The mapping stages in closed form *)

Lemma for_fold_pure {S A B} (body : B → A → M S B) (step : B → A → result B)
    xs acc s :
  (∀ acc x, body acc x s = (step acc x, s)) →
  for_fold xs acc body s = (rfold step xs acc, s).
Proof.
  intros Hb. revert acc. induction xs as [|x xs IH]; intros acc; simpl; [done|].
  unfold bind. rewrite Hb. destruct (step acc x); simpl; [apply IH | done].
Qed.

Lemma collect_update_run fhir_map acc tag st tr :
  Study.collect_update fhir_map acc tag (st, tr) =
  (collect_step (Study.instance st) fhir_map acc tag, (st, tr)).
Proof.
  unfold collect_step, Study.collect_update. destruct acc as [updates tag_value].
  destruct (Dict.get tag dicom_attribute_map) as [attr|]; [|done].
  unfold bind at 1 6. unfold ret at 1 5.
  unfold bind at 1 5.
  unfold try_except, bind, Study.self_get, gets, from_result, ret, raise, read_local.
  simpl.
  destruct (Study.instance st) as [inst|]; simpl.
  - destruct (Instance.tag_value _ _ _) as [v|e]; simpl.
    + destruct (decide (element_prefix attr = "")); simpl.
      * destruct (fhir_map !! tag); done.
      * destruct (py_add_text _ _) as [v'|e]; simpl.
        -- destruct (fhir_map !! tag); done.
        -- destruct (bool_decide _); [|done].
           destruct (fhir_map !! tag); simpl; [|done]. by destruct tag_value.
    + destruct (bool_decide _); [|done].
      destruct (fhir_map !! tag); simpl; [|done]. by destruct tag_value.
  - done.
Qed.

Lemma write_step_eq resource loc val :
  write_step resource (loc, val) =
  match set_nested_item resource loc (to_pyval val) with
  | Ok resource' => Ok resource'
  | Raise e =>
      if bool_decide (e = KeyError ∨ e = IndexError) then Ok resource
      else Raise e
  end.
Proof.
  unfold write_step. rewrite write_update_run.
  destruct (set_nested_item _ _ _); [done|]. by destruct (bool_decide _).
Qed.

Lemma write_update_step resource upd w :
  Study.write_update resource upd w = (write_step resource upd, w).
Proof.
  destruct upd as [loc val]. rewrite write_step_eq, write_update_run.
  destruct (set_nested_item _ _ _); [done|]. by destruct (bool_decide _).
Qed.

Lemma transform_fhir_run st tr :
  Study._transform_fhir (st, tr) =
  match finalize (Study.imagingstudy_fhir st) (Study.series_fhir st) with
  | Ok resource => (Ok tt, (Study.set_imagingstudy_fhir resource st, tr))
  | Raise e => (Raise e, (st, tr))
  end.
Proof.
  unfold Study._transform_fhir, finalize, count_instances.
  unfold bind at 1. simpl. unfold bind at 1.
  destruct (Study.imagingstudy_fhir st) as [| | | | |kvs] eqn:Hdoc; try done.
  destruct (Dict.mem _ kvs); [|done].
  unfold bind at 1. simpl. unfold bind at 1. unfold from_result at 1.
  destruct (py_iter (Study.series_fhir st)) as [sers|e]; [|done].
  unfold bind at 1.
  rewrite (for_fold_pure _
    (λ num ser, rbind (getitem ser (SKey "instance")) (λ instances,
                rbind (py_len instances) (λ n, Ok (num + n))))).
  - simpl. destruct (rfold _ sers 0); done.
  - intros acc x. unfold bind, from_result, ret.
    destruct (getitem x _); simpl; [|done]. by destruct (py_len _).
Qed.

Lemma template_from_s3_run env b tk mk st tr :
  Study._template_from_s3 env b tk mk (st, tr) =
  ((fetch_templates env b tk mk).1, (st, tr ++ (fetch_templates env b tk mk).2)).
Proof.
  unfold Study._template_from_s3, fetch_templates, bind, Study.io, emit, modify,
    from_result, ret. simpl.
  destruct (s3_template env b tk); simpl; [|done].
  destruct (s3_template_map env b mk); simpl; by rewrite <- app_assoc.
Qed.

Lemma set_imagingstudy_fhir_twice v v' st :
  Study.set_imagingstudy_fhir v (Study.set_imagingstudy_fhir v' st) =
  Study.set_imagingstudy_fhir v st.
Proof. done. Qed.

Lemma update_fhir_template_run template tm st tr :
  Study._update_fhir_template template tm (st, tr) =
  match draft (Study.instance st) template tm (Study.series_fhir st) with
  | Raise e => (Raise e, (st, tr))
  | Ok resource =>
      match finalize resource (Study.series_fhir st) with
      | Raise e => (Raise e, (Study.set_imagingstudy_fhir resource st, tr))
      | Ok resource' => (Ok tt, (Study.set_imagingstudy_fhir resource' st, tr))
      end
  end.
Proof.
  unfold Study._update_fhir_template, draft.
  change (foldl _ ∅ (template_map_entries tm)) with (fhir_map_of tm).
  unfold bind at 1.
  rewrite (for_fold_pure _ (collect_step (Study.instance st) (fhir_map_of tm)))
    by (intros; apply collect_update_run).
  destruct (rfold (collect_step _ _) _ _) as [collected|e]; [|done].
  cbn [rbind]. unfold bind at 1.
  rewrite (for_fold_pure _ write_step) by (intros; apply write_update_step).
  destruct (rfold write_step _ _) as [resource|e]; [|done].
  cbn [rbind]. unfold bind at 1. simpl. unfold bind at 1. unfold from_result at 1.
  destruct (setitem resource _ _) as [resource'|e]; [|done].
  unfold bind, Study.self_set, modify. simpl.
  rewrite transform_fhir_run. simpl.
  destruct (finalize resource' _); done.
Qed.

Lemma finalize_idem resource sf resource' :
  finalize resource sf = Ok resource' → finalize resource' sf = Ok resource'.
Proof.
  unfold finalize. destruct resource as [| | | | |kvs]; try done.
  destruct (Dict.mem (SKey "numberOfInstances") kvs) eqn:Hmem.
  - destruct (count_instances sf) as [n|e] eqn:Hn; [|done]. cbn [rbind setitem].
    intros [= <-]. rewrite Dict_mem_set, bool_decide_eq_true_2 by done. cbn [orb rbind setitem].
    by rewrite Dict_set_set.
  - intros [= <-]. by rewrite Hmem.
Qed.

Lemma imagingstudy_run env tb tk mk st tr :
  Study.imagingstudy env tb tk mk (st, tr) =
  let c := imagingstudy_closed env tb tk mk (Study.instance st) (Study.series st) in
  (c.1.1, (apply_outputs c.1.2 st, tr ++ c.2)).
Proof.
  unfold Study.imagingstudy, imagingstudy_closed.
  unfold bind at 1. rewrite series_to_fhir_run.
  destruct (series_fragments (Study.series st)) as [frags|e]; simpl;
    [|by rewrite app_nil_r].
  unfold bind at 1. rewrite template_from_s3_run.
  destruct (fetch_templates env tb tk mk) as [[[template tm]|e] evs]; simpl; [|done].
  unfold bind at 1. rewrite update_fhir_template_run. simpl.
  destruct (draft _ _ _ _) as [resource|e]; simpl; [|done].
  destruct (finalize resource (JArr frags)) as [resource'|e] eqn:Hf; simpl; [|done].
  rewrite transform_fhir_run. simpl. by rewrite (finalize_idem _ _ _ Hf).
Qed.

Lemma apply_outputs_inputs o st :
  Study.instance (apply_outputs o st) = Study.instance st ∧
  Study.series (apply_outputs o st) = Study.series st.
Proof. destruct o as [[v|] [v'|]]; done. Qed.

Lemma apply_outputs_idem o st :
  apply_outputs o (apply_outputs o st) = apply_outputs o st.
Proof. destruct o as [[v|] [v'|]]; done. Qed.

(** ** Counting instances *)

Lemma Dict_get_NoDup {K V} `{EqDecision K} (d : list (K * V)) :
  NoDup (Dict.keys d) → Forall (λ kv, Dict.get kv.1 d = Some kv.2) d.
Proof.
  unfold Dict.keys. induction d as [|[k v] d IH]; intros Hnd; [constructor|].
  inversion Hnd as [|? ? Hk Hd]; subst. constructor.
  - simpl. by rewrite decide_True.
  - eapply Forall_impl; [by apply IH|]. intros [k' v'] Hg. simpl in *.
    rewrite decide_False; [done|]. intros ->. apply Hk.
    destruct (decide (k ∈ d.*1)) as [|Hn]; [done|].
    apply Dict_get_None in Hn. congruence.
Qed.

Lemma Forall2_with_Forall_l {A B} (P : A → Prop) (R R' : A → B → Prop) l k :
  (∀ x y, P x → R x y → R' x y) →
  Forall P l → Forall2 R l k → Forall2 R' l k.
Proof.
  intros Himp HP HR. induction HR as [|x y l k Hxy _ IH]; [constructor|].
  inversion HP; subst. constructor; eauto.
Qed.

Lemma series_fragments_NoDup series frags :
  NoDup (Dict.keys series) →
  series_fragments series = Ok frags →
  Forall2 (λ sops frag, Study.series_out sops = Ok frag) series.*2 frags.
Proof.
  intros Hnd Hf. apply rmap_ok_Forall2 in Hf. unfold Dict.keys in Hf.
  apply Forall2_fmap_l in Hf. apply Forall2_fmap_l.
  eapply Forall2_with_Forall_l; [|exact (Dict_get_NoDup series Hnd)|exact Hf].
  intros [k v] frag Hk Hx. simpl in *. by rewrite Hk in Hx.
Qed.

Lemma count_instances_fragments sopss frags acc :
  Forall2 (λ sops frag, Study.series_out sops = Ok frag) sopss frags →
  rfold (λ num ser,
           rbind (getitem ser (SKey "instance")) (λ instances,
           rbind (py_len instances) (λ n, Ok (num + n))))
        frags acc =
  Ok (acc + Z.of_nat (sum_list (length <$> sopss))).
Proof.
  intros H. revert acc. induction H as [|sops frag sopss frags Hout _ IH]; intros acc.
  - cbn. f_equal. symmetry. apply Z.add_0_r.
  - apply series_out_ok in Hout as (sop0 & elems & _ & _ & _ & He & Hel).
    cbn [rfold]. rewrite He. cbn [rbind py_len]. rewrite IH.
    apply Forall2_length in Hel. cbn [fmap list_fmap sum_list sum_list_with].
    f_equal. unfold id. lia.
Qed.

(** Writes leave a dict a dict and drop none of its keys. *)
Lemma set_nested_item_root kvs path v r :
  set_nested_item (JObj kvs) path v = Ok r →
  ∃ kvs', r = JObj kvs' ∧ ∀ k, Dict.mem k kvs = true → Dict.mem k kvs' = true.
Proof.
  destruct path as [|k [|k' path]]; [done| |].
  - simpl. intros [= <-]. eexists. split; [done|]. intros k0 Hk.
    rewrite Dict_mem_set, Hk. apply orb_true_r.
  - rewrite set_nested_item_cons2. intros H.
    apply rbind_ok_inv in H as (c & _ & H). apply rbind_ok_inv in H as (c' & _ & H).
    simpl in H. injection H as <-. eexists. split; [done|]. intros k0 Hk.
    rewrite Dict_mem_set, Hk. apply orb_true_r.
Qed.

Lemma rfold_write_step_root updates kvs r :
  rfold write_step updates (JObj kvs) = Ok r →
  ∃ kvs', r = JObj kvs' ∧ ∀ k, Dict.mem k kvs = true → Dict.mem k kvs' = true.
Proof.
  revert kvs. induction updates as [|[loc val] updates IH]; intros kvs.
  - simpl. intros [= <-]. eauto.
  - cbn [rfold]. rewrite write_step_eq.
    destruct (set_nested_item (JObj kvs) loc (to_pyval val)) as [r1|e] eqn:Hs.
    + apply set_nested_item_root in Hs as (kvs1 & -> & Hk1). cbn [rbind].
      intros H. apply IH in H as (kvs' & -> & Hk'). eauto.
    + destruct (bool_decide _); [|done]. cbn [rbind]. apply IH.
Qed.

Lemma draft_keeps_template_keys inst tkvs tm sf r :
  draft inst (JObj tkvs) tm sf = Ok r →
  ∃ kvs, r = JObj kvs ∧ ∀ k, Dict.mem k tkvs = true → Dict.mem k kvs = true.
Proof.
  unfold draft, deepcopy. intros H.
  apply rbind_ok_inv in H as (collected & _ & H).
  apply rbind_ok_inv in H as (resource & Hw & H).
  apply rfold_write_step_root in Hw as (kvs1 & -> & Hk1).
  simpl in H. injection H as <-. eexists. split; [done|]. intros k Hk.
  rewrite Dict_mem_set, (Hk1 _ Hk). apply orb_true_r.
Qed.

Lemma count_instances_series series frags :
  NoDup (Dict.keys series) →
  series_fragments series = Ok frags →
  count_instances (JArr frags) =
    Ok (Z.of_nat (sum_list (length <$> series.*2))).
Proof.
  intros Hnd Hf. unfold count_instances. cbn [py_iter rbind].
  by rewrite (count_instances_fragments series.*2 frags 0)
    by (by apply series_fragments_NoDup).
Qed.

Lemma draft_series inst template tm sf r :
  draft inst template tm sf = Ok r → getitem r (SKey "series") = Ok sf.
Proof.
  unfold draft. intros H.
  apply rbind_ok_inv in H as (collected & _ & H).
  apply rbind_ok_inv in H as (resource & _ & H).
  by apply setitem_ok_read in H.
Qed.

Lemma finalize_series r sf r' :
  finalize r sf = Ok r' → getitem r' (SKey "series") = getitem r (SKey "series").
Proof.
  unfold finalize. destruct r as [| | | | |kvs]; try done.
  destruct (Dict.mem _ kvs); [|by intros [= <-]].
  destruct (count_instances sf) as [n|e]; [|done]. simpl. intros [= <-].
  simpl. by rewrite Dict_get_set_ne.
Qed.

(** ** C7: order of series and instances *)

Lemma accepted_all uid l : rejected uid l = [] → accepted uid l = l.
Proof.
  revert uid. induction l as [|i l IH]; intros uid; [done|].
  cbn [accepted rejected]. destruct (accepts uid i); [|done].
  cbn. intros H. by rewrite IH.
Qed.

(** C7, as amended.  When every key of the batch reads, the queue takes
    the messages and the instance and series numbers convert with [int],
    the study is built and its series list is built; the series fragments
    follow the order in which the series uids first appear among the
    instances the study keeps, and the instance elements of each fragment
    are those of the kept instances of that series, in the order of their
    keys, however the series interleave.  The kept instances are a
    subsequence of the arrivals, all of them when no instance is rejected,
    and the list is the [series] entry of any document the mapping goes on
    to produce. *)
Theorem series_follow_arrival_order env tb tk mk bucket keys insts tr :
  Forall2 (λ k i, read_outcome env bucket k = Ok i) keys insts →
  sends_ok env bucket (DText "") insts = true →
  Forall (λ i, is_ok (py_int (Instance.instance_number i)) = true
               ∧ is_ok (py_int (Instance.series_number i)) = true) insts →
  ∃ st tr' frags,
    Study.new env bucket keys tr = (Ok st, tr') ∧
    Study._series_to_fhir (st, tr') =
      (Ok tt, (Study.set_series_fhir (JArr frags) st, tr')) ∧
    (∀ st2 tr2,
       Study.imagingstudy env tb tk mk (st, tr') = (Ok tt, (st2, tr2)) →
       getitem (Study.imagingstudy_fhir st2) (SKey "series") = Ok (JArr frags)) ∧
    sublist (accepted (DText "") insts) insts ∧
    (rejected (DText "") insts = [] → accepted (DText "") insts = insts) ∧
    Forall2
      (λ u frag,
         getitem frag (SKey "uid") = Ok (JStr (py_str u)) ∧
         ∃ elems,
           getitem frag (SKey "instance") = Ok (JArr elems) ∧
           Forall2 (λ i el, Study._instance_to_FHIR i = Ok el)
             (filter (λ i, Instance.series_uid i = u) (accepted (DText "") insts))
             elems)
      (first_seen (Instance.series_uid <$> accepted (DText "") insts)) frags.
Proof.
  intros Hread Hsend Hint.
  set (kept := accepted (DText "") insts).
  assert (Hkept : Forall (λ i, is_ok (py_int (Instance.instance_number i)) = true
               ∧ is_ok (py_int (Instance.series_number i)) = true) kept).
  { eapply Forall_sublist; [apply accepted_sublist | done]. }
  destruct (rmap_total
    (λ u, Study.series_out (filter (λ i, Instance.series_uid i = u) kept))
    (first_seen (Instance.series_uid <$> kept))) as [frags Hfrags].
  { apply Forall_forall. intros u Hu. apply series_out_total.
    - apply first_seen_elem_of, list_elem_of_fmap in Hu as (i & -> & Hi).
      intros Hf.
      assert (i ∈ filter (λ i0, Instance.series_uid i0 = Instance.series_uid i) kept)
        as Hin by (by apply list_elem_of_filter).
      rewrite Hf in Hin. by apply elem_of_nil in Hin.
    - by apply Forall_filter_weak. }
  eexists _, _, frags. split; [by apply Study_new_ok|].
  assert (Hser : series_fragments
            (Study.series (foldl assemble_step (Study.init bucket keys) insts)) =
          Ok frags).
  { rewrite foldl_assemble_series. cbn [Study.init Study.series Study.uid].
    change (foldl _ [] ?l) with (group_series l).
    rewrite series_fragments_group. by fold kept. }
  split; [|split; [|split; [apply accepted_sublist|split; [apply accepted_all|]]]].
  - by rewrite series_to_fhir_run, Hser.
  - intros st2 tr2 Hrun. rewrite imagingstudy_run in Hrun.
    unfold imagingstudy_closed in Hrun. rewrite Hser in Hrun. cbn zeta in Hrun.
    destruct (fetch_templates env tb tk mk).1 as [loaded|e]; [|done].
    destruct (draft _ _ _ _) as [resource|e] eqn:Hd; [|done].
    destruct (finalize resource (JArr frags)) as [resource'|e] eqn:Hfin; [|done].
    simpl in Hrun. injection Hrun as <- <-. simpl.
    by rewrite (finalize_series _ _ _ Hfin), (draft_series _ _ _ _ _ Hd).
  - apply rmap_ok_Forall2 in Hfrags.
    eapply Forall2_impl; [exact Hfrags|]. intros u frag Hout. simpl in Hout.
    apply series_out_ok in Hout as (sop0 & elems & Hh & Hu & _ & He & Hel).
    assert (Instance.series_uid sop0 = u) as <-.
    { apply head_Some_elem_of, list_elem_of_filter in Hh as [Hh _]. done. }
    split; [done|]. by exists elems.
Qed.

Lemma series_follow_arrival_order_witness :
  let insts :=
    [Sample.inst "bk" "p1.dcm" "S1" "X" "i1" 1;
     Sample.inst "bk" "p2.dcm" "S1" "Y" "i2" 2;
     Sample.inst "bk" "p3.dcm" "S1" "X" "i3" 3;
     Sample.inst "bk" "p4.dcm" "S1" "Y" "i4" 4;
     Sample.inst "bk" "p5.dcm" "S1" "Y" "i5" 5] in
  first_seen (Instance.series_uid <$> accepted (DText "") insts) =
    [DText "X"; DText "Y"] ∧
  ∃ st tr' frags st2 tr2,
    Study.new Sample.setup5 "bk" Sample.five_keys [] = (Ok st, tr') ∧
    Study._series_to_fhir (st, tr') =
      (Ok tt, (Study.set_series_fhir (JArr frags) st, tr')) ∧
    Study.imagingstudy Sample.setup5 "templates" "template.json" "map.json"
      (st, tr') = (Ok tt, (st2, tr2)) ∧
    getitem (Study.imagingstudy_fhir st2) (SKey "series") = Ok (JArr frags) ∧
    sublist (accepted (DText "") insts) insts ∧
    accepted (DText "") insts = insts ∧
    Forall2
      (λ u frag,
         getitem frag (SKey "uid") = Ok (JStr (py_str u)) ∧
         ∃ elems,
           getitem frag (SKey "instance") = Ok (JArr elems) ∧
           Forall2 (λ i el, Study._instance_to_FHIR i = Ok el)
             (filter (λ i, Instance.series_uid i = u) (accepted (DText "") insts))
             elems)
      (first_seen (Instance.series_uid <$> accepted (DText "") insts)) frags.
Proof.
  intros insts. split; [reflexivity|].
  destruct (series_follow_arrival_order Sample.setup5 "templates" "template.json"
              "map.json" "bk" Sample.five_keys insts [])
    as (st & tr' & frags & Hnew & Hser & Hdoc & Hsub & Hall & Hord).
  - repeat constructor.
  - reflexivity.
  - repeat constructor.
  - pose (r := Study.imagingstudy Sample.setup5 "templates" "template.json"
                 "map.json" (st, tr')).
    assert (Hr : r.1 = Ok tt).
    { assert (Hst : st = Sample.five_loaded).
      { unfold Sample.five_loaded. by rewrite Hnew. }
      assert (Htr : tr' = (Study.new Sample.setup5 "bk" Sample.five_keys []).2).
      { by rewrite Hnew. }
      unfold r. rewrite Hst, Htr. vm_compute. reflexivity. }
    assert (E : Study.imagingstudy Sample.setup5 "templates" "template.json"
                  "map.json" (st, tr') = (Ok tt, (r.2.1, r.2.2))).
    { rewrite <- Hr. unfold r.
      by destruct (Study.imagingstudy _ _ _ _ _) as [? [? ?]]. }
    exists st, tr', frags, r.2.1, r.2.2.
    split; [exact Hnew|]. split; [exact Hser|]. split; [exact E|].
    split; [exact (Hdoc _ _ E)|]. split; [exact Hsub|].
    split; [exact (Hall eq_refl) | exact Hord].
Defined.

(** C7, as stated, fails.  Series X of study S1, series Y of study S2,
    series Z and then series Y of study S1 arrive in this order: Y is first
    seen second in the key list, but its first instance belongs to another
    study and is rejected, so the document that is POSTed lists X, Z, Y. *)
Lemma rejected_instance_reorders_series :
  let arrivals :=
    Sample2.read Sample2.setup_crossing <$> Sample2.crossing_keys in
  let run :=
    sqs_lambda_handler Sample2.setup_crossing
      [Sample.payload Sample2.crossing_keys] [] in
  Forall2 (λ k i, read_outcome Sample2.setup_crossing "bk" k = Ok i)
    Sample2.crossing_keys arrivals ∧
  first_seen (Instance.series_uid <$> arrivals) =
    [DText "X"; DText "Y"; DText "Z"] ∧
  is_ok run.1 = true ∧
  (λ doc,
     rbind (getitem doc (SKey "series")) (λ series,
     rbind (py_iter series) (rmap (λ frag, getitem frag (SKey "uid")))))
    <$> posted run.2 =
    [Ok [JStr "X"; JStr "Z"; JStr "Y"]].
Proof.
  cbn zeta. split; [repeat constructor|]. vm_compute. repeat split.
Qed.

(** ** C8: the total number of instances *)

(** What the first loop of [_update_fhir_template] queues: each update goes
    to the location the map gives for its tag. *)
Lemma collect_step_location inst fm acc tag acc' :
  collect_step inst fm acc tag = Ok acc' →
  ∃ loc v, fm !! tag = Some loc ∧ acc'.1 = acc.1 ++ [(loc, v)].
Proof.
  unfold collect_step, Study.collect_update. destruct acc as [updates stale].
  destruct (Dict.get tag dicom_attribute_map) as [attr|]; [|done].
  unfold bind at 1. unfold ret at 1. unfold bind at 1.
  unfold try_except, bind, Study.self_get, gets, from_result, ret, raise,
    read_local, probe.
  simpl. destruct inst as [inst|]; simpl; [|done].
  destruct (Instance.tag_value _ _ _) as [v|e]; simpl.
  - destruct (decide (element_prefix attr = "")); simpl.
    + destruct (fm !! tag); [|done]. intros [= <-]. eauto.
    + unfold py_add_text. destruct v; simpl; try done.
      destruct (fm !! tag); [|done]. intros [= <-]. eauto.
  - destruct (bool_decide (e = KeyError)); simpl; [|done].
    destruct (fm !! tag); simpl; [|done].
    destruct stale; [|done]. intros [= <-]. eauto.
Qed.

Lemma rfold_collect_locations inst fm (P : list seg → Prop) tags acc acc' :
  (∀ tag loc, fm !! tag = Some loc → P loc) →
  rfold (collect_step inst fm) tags acc = Ok acc' →
  Forall (λ u, P u.1) acc.1 → Forall (λ u, P u.1) acc'.1.
Proof.
  intros HP. revert acc. induction tags as [|tag tags IH]; intros acc.
  - simpl. by intros [= <-].
  - cbn [rfold]. intros H. apply rbind_ok_inv in H as (acc1 & H1 & H).
    intros Hacc. apply (IH _ H).
    apply collect_step_location in H1 as (loc & v & Hloc & ->).
    apply Forall_app. split; [done|]. constructor; [|constructor].
    by eapply HP.
Qed.

(** A write that is not at the one-step location [[k]] leaves an absent
    top-level key [k] absent. *)
Lemma set_nested_item_absent kvs path v kvs' k :
  set_nested_item (JObj kvs) path v = Ok (JObj kvs') →
  path ≠ [k] → Dict.mem k kvs = false → Dict.mem k kvs' = false.
Proof.
  destruct path as [|k1 [|k2 path]]; [done| |].
  - simpl. intros [= <-] Hne Hk. rewrite Dict_mem_set, Hk.
    rewrite bool_decide_eq_false_2; [done|]. by intros ->.
  - rewrite set_nested_item_cons2. intros H _ Hk.
    apply rbind_ok_inv in H as (c & Hc & H).
    apply rbind_ok_inv in H as (c' & _ & H).
    simpl in H. injection H as <-. rewrite Dict_mem_set, Hk.
    rewrite bool_decide_eq_false_2; [done|]. intros ->.
    simpl in Hc. unfold Dict.mem in Hk. by destruct (Dict.get k kvs).
Qed.

Lemma rfold_write_step_absent updates kvs kvs' k :
  rfold write_step updates (JObj kvs) = Ok (JObj kvs') →
  Forall (λ u, u.1 ≠ [k]) updates →
  Dict.mem k kvs = false → Dict.mem k kvs' = false.
Proof.
  revert kvs. induction updates as [|[loc val] updates IH]; intros kvs.
  - simpl. by intros [= <-].
  - cbn [rfold]. rewrite write_step_eq. intros H Hall Hk.
    apply Forall_cons in Hall as [Hloc Hall]. cbn [fst] in Hloc.
    destruct (set_nested_item (JObj kvs) loc (to_pyval val)) as [r1|e] eqn:Hs.
    + pose proof Hs as Hroot.
      apply set_nested_item_root in Hroot as (kvs1 & -> & _). cbn [rbind] in H.
      apply (IH _ H Hall). by eapply set_nested_item_absent.
    + destruct (bool_decide _); [|done]. cbn [rbind] in H. by apply (IH _ H).
Qed.

(** C8, as amended.  For a study whose series dict has distinct keys, once
    the series list is built and the document is a mapping,
    [_transform_fhir] returns: a document with a [numberOfInstances] entry
    gets the sum of the sizes of the series there, a document without one
    is left as it is.  When the template is a mapping with that entry, so
    is every document that [imagingstudy] produces from it, and it carries
    the sum.  When the template is a mapping without that entry and the
    map file gives no tag the location [numberOfInstances], the document
    produced has no such entry: it is the mapped document, untouched by the
    finalizer. *)
Theorem total_instance_count env tb tk mk st0 tr :
  NoDup (Dict.keys (Study.series st0)) →
  let total := Z.of_nat (sum_list (length <$> (Study.series st0).*2)) in
  (∀ st kvs,
     Study._series_to_fhir (st0, tr) = (Ok tt, (st, tr)) →
     Study.imagingstudy_fhir st = JObj kvs →
     Study._transform_fhir (st, tr) =
       (Ok tt,
        (Study.set_imagingstudy_fhir
           (if Dict.mem (SKey "numberOfInstances") kvs
            then JObj (Dict.set (SKey "numberOfInstances") (JNum total) kvs)
            else JObj kvs) st, tr))) ∧
  (∀ st' tr' tkvs tm,
     Study.imagingstudy env tb tk mk (st0, tr) = (Ok tt, (st', tr')) →
     (fetch_templates env tb tk mk).1 = Ok (JObj tkvs, tm) →
     Dict.mem (SKey "numberOfInstances") tkvs = true →
     getitem (Study.imagingstudy_fhir st') (SKey "numberOfInstances") =
       Ok (JNum total)) ∧
  (∀ st' tr' tkvs tm,
     Study.imagingstudy env tb tk mk (st0, tr) = (Ok tt, (st', tr')) →
     (fetch_templates env tb tk mk).1 = Ok (JObj tkvs, tm) →
     Dict.mem (SKey "numberOfInstances") tkvs = false →
     (∀ tag loc, fhir_map_of tm !! tag = Some loc →
                 loc ≠ [SKey "numberOfInstances"]) →
     getitem (Study.imagingstudy_fhir st') (SKey "numberOfInstances") =
       Raise KeyError ∧
     draft (Study.instance st0) (JObj tkvs) tm (Study.series_fhir st') =
       Ok (Study.imagingstudy_fhir st')).
Proof.
  intros Hnd total. split; [|split].
  - intros st kvs Hs Hdoc. rewrite series_to_fhir_run in Hs.
    destruct (series_fragments (Study.series st0)) as [frags|e] eqn:Hf; [|done].
    injection Hs as <-. rewrite transform_fhir_run. simpl in Hdoc.
    cbn [Study.set_series_fhir Study.imagingstudy_fhir Study.series_fhir].
    rewrite Hdoc. unfold finalize.
    destruct (Dict.mem _ kvs); [|done].
    by rewrite (count_instances_series _ _ Hnd Hf).
  - intros st' tr' tkvs tm Hrun Hfetch Hmem. rewrite imagingstudy_run in Hrun.
    unfold imagingstudy_closed in Hrun.
    destruct (series_fragments (Study.series st0)) as [frags|e] eqn:Hf; [|done].
    cbn zeta in Hrun. rewrite Hfetch in Hrun. cbn [fst snd] in Hrun.
    destruct (draft _ _ _ _) as [resource|e] eqn:Hd; [|done].
    destruct (finalize resource (JArr frags)) as [resource'|e] eqn:Hfin; [|done].
    simpl in Hrun. injection Hrun as <- <-. simpl.
    apply draft_keeps_template_keys in Hd as (kvs & -> & Hk).
    unfold finalize in Hfin. rewrite (Hk _ Hmem) in Hfin.
    rewrite (count_instances_series _ _ Hnd Hf) in Hfin. simpl in Hfin.
    injection Hfin as <-. simpl. by rewrite Dict_get_set_eq.
  - intros st' tr' tkvs tm Hrun Hfetch Hmem Hloc. rewrite imagingstudy_run in Hrun.
    unfold imagingstudy_closed in Hrun.
    destruct (series_fragments (Study.series st0)) as [frags|e] eqn:Hf; [|done].
    cbn zeta in Hrun. rewrite Hfetch in Hrun. cbn [fst snd] in Hrun.
    destruct (draft _ _ _ _) as [resource|e] eqn:Hd; [|done].
    destruct (finalize resource (JArr frags)) as [resource'|e] eqn:Hfin; [|done].
    simpl in Hrun. injection Hrun as <- <-.
    cbn [apply_outputs fst snd Study.set_series_fhir Study.set_imagingstudy_fhir
         Study.imagingstudy_fhir Study.series_fhir].
    assert (Habs : ∃ kvs, resource = JObj kvs ∧
                          Dict.mem (SKey "numberOfInstances") kvs = false).
    { unfold draft, deepcopy in Hd.
      apply rbind_ok_inv in Hd as (collected & Hc & Hd).
      apply rbind_ok_inv in Hd as (r0 & Hw & Hd).
      pose proof Hw as Hroot.
      apply rfold_write_step_root in Hroot as (kvs0 & -> & _).
      simpl in Hd. injection Hd as <-. eexists. split; [done|].
      rewrite Dict_mem_set. rewrite bool_decide_eq_false_2 by done.
      eapply rfold_write_step_absent; [exact Hw| |exact Hmem].
      eapply (rfold_collect_locations _ _ (λ loc, loc ≠ [SKey "numberOfInstances"]));
        [exact Hloc|exact Hc|constructor]. }
    destruct Habs as (kvs & -> & Hk).
    unfold finalize in Hfin. rewrite Hk in Hfin. injection Hfin as <-.
    split; [|done]. cbn [getitem]. unfold Dict.mem in Hk.
    by destruct (Dict.get _ kvs).
Qed.

Lemma total_instance_count_witness :
  let st0 := Sample.five_study in
  let st := (Study._series_to_fhir (st0, [])).2.1 in
  let bare := Sample.env Sample.five (JObj Sample2.uncounted_items)
                Sample.field_map in
  length <$> (Study.series st0).*2 = [2; 3]%nat ∧
  getitem (Study.imagingstudy_fhir (Study._transform_fhir (st, [])).2.1)
    (SKey "numberOfInstances") = Ok (JNum 5) ∧
  (∃ st' tr',
     Study.imagingstudy Sample.setup5 "templates" "template.json" "map.json"
       (st0, []) = (Ok tt, (st', tr')) ∧
     getitem (Study.imagingstudy_fhir st') (SKey "numberOfInstances") =
       Ok (JNum 5)) ∧
  (∃ st' tr',
     Study.imagingstudy bare "templates" "template.json" "map.json"
       (st0, []) = (Ok tt, (st', tr')) ∧
     getitem (Study.imagingstudy_fhir st') (SKey "numberOfInstances") =
       Raise KeyError).
Proof.
  intros st0 st bare.
  assert (Hnd : NoDup (Dict.keys (Study.series st0))).
  { apply (bool_decide_unpack _). vm_compute. exact I. }
  destruct (total_instance_count Sample.setup5 "templates" "template.json"
              "map.json" st0 [] Hnd) as (Hfin & Hrun & _).
  destruct (total_instance_count bare "templates" "template.json"
              "map.json" st0 [] Hnd) as (_ & _ & Hbare).
  split; [vm_compute; reflexivity|]. split; [|split].
  - assert (Hs : Study._series_to_fhir (st0, []) = (Ok (), (st, [])))
      by (vm_compute; reflexivity).
    assert (Hd : Study.imagingstudy_fhir st = JObj Sample.template_items)
      by (vm_compute; reflexivity).
    rewrite (Hfin st Sample.template_items Hs Hd).
    vm_compute. reflexivity.
  - pose (r := Study.imagingstudy Sample.setup5 "templates" "template.json"
                 "map.json" (st0, [])).
    assert (Hr : r.1 = Ok tt) by (vm_compute; reflexivity).
    assert (E : Study.imagingstudy Sample.setup5 "templates" "template.json"
                  "map.json" (st0, []) = (Ok tt, (r.2.1, r.2.2))).
    { clear Hfin Hrun Hbare. rewrite <- Hr. unfold r.
      by destruct (Study.imagingstudy _ _ _ _ _) as [? [? ?]]. }
    assert (Hf : (fetch_templates Sample.setup5 "templates" "template.json"
                    "map.json").1 =
                 Ok (JObj Sample.template_items, Sample.field_map))
      by reflexivity.
    assert (Hm : Dict.mem (SKey "numberOfInstances") Sample.template_items = true)
      by reflexivity.
    exists r.2.1, r.2.2. split; [exact E|].
    rewrite (Hrun _ _ Sample.template_items Sample.field_map E Hf Hm).
    vm_compute. reflexivity.
  - pose (r := Study.imagingstudy bare "templates" "template.json"
                 "map.json" (st0, [])).
    assert (Hr : r.1 = Ok tt) by (vm_compute; reflexivity).
    assert (E : Study.imagingstudy bare "templates" "template.json"
                  "map.json" (st0, []) = (Ok tt, (r.2.1, r.2.2))).
    { clear Hfin Hrun Hbare. rewrite <- Hr. unfold r.
      by destruct (Study.imagingstudy _ _ _ _ _) as [? [? ?]]. }
    assert (Hf : (fetch_templates bare "templates" "template.json"
                    "map.json").1 =
                 Ok (JObj Sample2.uncounted_items, Sample.field_map))
      by reflexivity.
    assert (Hm : Dict.mem (SKey "numberOfInstances") Sample2.uncounted_items =
                 false) by reflexivity.
    assert (Hloc : map_Forall (λ _ loc, loc ≠ [SKey "numberOfInstances"])
                     (fhir_map_of Sample.field_map)).
    { apply (bool_decide_unpack _). vm_compute. exact I. }
    exists r.2.1, r.2.2. split; [exact E|].
    exact (proj1 (Hbare _ _ Sample2.uncounted_items Sample.field_map E Hf Hm Hloc)).
Defined.

(** C8, as stated, fails in its second half.  The template has no
    [numberOfInstances]; the map file writes the study uid there.  The
    mapped document then has the entry, and the finalizer replaces the uid
    by the count: the document that is POSTed carries 2. *)
Lemma mapped_count_is_overwritten :
  let run :=
    sqs_lambda_handler Sample2.setup_count_map
      [Sample.payload ["a.dcm"; "b.dcm"]] [] in
  Dict.mem (SKey "numberOfInstances") Sample2.uncounted_items = false ∧
  rbind (draft (Some (Sample.inst "bk" "a.dcm" "S1" "X" "i1" 1))
           (JObj Sample2.uncounted_items) Sample2.count_map (JArr []))
    (λ doc, getitem doc (SKey "numberOfInstances")) = Ok (JStr "S1") ∧
  is_ok run.1 = true ∧
  (λ doc, getitem doc (SKey "numberOfInstances")) <$> posted run.2 =
    [Ok (JNum 2)].
Proof. vm_compute. repeat split. Qed.

(** ** C9: mapping twice *)

(** C9.  Running [imagingstudy] on a study, and then again on the study as
    the first run left it, gives the same result and leaves the study, its
    document included, exactly as the first run did.  The same holds for
    [_update_fhir_template] with one template and one mapping, and for the
    finalizing [_transform_fhir]. *)
Theorem mapping_twice_same_document env tb tk mk template tm st tr :
  let run1 := Study.imagingstudy env tb tk mk (st, tr) in
  let run2 := Study.imagingstudy env tb tk mk run1.2 in
  let map1 := Study._update_fhir_template template tm (st, tr) in
  let map2 := Study._update_fhir_template template tm map1.2 in
  let fin1 := Study._transform_fhir (st, tr) in
  let fin2 := Study._transform_fhir fin1.2 in
  (run2.1 = run1.1 ∧ run2.2.1 = run1.2.1 ∧
   Study.imagingstudy_fhir run2.2.1 = Study.imagingstudy_fhir run1.2.1) ∧
  map2 = map1 ∧
  fin2 = fin1.
Proof.
  cbn zeta. split; [|split].
  - rewrite (imagingstudy_run env tb tk mk st tr). cbn zeta. cbn [fst snd].
    rewrite imagingstudy_run. cbn zeta. cbn [fst snd].
    destruct (apply_outputs_inputs
      (imagingstudy_closed env tb tk mk (Study.instance st) (Study.series st)).1.2 st)
      as [-> ->].
    by rewrite apply_outputs_idem.
  - rewrite (update_fhir_template_run template tm st tr).
    destruct (draft _ _ _ _) as [resource|e] eqn:Hd.
    + destruct (finalize resource _) as [resource'|e] eqn:Hf; cbn [snd];
        rewrite update_fhir_template_run; simpl; by rewrite Hd, Hf.
    + cbn [snd]. rewrite update_fhir_template_run. by rewrite Hd.
  - rewrite (transform_fhir_run st tr).
    destruct (finalize _ _) as [resource|e] eqn:Hf; cbn [snd].
    + rewrite transform_fhir_run. simpl. by rewrite (finalize_idem _ _ _ Hf).
    + rewrite transform_fhir_run. by rewrite Hf.
Qed.

(** ** C4: a batch without a readable instance *)







(** ** The embedding on small inputs *)

Example int_of_text_samples :
  int_of_text " 12 " = Some 12 ∧ int_of_text "-7" = Some (-7) ∧
  int_of_text "1_0" = Some 10 ∧ int_of_text "" = None ∧
  int_of_text "1__0" = None ∧ int_of_text "4a" = None.
Proof. vm_compute. repeat split. Qed.

Example getitem_samples :
  getitem (JArr [JNum 1; JNum 2; JNum 3]) (SIdx (-1)) = Ok (JNum 3) ∧
  getitem (JArr [JNum 1; JNum 2; JNum 3]) (SIdx 3) = Raise IndexError ∧
  getitem (JArr [JNum 1]) (SKey "a") = Raise TypeError ∧
  getitem (JObj [(SKey "a", JNum 1)]) (SKey "b") = Raise KeyError ∧
  getitem (JStr "abc") (SIdx 1) = Ok (JStr "b") ∧
  getitem (JNum 4) (SIdx 0) = Raise TypeError.
Proof. vm_compute. repeat split. Qed.

Example set_nested_item_samples :
  set_nested_item Sample.template [SKey "identifier"; SIdx 0; SKey "value"]
    (JStr "S1") =
    Ok (JObj (Dict.set (SKey "identifier")
                (JArr [JObj [(SKey "value", JStr "S1")]]) Sample.template_items)) ∧
  set_nested_item Sample.template [SKey "identifier"; SIdx 1; SKey "value"]
    (JStr "S1") = Raise IndexError ∧
  set_nested_item Sample.template [SKey "patient"; SKey "id"] (JStr "P") =
    Raise KeyError ∧
  set_nested_item Sample.template [SKey "bodySite"; SKey "code"] (JStr "x") =
    Raise TypeError ∧
  set_nested_item Sample.template [] (JStr "x") = Raise IndexError.
Proof. vm_compute. repeat split. Qed.

(** * Further properties *)

(** ** [set_nested_item] *)

Lemma set_nested_item_reads d path v d' :
  set_nested_item d path v = Ok d' → reduce_getitem path d' = Ok v.
Proof.
  intros Hset. destruct path as [|k path _] using rev_ind; [done|].
  pose proof (set_nested_item_walk d path k v) as Hw.
  destruct (reduce_getitem path d) as [c|e]; [|congruence].
  destruct (setitem c k v) as [c'|e] eqn:Hs; [|congruence].
  destruct Hw as (d2 & Hd2 & Hr). rewrite Hset in Hd2. injection Hd2 as <-.
  rewrite reduce_getitem_snoc, Hr. simpl. by eapply setitem_ok_read.
Qed.

Lemma setitem_again d k v d' : setitem d k v = Ok d' → setitem d' k v = Ok d'.
Proof.
  destruct d as [| | | |l|kvs]; try done.
  - destruct k as [s|i]; [done|]. cbn [setitem].
    destruct (norm_index (length l) i) as [n|] eqn:Hn; [|done].
    intros [= <-]. cbn [setitem]. rewrite length_insert, Hn.
    by rewrite list_insert_insert_eq.
  - intros H. injection H as <-. unfold setitem. do 2 f_equal.
    apply Dict_set_set.
Qed.

Lemma set_nested_item_again d path v d' :
  set_nested_item d path v = Ok d' → set_nested_item d' path v = Ok d'.
Proof.
  revert d d'. induction path as [|k path IH]; intros d d'; [done|].
  destruct path as [|k' path].
  - apply setitem_again.
  - rewrite !set_nested_item_cons2. intros H.
    apply rbind_ok_inv in H as (c & Hc & H).
    apply rbind_ok_inv in H as (c' & Hc' & H).
    rewrite (setitem_ok_read _ _ _ _ H). cbn [rbind].
    rewrite (IH _ _ Hc'). cbn [rbind]. by eapply setitem_again.
Qed.

(** X1.  When [set_nested_item] returns, reading the returned value along
    the same path gives the value that was written, and writing the same
    value at the same path once more changes nothing. *)
Theorem set_nested_item_read_back dataDict mapList val dataDict' :
  set_nested_item dataDict mapList val = Ok dataDict' →
  reduce_getitem mapList dataDict' = Ok val ∧
  set_nested_item dataDict' mapList val = Ok dataDict'.
Proof.
  intros Hset. split.
  - by eapply set_nested_item_reads.
  - by eapply set_nested_item_again.
Qed.

Lemma set_nested_item_read_back_witness :
  let written :=
    JObj (Dict.set (SKey "identifier")
            (JArr [JObj [(SKey "value", JStr "S1")]]) Sample.template_items) in
  reduce_getitem [SKey "identifier"; SIdx 0; SKey "value"] written =
    Ok (JStr "S1") ∧
  set_nested_item written [SKey "identifier"; SIdx 0; SKey "value"] (JStr "S1") =
    Ok written.
Proof.
  intros written.
  apply (set_nested_item_read_back Sample.template
           [SKey "identifier"; SIdx 0; SKey "value"] (JStr "S1")).
  reflexivity.
Defined.

(** X2.  A write into a dict that returns gives a dict again; every
    top-level entry other than the first key of the path is as before; if
    that key was present the keys keep their order; and a path of two or
    more steps returns only if its first key was present. *)
Theorem set_nested_item_frame kvs k rest val dataDict' :
  set_nested_item (JObj kvs) (k :: rest) val = Ok dataDict' →
  ∃ kvs',
    dataDict' = JObj kvs' ∧
    (∀ k', k' ≠ k → Dict.get k' kvs' = Dict.get k' kvs) ∧
    (Dict.mem k kvs = true → Dict.keys kvs' = Dict.keys kvs) ∧
    (rest ≠ [] → Dict.mem k kvs = true).
Proof.
  destruct rest as [|k2 rest].
  - simpl. intros [= <-]. eexists. split; [done|]. split; [|split; [|done]].
    + intros k' Hne. by apply Dict_get_set_ne.
    + unfold Dict.mem, Dict.keys. destruct (Dict.get k kvs) eqn:Hg; [|done].
      intros _. by eapply Dict_keys_set_Some.
  - rewrite set_nested_item_cons2. intros H.
    apply rbind_ok_inv in H as (c & Hg & H).
    apply rbind_ok_inv in H as (c' & _ & H). simpl in H. injection H as <-.
    simpl in Hg. destruct (Dict.get k kvs) as [v0|] eqn:Hk; [|done].
    eexists. split; [done|]. split; [|split].
    + intros k' Hne. by apply Dict_get_set_ne.
    + intros _. unfold Dict.keys. by eapply Dict_keys_set_Some.
    + intros _. unfold Dict.mem. by rewrite Hk.
Qed.

Lemma set_nested_item_frame_witness :
  ∃ kvs',
    JObj (Dict.set (SKey "subject")
            (JObj [(SKey "reference", JStr "Patient/P1")]) Sample.template_items) =
      JObj kvs' ∧
    (∀ k', k' ≠ SKey "subject" →
           Dict.get k' kvs' = Dict.get k' Sample.template_items) ∧
    (Dict.mem (SKey "subject") Sample.template_items = true →
     Dict.keys kvs' = Dict.keys Sample.template_items) ∧
    ([SKey "reference"] ≠ [] →
     Dict.mem (SKey "subject") Sample.template_items = true).
Proof.
  apply (set_nested_item_frame Sample.template_items (SKey "subject")
           [SKey "reference"] (JStr "Patient/P1")).
  reflexivity.
Defined.

Lemma setitem_scalar c k v : is_scalar c = true → setitem c k v = Raise TypeError.
Proof. by destruct c, k. Qed.

(** X3.  The write loop of [_update_fhir_template] catches [KeyError] and
    [IndexError] only: a location whose walk fails with [TypeError], or
    ends in [None], a boolean, a number or a string, makes the write raise
    [TypeError] and nothing is written. *)
Theorem write_through_scalar_raises resource init last val w :
  (reduce_getitem init resource = Raise TypeError
   ∨ ∃ c, reduce_getitem init resource = Ok c ∧ is_scalar c = true) →
  Study.write_update resource (init ++ [last], val) w = (Raise TypeError, w).
Proof.
  intros H. rewrite write_update_run.
  pose proof (set_nested_item_walk resource init last (to_pyval val)) as Hw.
  destruct H as [He|(c & Hc & Hs)].
  - rewrite He in Hw. by rewrite Hw.
  - rewrite Hc, (setitem_scalar _ _ _ Hs) in Hw. by rewrite Hw.
Qed.

Lemma write_through_scalar_raises_witness :
  let w := (Study.init "bk" [], []) in
  Study.write_update Sample.template
    ([SKey "bodySite"] ++ [SKey "code"], DText "HEAD") w = (Raise TypeError, w) ∧
  Study.write_update Sample.template
    ([SKey "bodySite"; SKey "coding"] ++ [SKey "code"], DText "HEAD") w =
    (Raise TypeError, w).
Proof.
  intros w. split.
  - apply write_through_scalar_raises. right. exists (JStr "default-site").
    split; reflexivity.
  - apply write_through_scalar_raises. left. reflexivity.
Defined.

(** ** [Instance]: reading one object *)

Lemma read_tags_outcome env b k eb tr :
  Instance.read_tags_from_s3 env b k eb tr =
  (match s3_dcmread env b k eb with
   | Ok ds => Ok ds
   | Raise e =>
       Raise (if bool_decide (e = InvalidDicomError ∨ e = TypeError)
              then NameError else e)
   end, tr ++ [S3Get b k]).
Proof.
  unfold Instance.read_tags_from_s3, bind, try_except, emit, modify, from_result.
  simpl. destruct (s3_dcmread env b k eb) as [d|e]; simpl; [done|].
  by destruct (bool_decide _).
Qed.

(** X4.  When reading or decoding the object fails, [Instance(bucket, key)]
    makes the one S3 read and raises: [NameError] if the failure was
    [InvalidDicomError] or [TypeError] (the handler of
    [read_tags_from_s3] names the undefined [key]), the failure itself
    otherwise. *)
Theorem read_failure_exception env bucket key e tr :
  s3_dcmread env bucket key (end_byte env) = Raise e →
  Instance.new env bucket key tr =
  (Raise (if bool_decide (e = InvalidDicomError ∨ e = TypeError)
          then NameError else e),
   tr ++ [S3Get bucket key]).
Proof.
  intros He. unfold Instance.new, Instance.read_instance, module_end_byte.
  unfold bind at 1. rewrite read_tags_outcome, He. done.
Qed.

Lemma read_failure_exception_witness :
  Instance.new Sample.setup "bk" "bad.dcm" [] =
    (Raise NameError, [] ++ [S3Get "bk" "bad.dcm"]) ∧
  Instance.new Sample.setup "bk" "absent.dcm" [] =
    (Raise ClientError, [] ++ [S3Get "bk" "absent.dcm"]).
Proof.
  split.
  - apply (read_failure_exception Sample.setup "bk" "bad.dcm" InvalidDicomError).
    reflexivity.
  - apply (read_failure_exception Sample.setup "bk" "absent.dcm" ClientError).
    reflexivity.
Defined.

Lemma read_outcome_decoded env b k ds :
  s3_dcmread env b k (end_byte env) = Ok ds →
  read_outcome env b k =
  rbind (Instance.tag_value (Some ds) "0020" "000D") (λ study_uid,
  rbind (Instance.tag_value (Some ds) "0020" "000E") (λ series_uid,
  rbind (Instance.tag_value (Some ds) "0008" "0018") (λ instance_uid,
  rbind (Instance.tag_value (Some ds) "0010" "0020") (λ patient_id,
  rbind (Instance.tag_value (Some ds) "0008" "0020") (λ study_date,
  rbind (Instance.tag_value (Some ds) "0020" "0013") (λ instance_number,
  rbind (Instance.tag_value (Some ds) "0020" "0011") (λ series_number,
  rbind (Instance.tag_value (Some ds) "0008" "0060") (λ modality,
  Ok {| Instance.end_byte := end_byte env; Instance.bucket := b;
        Instance.key := k; Instance.dcm := Some ds;
        Instance.study_uid := study_uid; Instance.series_uid := series_uid;
        Instance.series_number := series_number;
        Instance.instance_uid := instance_uid;
        Instance.patient_id := patient_id;
        Instance.s3_url := "s3://" +:+ b +:+ "/" +:+ k;
        Instance.study_date := study_date;
        Instance.instance_number := instance_number;
        Instance.modality := modality |})))))))).
Proof.
  intros Hd. unfold read_outcome, Instance.new, Instance.read_instance,
    module_end_byte.
  unfold bind at 1. rewrite read_tags_outcome, Hd.
  unfold from_result, bind, ret.
  repeat (destruct (Instance.tag_value (Some ds) _ _); cbn [rbind fst]; [|done]).
  done.
Qed.

(** X5.  For an object that decodes, [Instance(bucket, key)] returns exactly
    when the data set holds all eight tags [read_instance] reads; when one
    is absent it raises [KeyError], after the one S3 read. *)
Theorem instance_needs_every_tag env bucket key ds :
  s3_dcmread env bucket key (end_byte env) = Ok ds →
  is_ok (read_outcome env bucket key) =
    bool_decide (Forall (λ t, is_Some (ds !! t)) mandatory_tags) ∧
  (is_ok (read_outcome env bucket key) = false →
   Instance.new env bucket key [] = (Raise KeyError, [S3Get bucket key])).
Proof.
  intros Hd. rewrite Instance_new_trace, (read_outcome_decoded _ _ _ _ Hd).
  unfold Instance.tag_value, mandatory_tags.
  assert (Hall : Forall (λ t, is_Some (ds !! t))
            [("0020", "000D"); ("0020", "000E"); ("0008", "0018");
             ("0010", "0020"); ("0008", "0020"); ("0020", "0013");
             ("0020", "0011"); ("0008", "0060")] ↔
          is_Some (ds !! ("0020", "000D")) ∧ is_Some (ds !! ("0020", "000E")) ∧
          is_Some (ds !! ("0008", "0018")) ∧ is_Some (ds !! ("0010", "0020")) ∧
          is_Some (ds !! ("0008", "0020")) ∧ is_Some (ds !! ("0020", "0013")) ∧
          is_Some (ds !! ("0020", "0011")) ∧ is_Some (ds !! ("0008", "0060"))).
  { rewrite !Forall_cons, Forall_nil. tauto. }
  rewrite (bool_decide_ext _ _ Hall). clear Hall.
  repeat match goal with
         | |- context [rbind (match ds !! ?t with _ => _ end) _] =>
             destruct (ds !! t) eqn:?; cbn [rbind];
             [|split; [symmetry; apply bool_decide_eq_false_2;
                       intros H; decompose [and] H;
                       repeat match goal with
                              | H' : is_Some None |- _ => by destruct H'
                              end
                      | done]]
         end.
  split; [|done]. symmetry. apply bool_decide_eq_true_2. repeat split; eauto.
Qed.

Lemma instance_needs_every_tag_witness :
  (is_ok (read_outcome Sample.setup "bk" "a.dcm") =
     bool_decide (Forall (λ t, is_Some (Sample.dataset "S1" "X" "i1" 1 !! t))
                    mandatory_tags)) ∧
  (is_ok (read_outcome Sample.setup "bk" "a.dcm") = false →
   Instance.new Sample.setup "bk" "a.dcm" [] =
     (Raise KeyError, [S3Get "bk" "a.dcm"])).
Proof.
  apply (instance_needs_every_tag Sample.setup "bk" "a.dcm"). reflexivity.
Defined.

(** X6.  An instance that was constructed carries the decoded data set,
    each of its eight attributes is the value of its tag there, and its
    bucket, key, byte limit and [s3://bucket/key] URL are those of the
    call. *)
Theorem instance_attributes_from_tags env bucket key i :
  read_outcome env bucket key = Ok i →
  ∃ ds,
    s3_dcmread env bucket key (end_byte env) = Ok ds ∧
    Instance.dcm i = Some ds ∧
    ds !! ("0020", "000D") = Some (Instance.study_uid i) ∧
    ds !! ("0020", "000E") = Some (Instance.series_uid i) ∧
    ds !! ("0008", "0018") = Some (Instance.instance_uid i) ∧
    ds !! ("0010", "0020") = Some (Instance.patient_id i) ∧
    ds !! ("0008", "0020") = Some (Instance.study_date i) ∧
    ds !! ("0020", "0013") = Some (Instance.instance_number i) ∧
    ds !! ("0020", "0011") = Some (Instance.series_number i) ∧
    ds !! ("0008", "0060") = Some (Instance.modality i) ∧
    Instance.bucket i = bucket ∧ Instance.key i = key ∧
    Instance.end_byte i = end_byte env ∧
    Instance.s3_url i = "s3://" +:+ bucket +:+ "/" +:+ key.
Proof.
  intros Hr. destruct (s3_dcmread env bucket key (end_byte env)) as [ds|e] eqn:Hd.
  - rewrite (read_outcome_decoded _ _ _ _ Hd) in Hr. exists ds.
    unfold Instance.tag_value in Hr.
    repeat match type of Hr with
           | rbind (match ds !! ?t with _ => _ end) _ = _ =>
               destruct (ds !! t) eqn:?; cbn [rbind] in Hr; [|done]
           end.
    injection Hr as <-. simpl. repeat split; done.
  - unfold read_outcome, Instance.new, Instance.read_instance,
      module_end_byte in Hr.
    unfold bind at 1 in Hr. rewrite read_tags_outcome, Hd in Hr. done.
Qed.

Lemma instance_attributes_from_tags_witness :
  ∃ ds,
    s3_dcmread Sample.setup "bk" "a.dcm" (end_byte Sample.setup) = Ok ds ∧
    Instance.dcm (Sample.inst "bk" "a.dcm" "S1" "X" "i1" 1) = Some ds ∧
    ds !! ("0020", "000D") = Some (DText "S1") ∧
    ds !! ("0020", "000E") = Some (DText "X") ∧
    ds !! ("0008", "0018") = Some (DText "i1") ∧
    ds !! ("0010", "0020") = Some (DText "P1") ∧
    ds !! ("0008", "0020") = Some (DText "20200101") ∧
    ds !! ("0020", "0013") = Some (DInt 1) ∧
    ds !! ("0020", "0011") = Some (DInt 1) ∧
    ds !! ("0008", "0060") = Some (DText "CT") ∧
    "bk" = "bk" ∧ "a.dcm" = "a.dcm" ∧ 10000 = end_byte Sample.setup ∧
    "s3://" +:+ "bk" +:+ "/" +:+ "a.dcm" = "s3://" +:+ "bk" +:+ "/" +:+ "a.dcm".
Proof.
  apply (instance_attributes_from_tags Sample.setup "bk" "a.dcm"
           (Sample.inst "bk" "a.dcm" "S1" "X" "i1" 1)).
  reflexivity.
Defined.

(** ** [Study.add_instance] and [Study.load] *)

(** X7.  On a study whose series keys are distinct, [add_instance] returns,
    makes no call, appends the instance to the list of its series (a new
    list if the series is new, added after the existing keys), leaves every
    other series, the study uid and the representative instance as they
    were, and keeps the keys distinct. *)
Theorem add_instance_appends inst st tr :
  NoDup (Dict.keys (Study.series st)) →
  ∃ st',
    Study.add_instance inst (st, tr) = (Ok tt, (st', tr)) ∧
    Dict.get (Instance.series_uid inst) (Study.series st') =
      Some (default [] (Dict.get (Instance.series_uid inst) (Study.series st))
            ++ [inst]) ∧
    (∀ u, u ≠ Instance.series_uid inst →
          Dict.get u (Study.series st') = Dict.get u (Study.series st)) ∧
    NoDup (Dict.keys (Study.series st')) ∧
    Dict.keys (Study.series st) `prefix_of` Dict.keys (Study.series st') ∧
    Study.uid st' = Study.uid st ∧ Study.instance st' = Study.instance st.
Proof.
  intros Hnd. eexists. split; [apply add_instance_run|].
  cbn [Study.set_series Study.series Study.uid Study.instance].
  unfold series_add, Dict.keys in *.
  destruct (Dict.get (Instance.series_uid inst) (Study.series st)) as [sops|] eqn:Hk.
  - rewrite Dict_get_set_eq, (Dict_keys_set_Some _ _ _ _ Hk). simpl.
    repeat split; try done. intros u Hu. by apply Dict_get_set_ne.
  - rewrite Dict_get_set_eq, (Dict_keys_set_None _ _ _ Hk). simpl.
    repeat split; try done.
    + intros u Hu. by apply Dict_get_set_ne.
    + apply NoDup_app. split; [done|]. split; [|apply NoDup_singleton].
      intros u Hu Hin. apply list_elem_of_singleton in Hin as ->.
      by apply Dict_get_None in Hk.
    + by apply prefix_app_r.
Qed.

Lemma add_instance_appends_witness :
  let st := Sample.five_loaded in
  let inst := Sample.inst "bk" "p6.dcm" "S1" "X" "i6" 6 in
  ∃ st',
    Study.add_instance inst (st, []) = (Ok tt, (st', [])) ∧
    Dict.get (DText "X") (Study.series st') =
      Some (default [] (Dict.get (DText "X") (Study.series st)) ++ [inst]) ∧
    (∀ u, u ≠ DText "X" →
          Dict.get u (Study.series st') = Dict.get u (Study.series st)) ∧
    NoDup (Dict.keys (Study.series st')) ∧
    Dict.keys (Study.series st) `prefix_of` Dict.keys (Study.series st') ∧
    Study.uid st' = Study.uid st ∧ Study.instance st' = Study.instance st.
Proof.
  intros st inst. apply (add_instance_appends inst st []).
  apply (bool_decide_unpack _). vm_compute. exact I.
Defined.

Lemma kept_study_uid uid l i :
  i ∈ accepted uid l →
  Instance.study_uid i = foldl next_uid uid l ∨ Instance.study_uid i = DText "".
Proof.
  revert uid. induction l as [|x l IH]; intros uid; simpl.
  - by intros ?%elem_of_nil.
  - rewrite elem_of_app. intros [Hx|Hin]; [|by apply IH].
    destruct (accepts uid x) eqn:Ha; [|by apply elem_of_nil in Hx].
    apply list_elem_of_singleton in Hx as ->.
    destruct (decide (Instance.study_uid x = DText "")) as [|Hne]; [by right|].
    left. unfold accepts in Ha. apply bool_decide_eq_true_1 in Ha.
    unfold next_uid. destruct (decide (uid = DText "")) as [->|Hu].
    + by rewrite foldl_next_uid_fixed.
    + destruct Ha as [|Ha]; [done|]. rewrite foldl_next_uid_fixed by done. done.
Qed.

Lemma foldl_next_uid_first l :
  foldl next_uid (DText "") l = first_study_uid l.
Proof.
  unfold first_study_uid. induction l as [|x l IH]; [done|].
  cbn [foldl fmap list_fmap]. unfold next_uid at 2. rewrite decide_True by done.
  destruct (decide (Instance.study_uid x = DText "")) as [Hx|Hx].
  - rewrite Hx, IH. rewrite (filter_cons_False (λ u, u ≠ DText "")); [done|].
    intros Hn. by apply Hn.
  - rewrite foldl_next_uid_fixed by done. by rewrite filter_cons_True.
Qed.

Lemma group_series_entries l :
  Forall (λ kv, kv.2 = filter (λ i, Instance.series_uid i = kv.1) l ∧ kv.2 ≠ [])
         (group_series l).
Proof.
  pose proof (Dict_get_NoDup (group_series l)) as Hg.
  rewrite group_series_keys in Hg. specialize (Hg (first_seen_NoDup _)).
  eapply Forall_impl; [exact Hg|]. intros [u sops] Hu. simpl in *.
  rewrite group_series_get in Hu. by apply nonempty_Some in Hu as [-> Hne].
Qed.

Lemma filter_sublist {A} (P : A → Prop) `{∀ x, Decision (P x)} (l : list A) :
  sublist (filter P l) l.
Proof.
  induction l as [|x l IH]; [constructor|].
  destruct (decide (P x)).
  - rewrite filter_cons_True by done. by apply sublist_skip.
  - rewrite filter_cons_False by done. by apply sublist_cons.
Qed.

(** X8.  When every key reads and the queue takes the messages for the
    instances rejected, [Study(bucket, keys)] returns a study with distinct
    series keys; each series list is non-empty, holds only instances of
    that series, in arrival order; and every instance kept has the study
    uid of the study or the empty uid. *)
Theorem loaded_series_invariant env bucket keys insts tr :
  Forall2 (λ k i, read_outcome env bucket k = Ok i) keys insts →
  sends_ok env bucket (DText "") insts = true →
  ∃ st tr',
    Study.new env bucket keys tr = (Ok st, tr') ∧
    NoDup (Dict.keys (Study.series st)) ∧
    Forall (λ kv, kv.2 ≠ [] ∧
                  Forall (λ i, Instance.series_uid i = kv.1) kv.2 ∧
                  sublist kv.2 insts)
           (Study.series st) ∧
    Forall (λ i, Instance.study_uid i = Study.uid st
                 ∨ Instance.study_uid i = DText "")
           (concat (Study.series st).*2).
Proof.
  intros Hread Hsend. eexists _, _. split; [by apply Study_new_ok|].
  rewrite foldl_assemble_series, foldl_assemble_uid.
  cbn [Study.init Study.series Study.uid].
  change (foldl _ [] ?l) with (group_series l).
  split; [|split].
  - rewrite group_series_keys. apply first_seen_NoDup.
  - eapply Forall_impl; [apply group_series_entries|].
    intros [u sops] [-> Hne]. simpl. split; [done|]. split.
    + apply Forall_forall. intros i Hi. by apply list_elem_of_filter in Hi as [? _].
    + etrans; [apply filter_sublist | apply accepted_sublist].
  - apply Forall_forall. intros i Hi.
    rewrite group_series_concat in Hi. by apply kept_study_uid.
Qed.

Lemma loaded_series_invariant_witness :
  let insts :=
    [Sample.inst "bk" "a.dcm" "S1" "X" "i1" 1;
     Sample.inst "bk" "c.dcm" "S2" "X" "i3" 3;
     Sample.inst "bk" "b.dcm" "S1" "Y" "i2" 2] in
  ∃ st tr',
    Study.new Sample.setup "bk" ["a.dcm"; "c.dcm"; "b.dcm"] [] = (Ok st, tr') ∧
    NoDup (Dict.keys (Study.series st)) ∧
    Forall (λ kv, kv.2 ≠ [] ∧
                  Forall (λ i, Instance.series_uid i = kv.1) kv.2 ∧
                  sublist kv.2 insts)
           (Study.series st) ∧
    Forall (λ i, Instance.study_uid i = Study.uid st
                 ∨ Instance.study_uid i = DText "")
           (concat (Study.series st).*2).
Proof.
  intros insts.
  apply (loaded_series_invariant Sample.setup "bk" ["a.dcm"; "c.dcm"; "b.dcm"]
           insts []).
  - repeat constructor.
  - reflexivity.
Defined.

Lemma matching_uid_kept uid l i :
  uid = DText "" ∨ uid = foldl next_uid uid l →
  i ∈ l → Instance.study_uid i = foldl next_uid uid l →
  i ∈ accepted uid l.
Proof.
  revert uid. induction l as [|x l IH]; intros uid Huid Hi Hu.
  - by apply elem_of_nil in Hi.
  - cbn [accepted foldl] in *. rewrite elem_of_app.
    apply elem_of_cons in Hi as [->|Hi].
    + left. unfold accepts. rewrite bool_decide_eq_true_2; [by left|].
      destruct (decide (uid = DText "")) as [|Hne]; [by left|]. right.
      rewrite next_uid_fixed, foldl_next_uid_fixed in Hu by done. done.
    + right. apply IH; [|done|done].
      unfold next_uid in *. destruct (decide (uid = DText "")) as [->|Hne].
      * destruct (decide (Instance.study_uid x = DText "")) as [|Hx]; [by left|].
        right. by rewrite foldl_next_uid_fixed.
      * right. by rewrite foldl_next_uid_fixed.
Qed.

(** X9.  When every key reads and the queue takes the messages for the
    instances rejected, the study is built, its uid is the first non-empty
    study uid in arrival order (empty when there is none), the
    representative instance is the first instance read, and every instance
    carrying the study uid is in a series list. *)
Theorem study_identity_first_nonempty env bucket keys insts tr :
  Forall2 (λ k i, read_outcome env bucket k = Ok i) keys insts →
  sends_ok env bucket (DText "") insts = true →
  ∃ st tr',
    Study.new env bucket keys tr = (Ok st, tr') ∧
    Study.uid st = first_study_uid insts ∧
    Study.instance st = head insts ∧
    (∀ i, i ∈ insts → Instance.study_uid i = Study.uid st →
          i ∈ concat (Study.series st).*2).
Proof.
  intros Hread Hsend. eexists _, _. split; [by apply Study_new_ok|].
  rewrite foldl_assemble_series, foldl_assemble_uid, foldl_assemble_instance.
  cbn [Study.init Study.series Study.uid Study.instance].
  change (foldl (λ d i, series_add i d) [] ?l) with (group_series l).
  split; [apply foldl_next_uid_first|]. split; [done|].
  intros i Hi Hu. rewrite group_series_concat.
  apply matching_uid_kept; [by left|done|done].
Qed.

Lemma study_identity_first_nonempty_witness :
  let insts :=
    [Sample.inst "bk" "a.dcm" "S1" "X" "i1" 1;
     Sample.inst "bk" "c.dcm" "S2" "X" "i3" 3;
     Sample.inst "bk" "b.dcm" "S1" "Y" "i2" 2] in
  ∃ st tr',
    Study.new Sample.setup "bk" ["a.dcm"; "c.dcm"; "b.dcm"] [] = (Ok st, tr') ∧
    Study.uid st = DText "S1" ∧
    Study.instance st = Some (Sample.inst "bk" "a.dcm" "S1" "X" "i1" 1) ∧
    (∀ i, i ∈ insts → Instance.study_uid i = Study.uid st →
          i ∈ concat (Study.series st).*2).
Proof.
  intros insts.
  apply (study_identity_first_nonempty Sample.setup "bk"
           ["a.dcm"; "c.dcm"; "b.dcm"] insts []).
  - repeat constructor.
  - reflexivity.
Defined.

Lemma accepted_rejected_length uid l :
  (length (accepted uid l) + length (rejected uid l) = length l)%nat.
Proof.
  revert uid. induction l as [|i l IH]; intros uid; [done|].
  cbn [accepted rejected]. rewrite !length_app. specialize (IH (next_uid uid i)).
  destruct (accepts uid i); simpl; lia.
Qed.

(** X10.  When every key reads and the queue takes the messages for the
    instances rejected, [Study.load] returns having read each key once from
    S3, in the order given; each key ends either in a series list or in one
    message to the queue of rejected instances; and nothing is POSTed. *)
Theorem load_reads_each_key_once env bucket keys insts tr :
  Forall2 (λ k i, read_outcome env bucket k = Ok i) keys insts →
  sends_ok env bucket (DText "") insts = true →
  ∃ st tr' msgs,
    Study.new env bucket keys tr = (Ok st, tr') ∧
    s3_gets tr' = s3_gets tr ++ ((λ k, (bucket, k)) <$> keys) ∧
    sent_to (dicom_bad_queue env) tr' = sent_to (dicom_bad_queue env) tr ++ msgs ∧
    (length (concat (Study.series st).*2) + length msgs = length keys)%nat ∧
    posted tr' = posted tr.
Proof.
  intros Hread Hsend. eexists _, _, _. split; [by apply Study_new_ok|].
  rewrite s3_gets_app, sent_to_app, posted_app, s3_gets_load_events,
    sent_to_load_events, posted_load_events, (app_nil_r (posted tr)),
    foldl_assemble_series.
  cbn [Study.init Study.series Study.uid].
  change (foldl (λ d i, series_add i d) [] ?l) with (group_series l).
  split; [|split; [reflexivity|split; [|done]]].
  - f_equal. rewrite <- (read_keys _ _ _ _ Hread), <- list_fmap_compose. done.
  - rewrite group_series_concat, length_fmap, accepted_rejected_length.
    by apply Forall2_length in Hread.
Qed.

Lemma load_reads_each_key_once_witness :
  ∃ st tr' msgs,
    Study.new Sample.setup "bk" ["a.dcm"; "c.dcm"; "b.dcm"] [] = (Ok st, tr') ∧
    s3_gets tr' =
      s3_gets [] ++ ((λ k, ("bk", k)) <$> ["a.dcm"; "c.dcm"; "b.dcm"]) ∧
    sent_to "bad-queue" tr' = sent_to "bad-queue" [] ++ msgs ∧
    (length (concat (Study.series st).*2) + length msgs =
     length ["a.dcm"; "c.dcm"; "b.dcm"])%nat ∧
    posted tr' = posted [].
Proof.
  apply (load_reads_each_key_once Sample.setup "bk" ["a.dcm"; "c.dcm"; "b.dcm"]
           [Sample.inst "bk" "a.dcm" "S1" "X" "i1" 1;
            Sample.inst "bk" "c.dcm" "S2" "X" "i3" 3;
            Sample.inst "bk" "b.dcm" "S1" "Y" "i2" 2] []).
  - repeat constructor.
  - reflexivity.
Defined.

(** X21.  When a key reads but belongs to another study and the queue
    refuses its message, after keys that read and whose messages the queue
    took, the exception of [send_message] leaves the [Study] constructor:
    no study is built, the keys after it are never read, and the calls made
    end with the read of that key and the refused message.  The handler
    given this batch raises the same exception after the same calls, and
    nothing is POSTed. *)
Theorem send_failure_aborts_load env bucket pre insts key i post e rest tr :
  Forall2 (λ k i, read_outcome env bucket k = Ok i) pre insts →
  sends_ok env bucket (DText "") insts = true →
  read_outcome env bucket key = Ok i →
  accepts (foldl next_uid (DText "") insts) i = false →
  send_outcome env bucket i = Raise e →
  let keys := pre ++ key :: post in
  let evs :=
    load_events env bucket (DText "") insts ++
    [S3Get bucket key;
     SqsSend (dicom_bad_queue env)
       (JObj [(SKey "bucket", JStr bucket);
              (SKey "instances", JArr (JStr <$> chars key))])] in
  Study.new env bucket keys tr = (Raise e, tr ++ evs) ∧
  sqs_lambda_handler env
    (BodyDict {| batch_bucket := bucket; batch_instances := keys |} :: rest) tr =
    (Raise e, tr ++ evs) ∧
  s3_gets evs = (λ k, (bucket, k)) <$> (pre ++ [key]) ∧
  posted evs = [].
Proof.
  intros Hread Hsend Hk Ha He. cbn zeta.
  pose proof (Study_new_send_raise env bucket pre insts key i post e tr
                Hread Hsend Hk Ha He) as Hnew.
  unfold dl_message in Hnew.
  split; [exact Hnew|]. split.
  - rewrite handler_runs_first_record.
    rewrite (handle_record_batch _ _
      {| batch_bucket := bucket; batch_instances := pre ++ key :: post |})
      by done.
    by apply bind_run_raise.
  - rewrite s3_gets_app, posted_app, s3_gets_load_events, posted_load_events.
    split; [|done].
    rewrite fmap_app, <- (read_keys _ _ _ _ Hread), <- list_fmap_compose. done.
Qed.

Lemma send_failure_aborts_load_witness :
  let env := Sample2.queue_down Sample.setup in
  let evs :=
    [S3Get "bk" "a.dcm"; S3Get "bk" "c.dcm";
     SqsSend "bad-queue"
       (JObj [(SKey "bucket", JStr "bk");
              (SKey "instances",
               JArr [JStr "c"; JStr "."; JStr "d"; JStr "c"; JStr "m"])])] in
  Study.new env "bk" ["a.dcm"; "c.dcm"; "b.dcm"] [] = (Raise ClientError, evs) ∧
  sqs_lambda_handler env [Sample.payload ["a.dcm"; "c.dcm"; "b.dcm"]] [] =
    (Raise ClientError, evs) ∧
  s3_gets evs = [("bk", "a.dcm"); ("bk", "c.dcm")] ∧
  posted evs = [].
Proof.
  intros env evs.
  apply (send_failure_aborts_load env "bk" ["a.dcm"]
           [Sample.inst "bk" "a.dcm" "S1" "X" "i1" 1] "c.dcm"
           (Sample.inst "bk" "c.dcm" "S2" "X" "i3" 3) ["b.dcm"]
           ClientError [] []).
  - repeat constructor.
  - reflexivity.
  - vm_compute. reflexivity.
  - reflexivity.
  - reflexivity.
Defined.

(** ** [Study._series_to_FHIR] and [Study._series_to_fhir] *)

Lemma series_out_fields sops frag :
  Study.series_out sops = Ok frag →
  ∃ sop0 number elems,
    head sops = Some sop0 ∧
    py_int (Instance.series_number sop0) = Ok number ∧
    getitem frag (SKey "number") = Ok (JNum number) ∧
    getitem frag (SKey "modality") =
      Ok (JObj [(SKey "system",
                 JStr "http://dicom.nema.org/resources/ontology/DCM");
                (SKey "code", to_pyval (Instance.modality sop0))]) ∧
    getitem frag (SKey "numberOfInstances") =
      Ok (JNum (Z.of_nat (length sops))) ∧
    getitem frag (SKey "instance") = Ok (JArr elems) ∧
    length elems = length sops.
Proof.
  unfold Study.series_out. destruct sops as [|sop0 sops']; [done|].
  intros H. apply rbind_ok_inv in H as (number & Hn & H).
  apply rbind_ok_inv in H as (elems & He & H). injection H as <-.
  exists sop0, number, elems. repeat split; try done.
  apply rmap_ok_Forall2, Forall2_length in He. done.
Qed.

Lemma kept_series_nonempty (kept : list Instance.t) u :
  u ∈ first_seen (Instance.series_uid <$> kept) →
  filter (λ i, Instance.series_uid i = u) kept ≠ [].
Proof.
  intros Hu Hf. apply first_seen_elem_of, list_elem_of_fmap in Hu as (i & -> & Hi).
  assert (i ∈ filter (λ i0, Instance.series_uid i0 = Instance.series_uid i) kept)
    as Hin by (by apply list_elem_of_filter).
  rewrite Hf in Hin. by apply elem_of_nil in Hin.
Qed.

(** The fragments of a study loaded from keys that all read, when the
    numbers convert. *)
Lemma loaded_fragments env bucket keys insts tr :
  Forall2 (λ k i, read_outcome env bucket k = Ok i) keys insts →
  sends_ok env bucket (DText "") insts = true →
  Forall (λ i, is_ok (py_int (Instance.instance_number i)) = true
               ∧ is_ok (py_int (Instance.series_number i)) = true) insts →
  ∃ st tr' frags,
    Study.new env bucket keys tr = (Ok st, tr') ∧
    Study._series_to_fhir (st, tr') =
      (Ok tt, (Study.set_series_fhir (JArr frags) st, tr')) ∧
    Forall2 (λ u frag,
               Study.series_out
                 (filter (λ i, Instance.series_uid i = u)
                    (accepted (DText "") insts)) = Ok frag)
            (first_seen (Instance.series_uid <$> accepted (DText "") insts))
            frags.
Proof.
  intros Hread Hsend Hint.
  set (kept := accepted (DText "") insts).
  assert (Hkept : Forall (λ i, is_ok (py_int (Instance.instance_number i)) = true
               ∧ is_ok (py_int (Instance.series_number i)) = true) kept).
  { eapply Forall_sublist; [apply accepted_sublist | done]. }
  destruct (rmap_total
    (λ u, Study.series_out (filter (λ i, Instance.series_uid i = u) kept))
    (first_seen (Instance.series_uid <$> kept))) as [frags Hfrags].
  { apply Forall_forall. intros u Hu. apply series_out_total.
    - by apply kept_series_nonempty.
    - by apply Forall_filter_weak. }
  eexists _, _, frags. split; [by apply Study_new_ok|]. split.
  - rewrite series_to_fhir_run, foldl_assemble_series.
    cbn [Study.init Study.series Study.uid].
    change (foldl (λ d i, series_add i d) [] ?l) with (group_series l).
    rewrite series_fragments_group. fold kept. by rewrite Hfrags.
  - by apply rmap_ok_Forall2 in Hfrags.
Qed.

(** X11.  When every key reads, the queue takes the messages for the
    instances rejected and the instance and series numbers convert to
    integers, the study is built and [_series_to_fhir] returns one fragment
    per series, in the order the series first appear among the instances
    the study keeps; a fragment takes its number and modality code from the
    first instance the study kept for the series, and its
    [numberOfInstances] is the number of instances kept for it. *)
Theorem series_fragment_fields env bucket keys insts tr :
  Forall2 (λ k i, read_outcome env bucket k = Ok i) keys insts →
  sends_ok env bucket (DText "") insts = true →
  Forall (λ i, is_ok (py_int (Instance.instance_number i)) = true
               ∧ is_ok (py_int (Instance.series_number i)) = true) insts →
  ∃ st tr' frags,
    Study.new env bucket keys tr = (Ok st, tr') ∧
    Study._series_to_fhir (st, tr') =
      (Ok tt, (Study.set_series_fhir (JArr frags) st, tr')) ∧
    length frags =
      length (first_seen (Instance.series_uid <$> accepted (DText "") insts)) ∧
    Forall2
      (λ u frag,
         ∃ sop0 number,
           head (filter (λ i, Instance.series_uid i = u)
                   (accepted (DText "") insts)) = Some sop0 ∧
           py_int (Instance.series_number sop0) = Ok number ∧
           getitem frag (SKey "number") = Ok (JNum number) ∧
           getitem frag (SKey "modality") =
             Ok (JObj [(SKey "system",
                        JStr "http://dicom.nema.org/resources/ontology/DCM");
                       (SKey "code", to_pyval (Instance.modality sop0))]) ∧
           getitem frag (SKey "numberOfInstances") =
             Ok (JNum (Z.of_nat (length
                   (filter (λ i, Instance.series_uid i = u)
                      (accepted (DText "") insts))))))
      (first_seen (Instance.series_uid <$> accepted (DText "") insts)) frags.
Proof.
  intros Hread Hsend Hint.
  destruct (loaded_fragments env bucket keys insts tr Hread Hsend Hint)
    as (st & tr' & frags & Hnew & Hser & Hfr).
  exists st, tr', frags. split; [done|]. split; [done|]. split.
  - symmetry. by eapply Forall2_length.
  - eapply Forall2_impl; [exact Hfr|]. intros u frag Hout.
    apply series_out_fields in Hout
      as (sop0 & number & elems & Hh & Hn & Hnum & Hmod & Hcount & _ & _).
    by exists sop0, number.
Qed.

Lemma series_fragment_fields_witness :
  let insts :=
    [Sample.inst "bk" "p1.dcm" "S1" "X" "i1" 1;
     Sample.inst "bk" "p2.dcm" "S1" "Y" "i2" 2;
     Sample.inst "bk" "p3.dcm" "S1" "X" "i3" 3;
     Sample.inst "bk" "p4.dcm" "S1" "Y" "i4" 4;
     Sample.inst "bk" "p5.dcm" "S1" "Y" "i5" 5] in
  ∃ st tr' frags,
    Study.new Sample.setup5 "bk" Sample.five_keys [] = (Ok st, tr') ∧
    Study._series_to_fhir (st, tr') =
      (Ok tt, (Study.set_series_fhir (JArr frags) st, tr')) ∧
    length frags =
      length (first_seen (Instance.series_uid <$> accepted (DText "") insts)) ∧
    Forall2
      (λ u frag,
         ∃ sop0 number,
           head (filter (λ i, Instance.series_uid i = u)
                   (accepted (DText "") insts)) = Some sop0 ∧
           py_int (Instance.series_number sop0) = Ok number ∧
           getitem frag (SKey "number") = Ok (JNum number) ∧
           getitem frag (SKey "modality") =
             Ok (JObj [(SKey "system",
                        JStr "http://dicom.nema.org/resources/ontology/DCM");
                       (SKey "code", to_pyval (Instance.modality sop0))]) ∧
           getitem frag (SKey "numberOfInstances") =
             Ok (JNum (Z.of_nat (length
                   (filter (λ i, Instance.series_uid i = u)
                      (accepted (DText "") insts))))))
      (first_seen (Instance.series_uid <$> accepted (DText "") insts)) frags.
Proof.
  intros insts.
  apply (series_fragment_fields Sample.setup5 "bk" Sample.five_keys insts []).
  - repeat constructor.
  - reflexivity.
  - repeat constructor.
Defined.

(** X12.  When every key reads and the queue takes the messages for the
    instances rejected, the study is built; if one instance it keeps has an
    instance number that [int] rejects, [_series_to_fhir] raises and leaves
    the study as it was: no series list is produced at all. *)
Theorem unconvertible_instance_number_fails env bucket keys insts tr i :
  Forall2 (λ k i, read_outcome env bucket k = Ok i) keys insts →
  sends_ok env bucket (DText "") insts = true →
  i ∈ accepted (DText "") insts →
  is_ok (py_int (Instance.instance_number i)) = false →
  ∃ st tr' e,
    Study.new env bucket keys tr = (Ok st, tr') ∧
    Study._series_to_fhir (st, tr') = (Raise e, (st, tr')).
Proof.
  intros Hread Hsend Hi Hbad.
  set (kept := accepted (DText "") insts) in *.
  assert (He : ∃ e, series_fragments (group_series kept) = Raise e).
  { rewrite series_fragments_group.
    destruct (rmap _ _) as [frags|e] eqn:Hr; [|by eauto].
    exfalso. apply rmap_ok_Forall2 in Hr.
    assert (Hu : Instance.series_uid i ∈ first_seen (Instance.series_uid <$> kept)).
    { apply first_seen_elem_of, list_elem_of_fmap. eauto. }
    apply list_elem_of_lookup in Hu as [n Hn].
    destruct (Forall2_lookup_l _ _ _ _ _ Hr Hn) as (frag & _ & Hout).
    apply series_out_ok in Hout as (sop0 & elems & _ & _ & _ & _ & Hel).
    assert (Hin : i ∈ filter (λ i0, Instance.series_uid i0 = Instance.series_uid i)
                        kept)
      by (by apply list_elem_of_filter).
    apply list_elem_of_lookup in Hin as [m Hm].
    destruct (Forall2_lookup_l _ _ _ _ _ Hel Hm) as (el & _ & Hfhir).
    unfold Study._instance_to_FHIR in Hfhir.
    by destruct (py_int (Instance.instance_number i)). }
  destruct He as [e He]. eexists _, _, e. split; [by apply Study_new_ok|].
  rewrite series_to_fhir_run, foldl_assemble_series.
  cbn [Study.init Study.series Study.uid].
  change (foldl (λ d i, series_add i d) [] ?l) with (group_series l).
  fold kept. by rewrite He.
Qed.

Lemma unconvertible_instance_number_fails_witness :
  ∃ st tr' e,
    Study.new Sample2.setup_unnumbered "bk" ["n.dcm"] [] = (Ok st, tr') ∧
    Study._series_to_fhir (st, tr') = (Raise e, (st, tr')).
Proof.
  apply (unconvertible_instance_number_fails Sample2.setup_unnumbered "bk"
           ["n.dcm"] [Sample2.read Sample2.setup_unnumbered "n.dcm"] []
           (Sample2.read Sample2.setup_unnumbered "n.dcm")).
  - repeat constructor.
  - reflexivity.
  - vm_compute. apply list_elem_of_singleton. reflexivity.
  - reflexivity.
Defined.

(** ** [Study._update_fhir_template], [_transform_fhir] and [imagingstudy] *)

(** A run is determined by its result, the object it leaves and its
    trace. *)
Lemma run_outcome {A S} (run : result A * (S * trace)) r tr :
  run.1 = r → run.2.2 = tr → run = (r, (run.2.1, tr)).
Proof. destruct run as [r0 [s0 tr0]]. cbn. by intros -> ->. Qed.

Lemma rfold_app {A B} (step : B → A → result B) xs ys acc :
  rfold step (xs ++ ys) acc = rbind (rfold step xs acc) (rfold step ys).
Proof.
  revert acc. induction xs as [|x xs IH]; intros acc; simpl; [done|].
  destruct (step acc x); simpl; [apply IH | done].
Qed.

Lemma collect_step_unknown inst fhir_map acc tag :
  Dict.get tag dicom_attribute_map = None →
  collect_step inst fhir_map acc tag = Raise KeyError.
Proof.
  intros Hn. unfold collect_step, Study.collect_update. destruct acc.
  by rewrite Hn.
Qed.

Lemma collect_step_known inst fhir_map updates stale tag attr :
  Dict.get tag dicom_attribute_map = Some attr →
  collect_step (Some inst) fhir_map (updates, stale) tag =
  rbind
    (match Instance.tag_value (Instance.dcm inst) (key0 attr) (key1 attr) with
     | Ok value =>
         if decide (element_prefix attr = "") then Ok (Some value)
         else rbind (py_add_text (element_prefix attr) value) (λ v, Ok (Some v))
     | Raise e => if bool_decide (e = KeyError) then Ok stale else Raise e
     end)
    (λ tag_value,
       match fhir_map !! tag with
       | Some loc =>
           match tag_value with
           | Some v => Ok (updates ++ [(loc, v)], tag_value)
           | None => Raise UnboundLocalError
           end
       | None => Raise KeyError
       end).
Proof.
  intros Ha. unfold collect_step, Study.collect_update. rewrite Ha.
  unfold bind at 1. unfold ret at 1. unfold bind at 1.
  unfold try_except, bind, Study.self_get, gets, from_result, ret, raise,
    read_local, probe.
  simpl.
  destruct (Instance.tag_value _ _ _) as [v|e]; simpl.
  - destruct (decide (element_prefix attr = "")); simpl.
    + destruct (fhir_map !! tag); done.
    + unfold py_add_text. destruct v; simpl; try done.
      destruct (fhir_map !! tag); done.
  - destruct (bool_decide (e = KeyError)); simpl; [|done].
    destruct (fhir_map !! tag); simpl; [|done]. by destruct stale.
Qed.

Lemma draft_raise_collect inst template tm sf e :
  rfold (collect_step inst (fhir_map_of tm)) (tags_to_fhir tm) ([], None) = Raise e →
  draft inst template tm sf = Raise e.
Proof. unfold draft. by intros ->. Qed.

Lemma update_fhir_template_raise template tm st tr e :
  draft (Study.instance st) template tm (Study.series_fhir st) = Raise e →
  Study._update_fhir_template template tm (st, tr) = (Raise e, (st, tr)).
Proof. intros H. by rewrite update_fhir_template_run, H. Qed.

(** X13.  Two lookups of [_update_fhir_template] stand outside its [try]:
    when the tags before it were collected, a tag absent from
    [dicom_attribute_map], or a known tag without a location in the
    template map, raises [KeyError] out of the method, whatever the
    remaining tags are, and the study is left as it was. *)
Theorem unguarded_lookup_aborts_mapping template tm st tr pre tag post acc :
  tags_to_fhir tm = pre ++ tag :: post →
  rfold (collect_step (Study.instance st) (fhir_map_of tm)) pre ([], None) = Ok acc →
  (Dict.get tag dicom_attribute_map = None
   ∨ ∃ attr inst,
       Dict.get tag dicom_attribute_map = Some attr ∧
       fhir_map_of tm !! tag = None ∧
       Study.instance st = Some inst ∧
       (Instance.tag_value (Instance.dcm inst) (key0 attr) (key1 attr) =
          Raise KeyError
        ∨ ∃ s, Instance.tag_value (Instance.dcm inst) (key0 attr) (key1 attr) =
                 Ok (DText s))) →
  Study._update_fhir_template template tm (st, tr) = (Raise KeyError, (st, tr)).
Proof.
  intros Htags Hpre Hbad. apply update_fhir_template_raise, draft_raise_collect.
  rewrite Htags, rfold_app, Hpre. cbn [rbind rfold].
  destruct acc as [updates stale].
  destruct Hbad as [Hn|(attr & inst & Ha & Hl & Hi & Hv)].
  - by rewrite collect_step_unknown.
  - rewrite Hi, (collect_step_known _ _ _ _ _ _ Ha), Hl.
    destruct Hv as [->|[s ->]].
    + by rewrite bool_decide_eq_true_2.
    + by destruct (decide (element_prefix attr = "")).
Qed.

Lemma unguarded_lookup_aborts_mapping_witness :
  Study._update_fhir_template Sample.template Sample2.unknown_tag_map
    (Sample.five_loaded, []) = (Raise KeyError, (Sample.five_loaded, [])) ∧
  Study._update_fhir_template Sample.template Sample2.no_location_map
    (Sample.five_loaded, []) = (Raise KeyError, (Sample.five_loaded, [])).
Proof.
  split.
  - apply (unguarded_lookup_aborts_mapping Sample.template
             Sample2.unknown_tag_map Sample.five_loaded [] ["(0020,000D)"]
             "(0008,0050)" ["(0010,0020)"]
             ([([SKey "identifier"; SIdx 0; SKey "value"], DText "S1")],
              Some (DText "S1"))).
    + reflexivity.
    + vm_compute. reflexivity.
    + left. reflexivity.
  - apply (unguarded_lookup_aborts_mapping Sample.template
             Sample2.no_location_map Sample.five_loaded [] []
             "(0020,000D)" [] ([], None)).
    + reflexivity.
    + reflexivity.
    + right.
      exists {| key0 := "0020"; key1 := "000D";
                description := "(0020,000D) Study Instance UID";
                fhir_element := "ImagingStudy.identifier";
                element_prefix := "" |},
             (Sample.inst "bk" "p1.dcm" "S1" "X" "i1" 1).
      split; [reflexivity|]. split; [reflexivity|].
      split; [vm_compute; reflexivity|]. right. exists "S1". reflexivity.
Defined.

Lemma setitem_not_mapping d k v d' :
  (∀ kvs, d ≠ JObj kvs) → setitem d k v = Ok d' → ∀ kvs, d' ≠ JObj kvs.
Proof.
  intros Hd. destruct d as [| | | |l|kvs]; try (by destruct k).
  - destruct k as [|i]; [done|]. simpl.
    destruct (norm_index _ _); [|done]. by intros [= <-].
  - by destruct (Hd kvs).
Qed.

Lemma set_nested_item_not_mapping d path v d' :
  (∀ kvs, d ≠ JObj kvs) →
  set_nested_item d path v = Ok d' → ∀ kvs, d' ≠ JObj kvs.
Proof.
  intros Hd. destruct path as [|k [|k' path]]; [done| |].
  - by apply setitem_not_mapping.
  - rewrite set_nested_item_cons2. intros H.
    apply rbind_ok_inv in H as (c & _ & H). apply rbind_ok_inv in H as (c' & _ & H).
    by eapply setitem_not_mapping.
Qed.

Lemma rfold_write_step_not_mapping updates d d' :
  (∀ kvs, d ≠ JObj kvs) →
  rfold write_step updates d = Ok d' → ∀ kvs, d' ≠ JObj kvs.
Proof.
  revert d. induction updates as [|[loc val] updates IH]; intros d Hd.
  - simpl. by intros [= <-].
  - cbn [rfold]. rewrite write_step_eq.
    destruct (set_nested_item d loc (to_pyval val)) as [r1|e] eqn:Hs.
    + cbn [rbind]. apply IH. by eapply set_nested_item_not_mapping.
    + destruct (bool_decide _); [|done]. cbn [rbind]. by apply IH.
Qed.

(** X14.  With a template that is not a JSON object, [_update_fhir_template]
    raises, whatever the mapping, and leaves the study as it was. *)
Theorem template_must_be_mapping template tm st tr :
  (∀ kvs, template ≠ JObj kvs) →
  ∃ e, Study._update_fhir_template template tm (st, tr) = (Raise e, (st, tr)).
Proof.
  intros Ht.
  destruct (draft (Study.instance st) template tm (Study.series_fhir st))
    as [r|e] eqn:Hd.
  - exfalso. unfold draft, deepcopy in Hd.
    apply rbind_ok_inv in Hd as (collected & _ & Hd).
    apply rbind_ok_inv in Hd as (resource & Hw & Hd).
    pose proof (rfold_write_step_not_mapping _ _ _ Ht Hw) as Hr.
    destruct resource; try done. by destruct (Hr kvs).
  - exists e. by apply update_fhir_template_raise.
Qed.

Lemma template_must_be_mapping_witness :
  ∃ e,
    Study._update_fhir_template (JArr [Sample.template]) Sample.field_map
      (Sample.five_loaded, []) = (Raise e, (Sample.five_loaded, [])).
Proof.
  apply (template_must_be_mapping (JArr [Sample.template]) Sample.field_map
           Sample.five_loaded []).
  discriminate.
Defined.

(** X15.  When the last tag to map is known, the representative instance
    holds a text value for it, and the write at its location succeeds,
    [_update_fhir_template] returns and the document holds, at that
    location, the configured prefix followed by the value, provided the
    location does not start at [series] or [numberOfInstances]. *)
Theorem last_mapped_value_written
    template tkvs tm st tr inst pre tag attr updates stale s k rest r0 r1 :
  template = JObj tkvs →
  Study.instance st = Some inst →
  tags_to_fhir tm = pre ++ [tag] →
  rfold (collect_step (Some inst) (fhir_map_of tm)) pre ([], None) =
    Ok (updates, stale) →
  Dict.get tag dicom_attribute_map = Some attr →
  Instance.tag_value (Instance.dcm inst) (key0 attr) (key1 attr) = Ok (DText s) →
  fhir_map_of tm !! tag = Some (k :: rest) →
  k ≠ SKey "series" → k ≠ SKey "numberOfInstances" →
  rfold write_step updates template = Ok r0 →
  set_nested_item r0 (k :: rest) (JStr (element_prefix attr +:+ s)) = Ok r1 →
  is_ok (count_instances (Study.series_fhir st)) = true →
  ∃ st',
    Study._update_fhir_template template tm (st, tr) = (Ok tt, (st', tr)) ∧
    reduce_getitem (k :: rest) (Study.imagingstudy_fhir st') =
      Ok (JStr (element_prefix attr +:+ s)).
Proof.
  intros -> Hi Htags Hpre Ha Hv Hl Hk1 Hk2 Hw0 Hw1 Hcount.
  assert (Hc : collect_step (Some inst) (fhir_map_of tm) (updates, stale) tag =
               Ok (updates ++ [(k :: rest, DText (element_prefix attr +:+ s))],
                   Some (DText (element_prefix attr +:+ s)))).
  { rewrite (collect_step_known _ _ _ _ _ _ Ha), Hv, Hl.
    destruct (decide (element_prefix attr = "")) as [->|]; done. }
  apply rfold_write_step_root in Hw0 as Hroot0. destruct Hroot0 as (kvs0 & -> & _).
  apply set_nested_item_root in Hw1 as Hroot1. destruct Hroot1 as (kvs1 & -> & _).
  assert (Hd : draft (Study.instance st) (JObj tkvs) tm (Study.series_fhir st) =
               Ok (JObj (Dict.set (SKey "series") (Study.series_fhir st) kvs1))).
  { unfold draft, deepcopy. rewrite Hi, Htags, rfold_app, Hpre. cbn [rbind rfold].
    rewrite Hc. cbn [rbind fst]. rewrite rfold_app, Hw0. cbn [rbind rfold].
    rewrite write_step_eq. cbn [to_pyval]. by rewrite Hw1. }
  rewrite update_fhir_template_run, Hd. unfold finalize.
  apply set_nested_item_reads in Hw1. rewrite reduce_getitem_cons in Hw1.
  cbn [getitem] in Hw1.
  destruct (Dict.mem (SKey "numberOfInstances") _).
  - destruct (count_instances (Study.series_fhir st)) as [n|e]; [|done].
    cbn [rbind setitem]. eexists. split; [done|].
    cbn [Study.set_imagingstudy_fhir Study.imagingstudy_fhir].
    rewrite reduce_getitem_cons. cbn [getitem].
    rewrite !Dict_get_set_ne by done. exact Hw1.
  - eexists. split; [done|].
    cbn [Study.set_imagingstudy_fhir Study.imagingstudy_fhir].
    rewrite reduce_getitem_cons. cbn [getitem].
    rewrite !Dict_get_set_ne by done. exact Hw1.
Qed.

Lemma last_mapped_value_written_witness :
  ∃ st',
    Study._update_fhir_template Sample.template Sample.field_map
      (Sample.five_loaded, []) = (Ok tt, (st', [])) ∧
    reduce_getitem (SKey "subject" :: [SKey "reference"])
      (Study.imagingstudy_fhir st') = Ok (JStr ("Patient/" +:+ "P1")).
Proof.
  pose (r0 := Dict.set (SKey "identifier")
                (JArr [JObj [(SKey "value", JStr "S1")]]) Sample.template_items).
  apply (last_mapped_value_written Sample.template Sample.template_items
           Sample.field_map Sample.five_loaded []
           (Sample.inst "bk" "p1.dcm" "S1" "X" "i1" 1)
           ["(0020,000D)"] "(0010,0020)"
           {| key0 := "0010"; key1 := "0020";
              description := "(0010,0020) Patient ID";
              fhir_element := "ImagingStudy.subject";
              element_prefix := "Patient/" |}
           [([SKey "identifier"; SIdx 0; SKey "value"], DText "S1")]
           (Some (DText "S1")) "P1" (SKey "subject") [SKey "reference"]
           (JObj r0)
           (JObj (Dict.set (SKey "subject")
                    (JObj [(SKey "reference", JStr "Patient/P1")]) r0))).
  - reflexivity.
  - vm_compute. reflexivity.
  - reflexivity.
  - vm_compute. reflexivity.
  - reflexivity.
  - vm_compute. reflexivity.
  - vm_compute. reflexivity.
  - discriminate.
  - discriminate.
  - vm_compute. reflexivity.
  - vm_compute. reflexivity.
  - vm_compute. reflexivity.
Defined.

(** X16.  Whatever it returns or raises, [imagingstudy] leaves the bucket,
    the keys, the study uid, the representative instance and the series
    dict as they were; it makes no call but the reads of the template and
    of the map, in that order, and when it returns it has made both. *)
Theorem imagingstudy_frame env tb tk mk st tr :
  let run := Study.imagingstudy env tb tk mk (st, tr) in
  Study.bucket run.2.1 = Study.bucket st ∧
  Study.instance_keys run.2.1 = Study.instance_keys st ∧
  Study.uid run.2.1 = Study.uid st ∧
  Study.instance run.2.1 = Study.instance st ∧
  Study.series run.2.1 = Study.series st ∧
  ∃ evs,
    run.2.2 = tr ++ evs ∧
    (evs = [] ∨ evs = [S3Get tb tk] ∨ evs = [S3Get tb tk; S3Get tb mk]) ∧
    (is_ok run.1 = true → evs = [S3Get tb tk; S3Get tb mk]).
Proof.
  cbn zeta. rewrite imagingstudy_run. cbn zeta. cbn [fst snd].
  set (c := imagingstudy_closed env tb tk mk (Study.instance st) (Study.series st)).
  assert (Hfields : ∀ o, Study.bucket (apply_outputs o st) = Study.bucket st ∧
            Study.instance_keys (apply_outputs o st) = Study.instance_keys st ∧
            Study.uid (apply_outputs o st) = Study.uid st ∧
            Study.instance (apply_outputs o st) = Study.instance st ∧
            Study.series (apply_outputs o st) = Study.series st).
  { intros [[v|] [v'|]]; done. }
  destruct (Hfields c.1.2) as (-> & -> & -> & -> & ->).
  repeat split. exists c.2. split; [done|].
  subst c. unfold imagingstudy_closed, fetch_templates.
  destruct (series_fragments _); [|cbn; split; [auto|done]].
  cbn zeta. destruct (s3_template env tb tk) as [t|e];
    [|cbn; split; [auto|done]].
  destruct (s3_template_map env tb mk) as [m|e];
    [|cbn; split; [auto|done]].
  cbn [fst snd].
  destruct (draft _ _ _ _); [|cbn; split; [auto|done]].
  destruct (finalize _ _); cbn; split; auto; done.
Qed.

Lemma imagingstudy_frame_witness :
  let run := Study.imagingstudy Sample.setup5 "templates" "template.json"
               "map.json" (Sample.five_loaded, []) in
  Study.bucket run.2.1 = Study.bucket Sample.five_loaded ∧
  Study.instance_keys run.2.1 = Study.instance_keys Sample.five_loaded ∧
  Study.uid run.2.1 = Study.uid Sample.five_loaded ∧
  Study.instance run.2.1 = Study.instance Sample.five_loaded ∧
  Study.series run.2.1 = Study.series Sample.five_loaded ∧
  ∃ evs,
    run.2.2 = [] ++ evs ∧
    (evs = [] ∨ evs = [S3Get "templates" "template.json"]
     ∨ evs = [S3Get "templates" "template.json"; S3Get "templates" "map.json"]) ∧
    (is_ok run.1 = true →
     evs = [S3Get "templates" "template.json"; S3Get "templates" "map.json"]).
Proof.
  exact (imagingstudy_frame Sample.setup5 "templates" "template.json"
           "map.json" Sample.five_loaded []).
Defined.

Lemma finalize_frame resource sf resource' :
  finalize resource sf = Ok resource' →
  ∃ kvs kvs',
    resource = JObj kvs ∧ resource' = JObj kvs' ∧
    Dict.keys kvs' = Dict.keys kvs ∧
    ∀ k, k ≠ SKey "numberOfInstances" → Dict.get k kvs' = Dict.get k kvs.
Proof.
  unfold finalize. destruct resource as [| | | | |kvs]; try done.
  destruct (Dict.mem _ kvs) eqn:Hm.
  - destruct (count_instances sf) as [n|e]; [|done]. cbn [rbind setitem].
    intros [= <-]. exists kvs. eexists. split; [done|]. split; [done|]. split.
    + unfold Dict.mem in Hm. destruct (Dict.get _ kvs) eqn:Hg; [|done].
      unfold Dict.keys. by eapply Dict_keys_set_Some.
    + intros k Hk. by apply Dict_get_set_ne.
  - intros [= <-]. by exists kvs, kvs.
Qed.

(** X17.  When [_transform_fhir] returns it has made no call, the document
    is a dict with the same keys in the same order, every entry other than
    [numberOfInstances] is as before, and the rest of the study is
    unchanged. *)
Theorem transform_touches_only_count st tr st' tr' :
  Study._transform_fhir (st, tr) = (Ok tt, (st', tr')) →
  tr' = tr ∧
  Study.series_fhir st' = Study.series_fhir st ∧
  Study.series st' = Study.series st ∧
  Study.uid st' = Study.uid st ∧
  Study.instance st' = Study.instance st ∧
  ∃ kvs kvs',
    Study.imagingstudy_fhir st = JObj kvs ∧
    Study.imagingstudy_fhir st' = JObj kvs' ∧
    Dict.keys kvs' = Dict.keys kvs ∧
    ∀ k, k ≠ SKey "numberOfInstances" → Dict.get k kvs' = Dict.get k kvs.
Proof.
  rewrite transform_fhir_run.
  destruct (finalize _ _) as [r|e] eqn:Hf; [|done]. intros [= <- <-].
  repeat split. by apply finalize_frame in Hf.
Qed.

Lemma transform_touches_only_count_witness :
  let st' := (Study._transform_fhir (Sample.five_study, [])).2.1 in
  @nil event = [] ∧
  Study.series_fhir st' = Study.series_fhir Sample.five_study ∧
  Study.series st' = Study.series Sample.five_study ∧
  Study.uid st' = Study.uid Sample.five_study ∧
  Study.instance st' = Study.instance Sample.five_study ∧
  ∃ kvs kvs',
    Study.imagingstudy_fhir Sample.five_study = JObj kvs ∧
    Study.imagingstudy_fhir st' = JObj kvs' ∧
    Dict.keys kvs' = Dict.keys kvs ∧
    ∀ k, k ≠ SKey "numberOfInstances" → Dict.get k kvs' = Dict.get k kvs.
Proof.
  intros st'.
  apply (transform_touches_only_count Sample.five_study [] st' []).
  apply run_outcome; vm_compute; reflexivity.
Defined.

(** ** The handler, end to end *)

Lemma imagingstudy_closed_events env tb tk mk instance series :
  let c := imagingstudy_closed env tb tk mk instance series in
  (c.2 = [] ∨ c.2 = [S3Get tb tk] ∨ c.2 = [S3Get tb tk; S3Get tb mk]) ∧
  (is_ok c.1.1 = true → c.2 = [S3Get tb tk; S3Get tb mk]).
Proof.
  cbn zeta. unfold imagingstudy_closed, fetch_templates.
  destruct (series_fragments _); [|cbn; split; [auto|done]].
  cbn zeta. destruct (s3_template env tb tk) as [t|e];
    [|cbn; split; [auto|done]].
  destruct (s3_template_map env tb mk) as [m|e];
    [|cbn; split; [auto|done]].
  cbn [fst snd].
  destruct (draft _ _ _ _); [|cbn; split; [auto|done]].
  destruct (finalize _ _); cbn; split; auto; done.
Qed.

Lemma call_imagingstudy_run env tb tk mk st tr :
  Study.call (Study.imagingstudy env tb tk mk) st tr =
  let c := imagingstudy_closed env tb tk mk (Study.instance st) (Study.series st) in
  (rbind c.1.1 (λ a, Ok (a, apply_outputs c.1.2 st)), tr ++ c.2).
Proof. unfold Study.call. by rewrite imagingstudy_run. Qed.

Lemma call_post_run env h r eb st tr :
  Study.call (Study.post_to_healthlake env h r eb) st tr =
  match getitem (Study.imagingstudy_fhir st) (SKey "resourceType") with
  | Ok (JStr s) =>
      (rbind (healthlake env (eb +:+ s) (Study.imagingstudy_fhir st))
         (λ a, Ok (a, st)),
       tr ++ [HealthlakePost (eb +:+ s) (Study.imagingstudy_fhir st)])
  | Ok _ => (Raise TypeError, tr)
  | Raise e => (Raise e, tr)
  end.
Proof.
  unfold Study.call, Study.post_to_healthlake, bind, Study.self_get, gets,
    from_result, Study.io, emit, modify, ret, raise.
  cbn [fst snd].
  destruct (getitem _ _) as [[| | |s| |]|e]; done.
Qed.

Lemma handle_record_unbound env payload tr :
  batch_of payload = None →
  handle_record env payload tr = (Raise UnboundLocalError, tr).
Proof. by destruct payload as [b|[|b [|b' items]]|]. Qed.


(** X19.  Whatever the records, the handler POSTs at most one document, and
    the POST is then its last call; it returns a response only after a
    POST, and then exactly when the call to HealthLake itself did not
    raise. *)
Theorem handler_posts_last_if_at_all env Records tr :
  let run := sqs_lambda_handler env Records tr in
  ∃ evs,
    run.2 = tr ++ evs ∧
    ((posted evs = [] ∧ ∀ resp, run.1 ≠ Ok (Some resp)) ∨
     (∃ pre endpoint doc,
        evs = pre ++ [HealthlakePost endpoint doc] ∧
        posted pre = [] ∧
        is_ok run.1 = is_ok (healthlake env endpoint doc))).
Proof.
  cbn zeta. destruct Records as [|payload rest].
  { exists []. split; [by rewrite app_nil_r|]. left. done. }
  rewrite handler_runs_first_record.
  destruct (batch_of payload) as [bt|] eqn:Hb.
  2:{ rewrite handle_record_unbound by done. exists [].
      split; [by rewrite app_nil_r|]. left. done. }
  rewrite (handle_record_batch _ _ bt) by done.
  destruct (Study_new_events env (batch_bucket bt) (batch_instances bt) tr)
    as (ev1 & Etr & Hp1 & _ & _).
  destruct (Study.new env (batch_bucket bt) (batch_instances bt) tr)
    as [[a|e] s] eqn:Hnew; cbn [fst snd] in Etr; subst s.
  2:{ rewrite (bind_run_raise _ _ _ _ _ Hnew). exists ev1.
      split; [done|]. left. done. }
  rewrite (bind_run_ok _ _ _ _ _ Hnew).
  pose proof (call_imagingstudy_run env (template_bucket env)
    (template_key env) (template_map_key env) a (tr ++ ev1)) as Hcall.
  cbn zeta in Hcall.
  pose proof (imagingstudy_closed_events env (template_bucket env)
    (template_key env) (template_map_key env) (Study.instance a)
    (Study.series a)) as [Hev2 _]. cbn zeta in Hev2.
  destruct (imagingstudy_closed _ _ _ _ _ _) as [[r outs] ev2].
  cbn [fst snd] in Hev2, Hcall.
  assert (Hp2 : posted (ev1 ++ ev2) = []).
  { rewrite posted_app, Hp1. by destruct Hev2 as [->|[->| ->]]. }
  rewrite <- app_assoc in Hcall.
  destruct r as [[]|e]; cbn [rbind] in Hcall.
  2:{ rewrite (bind_run_raise _ _ _ _ _ Hcall). exists (ev1 ++ ev2).
      split; [done|]. left. done. }
  rewrite (bind_run_ok _ _ _ _ _ Hcall). cbn [snd].
  set (st := apply_outputs outs a) in *.
  pose proof (call_post_run env (host env) (region env) (endpoint_base env)
    st (tr ++ ev1 ++ ev2)) as Hpost.
  destruct (getitem (Study.imagingstudy_fhir st) (SKey "resourceType"))
    as [[| | |kind| |]|e] eqn:Hk;
    try (rewrite (bind_run_raise _ _ _ _ _ Hpost); exists (ev1 ++ ev2);
         split; [done|]; left; done).
  rewrite <- app_assoc in Hpost.
  exists ((ev1 ++ ev2) ++
          [HealthlakePost (endpoint_base env +:+ kind) (Study.imagingstudy_fhir st)]).
  destruct (healthlake env _ _) as [res|e] eqn:Hh; cbn [rbind] in Hpost.
  - rewrite (bind_run_ok _ _ _ _ _ Hpost). unfold ret. cbn [fst snd].
    split; [by rewrite <- app_assoc|]. right. eexists _, _, _.
    split; [done|]. split; [done|]. by rewrite Hh.
  - rewrite (bind_run_raise _ _ _ _ _ Hpost). cbn [fst snd].
    split; [by rewrite <- app_assoc|]. right. eexists _, _, _.
    split; [done|]. split; [done|]. by rewrite Hh.
Qed.


Lemma handler_posts_last_if_at_all_witness :
  let run := sqs_lambda_handler Sample.setup [Sample.payload ["bad.dcm"]] [] in
  ∃ evs,
    run.2 = [] ++ evs ∧
    ((posted evs = [] ∧ ∀ resp, run.1 ≠ Ok (Some resp)) ∨
     (∃ pre endpoint doc,
        evs = pre ++ [HealthlakePost endpoint doc] ∧
        posted pre = [] ∧
        is_ok run.1 = is_ok (healthlake Sample.setup endpoint doc))).
Proof.
  exact (handler_posts_last_if_at_all Sample.setup
           [Sample.payload ["bad.dcm"]] []).
Defined.

(** ** The document [Study.imagingstudy] leaves *)

Lemma draft_needs_mapping inst template tm sf r :
  draft inst template tm sf = Ok r → ∃ tkvs, template = JObj tkvs.
Proof.
  intros Hd. destruct template as [| | | | |tkvs]; [..|by eauto]; exfalso.
  all: unfold draft, deepcopy in Hd;
    apply rbind_ok_inv in Hd as (collected & _ & Hd);
    apply rbind_ok_inv in Hd as (resource & Hw & Hd);
    assert (Hr : ∀ kvs, resource ≠ JObj kvs)
      by (eapply rfold_write_step_not_mapping; [|exact Hw]; intros ? ?;
          discriminate);
    destruct resource as [| | | | |kvs]; try done; by destruct (Hr kvs).
Qed.

Lemma finalize_keeps_keys resource sf kvs' :
  finalize resource sf = Ok (JObj kvs') →
  ∃ kvs, resource = JObj kvs ∧ ∀ k, Dict.mem k kvs = true → Dict.mem k kvs' = true.
Proof.
  unfold finalize. destruct resource as [| | | | |kvs]; try done.
  destruct (Dict.mem _ kvs).
  - destruct (count_instances sf) as [n|e]; [|done]. cbn [rbind setitem].
    intros [= <-]. exists kvs. split; [done|]. intros k Hk.
    rewrite Dict_mem_set, Hk. by destruct (bool_decide _).
  - intros [= <-]. by exists kvs.
Qed.

(** X20.  When [imagingstudy] returns, the template was a JSON object; the
    document is a dict holding every top-level key of the template; its
    [series] entry is the series list of the study, which has one fragment
    per key of the series dict. *)
Theorem imagingstudy_document env tb tk mk st tr st' tr' :
  Study.imagingstudy env tb tk mk (st, tr) = (Ok tt, (st', tr')) →
  ∃ tkvs kvs frags,
    s3_template env tb tk = Ok (JObj tkvs) ∧
    Study.imagingstudy_fhir st' = JObj kvs ∧
    (∀ k, Dict.mem k tkvs = true → Dict.mem k kvs = true) ∧
    Study.series_fhir st' = JArr frags ∧
    Dict.get (SKey "series") kvs = Some (JArr frags) ∧
    length frags = length (Dict.keys (Study.series st)).
Proof.
  rewrite imagingstudy_run. cbn zeta. unfold imagingstudy_closed, fetch_templates.
  destruct (series_fragments (Study.series st)) as [frags|e] eqn:Hfr; [|done].
  cbn zeta. destruct (s3_template env tb tk) as [t|e]; [|done].
  destruct (s3_template_map env tb mk) as [m|e]; [|done]. cbn [fst snd].
  destruct (draft _ _ _ _) as [r|e] eqn:Hd; [|done].
  destruct (finalize _ _) as [r'|e] eqn:Hf; [|done]. cbn [fst snd].
  intros [= <- <-].
  destruct (draft_needs_mapping _ _ _ _ _ Hd) as [tkvs ->].
  destruct (draft_keeps_template_keys _ _ _ _ _ Hd) as (kvs0 & -> & Hk0).
  pose proof (finalize_series _ _ _ Hf) as Hs.
  rewrite (draft_series _ _ _ _ _ Hd) in Hs.
  destruct r' as [| | | | |kvs]; try (by cbn in Hs).
  destruct (finalize_keeps_keys _ _ _ Hf) as (kvs1 & [= <-] & Hk1).
  exists tkvs, kvs, frags. split; [reflexivity|]. split; [reflexivity|].
  split; [by intros k Hk; apply Hk1, Hk0|]. split; [reflexivity|]. split.
  - cbn [getitem] in Hs. destruct (Dict.get _ kvs) as [v|]; [|done].
    by injection Hs as ->.
  - apply rmap_ok_Forall2, Forall2_length in Hfr. done.
Qed.

Lemma imagingstudy_document_witness :
  let run := Study.imagingstudy Sample.setup5 "templates" "template.json"
               "map.json" (Sample.five_loaded, []) in
  ∃ tkvs kvs frags,
    s3_template Sample.setup5 "templates" "template.json" = Ok (JObj tkvs) ∧
    Study.imagingstudy_fhir run.2.1 = JObj kvs ∧
    (∀ k, Dict.mem k tkvs = true → Dict.mem k kvs = true) ∧
    Study.series_fhir run.2.1 = JArr frags ∧
    Dict.get (SKey "series") kvs = Some (JArr frags) ∧
    length frags = length (Dict.keys (Study.series Sample.five_loaded)).
Proof.
  intros run.
  apply (imagingstudy_document Sample.setup5 "templates" "template.json"
           "map.json" Sample.five_loaded [] run.2.1 run.2.2).
  apply run_outcome; [vm_compute; reflexivity | reflexivity].
Defined.
